(** * osm-city-3d: CityJSON building extraction, compaction, linking, triangulation

    A shallow embedding of the algorithmic core of [merge3d.py] and
    [bld2mesh.py]: the semantic-surface resolver, the vertex compactor, the
    footprint extractor, the tile/nearest-building linker and the fan
    triangulator.

    Conventions.
    - Python exceptions are values of [exn]; a Python function that may raise
      returns [result A].
    - Parsed JSON index trees (boundaries, semantics.values) are [tree]s.
    - Coordinates and distances, floats in the source, are exact rationals.
    - shapely and geopandas are libraries, not code of the repository: their
      constructors and predicates used by the linker are parameters of the
      section that embeds it, and the joins are written out from their
      documented behaviour.  What the libraries leave open is a parameter
      too: the order in which the spatial index reports neighbours at equal
      distance, the order numpy's quicksort gives to rows of equal label,
      and the rounding of numpy's conversion to floats. *)

From Stdlib Require Import ZArith QArith String List Lia.
From stdpp Require Import base option list gmap sets strings sorting.

Local Open Scope string_scope.
Local Open Scope Z_scope.

(** ** Python values and exceptions *)

Module Py.

Inductive exn : Type :=
| IndexError
| TypeError
| KeyError
| ValueError
| FileNotFoundError
| SystemExit (msg : string).

Inductive result (A : Type) : Type :=
| Ret (a : A)
| Raise (e : exn).
Arguments Ret {A} a.
Arguments Raise {A} e.

Definition bind {A B : Type} (r : result A) (k : A → result B) : result B :=
  match r with
  | Ret a => k a
  | Raise e => Raise e
  end.

#[global] Instance result_ret : MRet result := λ A a, Ret a.
#[global] Instance result_bind : MBind result := λ A B k r, bind r k.
#[global] Instance result_fmap : FMap result :=
  λ A B f r, bind r (λ a, Ret (f a)).

(** [xs[i]] on a Python list: a negative index counts from the end, an
    index outside [-len, len) raises IndexError. *)
Definition py_index {A : Type} (l : list A) (i : Z) : result A :=
  let n := Z.of_nat (length l) in
  let j := if bool_decide (i < 0) then i + n else i in
  if bool_decide (0 ≤ j < n)
  then from_option Ret (Raise IndexError) (l !! Z.to_nat j)
  else Raise IndexError.

(** The nested integer-or-list values of CityJSON: [boundaries] and
    [semantics.values].  JSON null ([None]) may stand where no index is
    given. *)
#[local] Unset Elimination Schemes.
Inductive tree : Type :=
| Leaf (i : Z)
| Null
| Group (l : list tree).
#[local] Set Elimination Schemes.

(** [v[i]]: only lists can be subscripted; an int or [None] raises
    TypeError. *)
Definition getitem (v : tree) (i : Z) : result tree :=
  match v with
  | Group l => py_index l i
  | Leaf _ | Null => Raise TypeError
  end.

(** [not l] on a list. *)
Definition is_empty {A : Type} (l : list A) : bool :=
  match l with
  | [] => true
  | _ :: _ => false
  end.

(** [v is None] *)
Definition is_None (v : tree) : bool :=
  match v with
  | Null => true
  | Leaf _ | Group _ => false
  end.

(** Truthiness: [None], [0] and the empty list are false. *)
Definition truthy (v : tree) : bool :=
  match v with
  | Null => false
  | Leaf i => negb (i =? 0)
  | Group l => negb (is_empty l)
  end.

(** The dictionary [{g: i for i, g in enumerate(sorted_idx)}], built as
    [global_to_local] in bld2mesh.py and as [index_map] in merge3d.py. *)
Definition enumerate_map (sorted_idx : list Z) : gmap Z Z :=
  list_to_map (imap (λ i g, (g, Z.of_nat i)) sorted_idx).

End Py.
Export Py.

(** ** The CityJSON data model *)

Module CityJSON.

Definition vertex : Type := Q * Q * Q.

(** An entry of [semantics.surfaces]; its other attributes play no role. *)
Record surface : Type := { s_type : option string }.

(** [semantics]: a missing or null [values] is [Null], a missing
    [surfaces] is the empty list (both sources read them through [get]). *)
Record Semantics : Type :=
  { sem_surfaces : list surface;
    sem_values : tree }.

(** A geometry.  [g_boundaries = None] is a geometry without the key. *)
Record Geometry : Type :=
  { g_type : option string;
    g_boundaries : option tree;
    g_semantics : option Semantics }.

Record CityObject : Type :=
  { co_type : option string;
    co_attributes : list (string * string);
    co_geometry : list Geometry }.

(** A document: [cj_other] are the top-level keys other than vertices and
    CityObjects (type, version, metadata, transform, ...), as JSON text;
    [cj_CityObjects] is the dictionary in file order. *)
Record Document : Type :=
  { cj_other : list (string * string);
    cj_vertices : list vertex;
    cj_CityObjects : list (string * CityObject) }.

(** [d.get(k)] on a dictionary kept as an association list. *)
Fixpoint dict_get {V : Type} (d : list (string * V)) (k : string) : option V :=
  match d with
  | [] => None
  | (k', v) :: d' => if String.eqb k' k then Some v else dict_get d' k
  end.

End CityJSON.
Export CityJSON.

(** ** bld2mesh.py *)

Module Bld2Mesh.

(** [error(msg)] with FAIL_ON_ERROR = False: print and exit. *)
Definition error {A : Type} (msg : string) : result A :=
  Raise (SystemExit msg).

(** [semantics = geom.get("semantics") or {}],
    [surf_defs = semantics.get("surfaces") or []],
    [values = semantics.get("values")]. *)
Definition surf_defs (geom : Geometry) : list surface :=
  match g_semantics geom with
  | Some sem => sem_surfaces sem
  | None => []
  end.

Definition values (geom : Geometry) : tree :=
  match g_semantics geom with
  | Some sem => sem_values sem
  | None => Null
  end.

(** [for i in idx_path: v = v[i]] *)
Fixpoint walk (v : tree) (idx_path : list Z) : result tree :=
  match idx_path with
  | [] => Ret v
  | i :: rest => v' ← getitem v i; walk v' rest
  end.

(** [get_sem_type(idx_path)], the closure defined per geometry.  The
    [try] covers the walk only; IndexError and TypeError are caught there. *)
Definition get_sem_type (geom : Geometry) (idx_path : list Z) : result string :=
  let sem_type := "Unknown" in
  if is_empty (surf_defs geom) || is_None (values geom)
  then Ret sem_type
  else
    match walk (values geom) idx_path with
    | Raise IndexError | Raise TypeError => Ret sem_type
    | Raise e => Raise e
    | Ret v =>
        sem_idx ← match v with
                  | Group _ => getitem v 0
                  | _ => Ret v
                  end;
        match sem_idx with
        | Leaf k =>
            if bool_decide (0 ≤ k < Z.of_nat (length (surf_defs geom)))
            then s ← py_index (surf_defs geom) k;
                 Ret (default "Unknown" (s_type s))
            else Ret sem_type
        | _ => Ret sem_type
        end
    end.

(** [polygons_by_type]: semantic type to outer rings, in insertion order. *)
Definition polygons := list (string * list (list Z)).

(** [sorted({idx for polys in ... for poly in polys for idx in poly})] *)
Definition used_global_indices (polygons_by_type : polygons) : list Z :=
  let used : gset Z :=
    list_to_set (polys ← polygons_by_type.*2; poly ← polys; poly) in
  merge_sort Z.le (elements used).

(** The block "Build unified local vertex array": the sorted used indices,
    the global-to-local dictionary and the sliced vertex rows. *)
Definition local_vertex_array (polygons_by_type : polygons)
    (vertices_global : list vertex) : result (gmap Z Z * list vertex) :=
  let used := used_global_indices polygons_by_type in
  if is_empty used
  then error "No vertex indices referenced by polygons."
  else
    let global_to_local := enumerate_map used in
    match mapM (py_index vertices_global) used with
    | Ret vertices => Ret (global_to_local, vertices)
    | Raise _ => error "Failed to slice vertices array with used indices"
    end.

(** [triangulate_fan(ring_global_indices)]; [global_to_local[g]] raises
    KeyError on an index that is not a key. *)
Definition triangulate_fan (global_to_local : gmap Z Z)
    (ring_global_indices : list Z) : result (list (list Z)) :=
  local_ring ← mapM (λ g, from_option Ret (Raise KeyError) (global_to_local !! g))
                    ring_global_indices;
  if bool_decide (length local_ring < 3)%nat
  then Ret []
  else
    Ret ((λ i : nat, [local_ring !!! 0%nat; local_ring !!! i; local_ring !!! (i + 1)%nat])
           <$> seq 1 (length local_ring - 1 - 1)).

End Bld2Mesh.

(** ** merge3d.py *)

Module Merge3d.

Definition MAX_BUILDING_DISTANCE : Q := 25.

(** *** Self-contained CityJSON for one building *)

(** [collect_indices(x)], adding to the set [used_indices]. *)
Fixpoint collect_indices (x : tree) (used_indices : gset Z) : gset Z :=
  match x with
  | Leaf i => {[ i ]} ∪ used_indices
  | Group l => fold_left (λ used e, collect_indices e used) l used_indices
  | Null => used_indices
  end.

(** [remap_boundaries(x)]; [index_map[x]] raises KeyError on a missing key. *)
Fixpoint remap_boundaries (index_map : gmap Z Z) (x : tree) : result tree :=
  match x with
  | Leaf i => from_option (λ j, Ret (Leaf j)) (Raise KeyError) (index_map !! i)
  | Group l => Group <$> mapM (remap_boundaries index_map) l
  | Null => Ret Null
  end.

(** [geom.get("boundaries", [])] *)
Definition boundaries_of (geom : Geometry) : tree :=
  default (Group []) (g_boundaries geom).

Definition set_boundaries (geom : Geometry) (b : tree) : Geometry :=
  {| g_type := g_type geom; g_boundaries := Some b; g_semantics := g_semantics geom |}.

Definition set_geometry (obj : CityObject) (geoms : list Geometry) : CityObject :=
  {| co_type := co_type obj; co_attributes := co_attributes obj; co_geometry := geoms |}.

(** Step 1: the indices used by the geometries of the building. *)
Definition used_indices_of (bld_obj : CityObject) : gset Z :=
  fold_left (λ used geom, collect_indices (boundaries_of geom) used)
            (co_geometry bld_obj) ∅.

(** The compact vertex array and the index map. *)
Definition compact (full_vertices : list vertex) (used_indices : gset Z)
    : result (list vertex * gmap Z Z) :=
  if bool_decide (used_indices = ∅)
  then Ret ([], ∅)
  else
    let sorted_idx := merge_sort Z.le (elements used_indices) in
    let index_map := enumerate_map sorted_idx in
    new_vertices ← mapM (py_index full_vertices) sorted_idx;
    Ret (new_vertices, index_map).

Definition make_single_building_cityjson (cj : Document) (bldg_id : string)
    : result (option Document) :=
  let cityobjs := cj_CityObjects cj in
  match dict_get cityobjs bldg_id with
  | None => Ret None
  | Some bld_obj =>
      let full_vertices := cj_vertices cj in
      let used_indices := used_indices_of bld_obj in
      '(new_vertices, index_map) ← compact full_vertices used_indices;
      geoms ← mapM (λ geom, b ← remap_boundaries index_map (boundaries_of geom);
                            Ret (set_boundaries geom b))
                   (co_geometry bld_obj);
      Ret (Some {| cj_other := cj_other cj;
                   cj_vertices := new_vertices;
                   cj_CityObjects := [(bldg_id, set_geometry bld_obj geoms)] |})
  end.

(** *** Footprints for matching *)

Section Footprints.

(** shapely: geometries, the polygon constructor (ValueError on a ring
    of one or two points), the union of a list of geometries. *)
Context {Geom : Type}.
Variable Polygon : list (Q * Q) → result Geom.
Variable unary_union : list Geom → Geom.

(** [{i for i, s in enumerate(surfaces) if s.get("type") == "GroundSurface"}] *)
Definition ground_indices (surfaces : list surface) : gset Z :=
  list_to_set
    (omap (λ '(i, s), if bool_decide (s_type s = Some "GroundSurface")
                       then Some (Z.of_nat i) else None)
          (imap pair surfaces)).

(** [for e in x]: only a list can be iterated. *)
Definition iter (x : tree) : result (list tree) :=
  match x with
  | Group l => Ret l
  | Leaf _ | Null => Raise TypeError
  end.

(** The semantic index used by surface [surf_idx]. *)
Definition surface_sem_idx (values : tree) (surf_idx : nat) : result tree :=
  if truthy values
  then
    sem_idx ← getitem values (Z.of_nat surf_idx);
    match sem_idx with
    | Group _ => getitem sem_idx 0
    | _ => Ret sem_idx
    end
  else Ret Null.

(** [sem_idx not in ground_indices]; a list is unhashable. *)
Definition not_in_ground (sem_idx : tree) (ground : gset Z) : result bool :=
  match sem_idx with
  | Leaf k => Ret (bool_decide (k ∉ ground))
  | Null => Ret true
  | Group _ => Raise TypeError
  end.

(** [Polygon([(x, y) for x, y, z in [vertices[i] for i in ring]])] *)
Definition ring_polygon (vertices : list vertex) (ring : tree) : result Geom :=
  idxs ← iter ring;
  coords ← mapM (λ i, match i with
                      | Leaf k => py_index vertices k
                      | Null | Group _ => Raise TypeError
                      end) idxs;
  Polygon ((λ '(x, y, z), (x, y)) <$> coords).

(** The body of [for surf_idx, rings in enumerate(boundaries)]. *)
Definition surface_ground_polys (vertices : list vertex) (values : tree)
    (ground : gset Z) (surf_idx : nat) (rings : tree) : result (list Geom) :=
  sem_idx ← surface_sem_idx values surf_idx;
  skip ← not_in_ground sem_idx ground;
  if skip : bool
  then Ret []
  else rs ← iter rings; mapM (ring_polygon vertices) rs.

(** The body of [for geom in geoms_raw]: the ground polygons the
    geometry adds to [ground_polys]. *)
Definition geom_ground_polys (vertices : list vertex) (geom : Geometry)
    : result (list Geom) :=
  if negb (bool_decide (g_type geom = Some "MultiSurface"))
  then Ret []
  else
    let boundaries := boundaries_of geom in
    let surfaces := Bld2Mesh.surf_defs geom in
    let values := match g_semantics geom with
                  | Some sem => sem_values sem
                  | None => Group []
                  end in
    let ground := ground_indices surfaces in
    if bool_decide (ground = ∅)
    then Ret []
    else
      surfs ← iter boundaries;
      polys ← mapM (λ '(surf_idx, rings),
                      surface_ground_polys vertices values ground surf_idx rings)
                   (imap pair surfs);
      Ret (concat polys).

(** The footprint of one building, [None] when it has no ground polygon. *)
Definition footprint (vertices : list vertex) (obj : CityObject)
    : result (option Geom) :=
  polys ← mapM (geom_ground_polys vertices) (co_geometry obj);
  let ground_polys := concat polys in
  if is_empty ground_polys
  then Ret None
  else Ret (Some (unary_union ground_polys)).

(** [load_buildings_from_cityjson(cj)]: the rows (bldg_id, geometry). *)
Definition load_buildings_from_cityjson (cj : Document)
    : result (list (string * Geom)) :=
  let vertices := cj_vertices cj in
  rows ← mapM (λ '(cid, obj),
                 if negb (bool_decide (co_type obj = Some "Building"))
                 then Ret None
                 else
                   fp ← footprint vertices obj;
                   match fp with
                   | Some g => Ret (Some (cid, g))
                   | None => Ret None
                   end)
              (cj_CityObjects cj);
  Ret (omap id (rows : list (option (string * Geom)))).

End Footprints.

(** *** Data frames of the linker *)

(** A cell of a data frame: Python [None], the missing marker NaN that
    joins leave in unmatched rows, a string or a number. *)
Inductive cell : Type :=
| CNone
| CNaN
| CStr (s : string)
| CNum (q : Q).

(** [pd.isna(c)] *)
Definition isna (c : cell) : bool :=
  match c with
  | CNone | CNaN => true
  | CStr _ | CNum _ => false
  end.

(** A row of [gdf_tiles]; its geometry is [box(xmin, ymin, xmax, ymax)]. *)
Record Tile : Type :=
  { filename : string; path : string;
    xmin : Q; ymin : Q; xmax : Q; ymax : Q }.

(** A row of [gdf_osm] after projection: index label, point, properties. *)
Record Point : Type :=
  { index : Z; px : Q; py : Q; props : list (string * cell) }.

(** A row of [osm_with_tiles]. *)
Record TileRow : Type :=
  { tr_point : Point; tr_filename : cell; tr_path : cell }.

(** A row of [matched_all]: the linked record. *)
Record MatchRow : Type :=
  { m_row : TileRow; bldg_id : cell; dist_m : cell }.

(** The content of [<osm_id>_bld.json]. *)
Record BldData : Type :=
  { osm_id : cell;
    cityjson_tile : cell;
    cityjson_building_id : cell;
    distance_to_building_m : cell;
    cityjson : option Document }.

Definition Qltb (a b : Q) : bool := negb (Qle_bool b a).

(** shapely [within] for a point and a box: the point lies in the
    interior of the box. *)
Definition within (p : Point) (t : Tile) : bool :=
  Qltb (xmin t) (px p) && Qltb (px p) (xmax t) &&
  Qltb (ymin t) (py p) && Qltb (py p) (ymax t).

(** The joined row of a point and a tile that contains it. *)
Definition tile_row (p : Point) (t : Tile) : TileRow :=
  {| tr_point := p; tr_filename := CStr (filename t); tr_path := CStr (path t) |}.

(** [gpd.sjoin(gdf_osm, gdf_tiles[...], how="left", predicate="within")]:
    one row per (point, containing tile); a point in no tile keeps one row
    with missing tile columns. *)
Definition sjoin (gdf_osm : list Point) (gdf_tiles : list Tile) : list TileRow :=
  p ← gdf_osm;
  match List.filter (within p) gdf_tiles with
  | [] => [ {| tr_point := p; tr_filename := CNaN; tr_path := CNaN |} ]
  | ts => tile_row p <$> ts
  end.

Definition path_is (k : string) (r : TileRow) : bool :=
  match tr_path r with
  | CStr s => String.eqb s k
  | _ => false
  end.

(** [has_tile.groupby("path")]: the groups in ascending key order, each
    with its rows in frame order. *)
Definition groupby_path (rows : list TileRow) : list (string * list TileRow) :=
  let keys : gset string :=
    list_to_set (omap (λ r, match tr_path r with CStr s => Some s | _ => None end) rows) in
  (λ k, (k, List.filter (path_is k) rows))
    <$> merge_sort (λ a b, String.leb a b) (elements keys).

(** [group["bldg_id"] = None; group["dist_m"] = None] *)
Definition unmatched (rows : list TileRow) : list MatchRow :=
  (λ r, {| m_row := r; bldg_id := CNone; dist_m := CNone |}) <$> rows.

(** A list put in an order that a library chooses: every member is placed,
    from the last to the first, before the first member that it goes
    [before].  Whatever [before] is, the result holds the members of the
    list, each as often as the list does. *)
Fixpoint place {A : Type} (before : A → A → bool) (x : A) (l : list A) : list A :=
  match l with
  | [] => [x]
  | y :: l' => if before x y then x :: y :: l' else y :: place before x l'
  end.

Definition arrange {A : Type} (before : A → A → bool) (l : list A) : list A :=
  foldr (place before) [] l.

(** [index.is_monotonic_increasing]: no label is less than the one before. *)
Fixpoint is_monotonic_increasing (labels : list Z) : bool :=
  match labels with
  | a :: rest =>
      match rest with
      | b :: _ => bool_decide (a ≤ b) && is_monotonic_increasing rest
      | [] => true
      end
  | [] => true
  end.

Definition label (r : MatchRow) : Z := index (tr_point (m_row r)).

(** [matched_all.sort_index(inplace=True)].  pandas leaves a frame whose
    index is already monotonic increasing as it is.  Otherwise it puts the
    rows in ascending label order with numpy's quicksort, which is not
    stable: the order among rows of equal label is the library's choice,
    here [label_ties frame], which tells of two rows of equal label whether
    the first comes before the second. *)
Definition sort_index (label_ties : list MatchRow → MatchRow → MatchRow → bool)
    (rows : list MatchRow) : list MatchRow :=
  if is_monotonic_increasing (label <$> rows)
  then rows
  else arrange (λ r r', bool_decide (label r < label r')
                        || bool_decide (label r = label r') && label_ties rows r r')
               rows.

Section Linker.

Context {Geom : Type}.
Variable Polygon : list (Q * Q) → result Geom.
Variable unary_union : list Geom → Geom.
(** shapely planar distance from a point to a geometry (0 inside). *)
Variable distance : Q * Q → Geom → Q.
(** The order in which the spatial index of a footprint frame reports the
    neighbours of a point: [query_order p right n n'] tells whether
    neighbour [n] is reported before neighbour [n']. *)
Variable query_order : Point → list (string * Geom) → string * Q → string * Q → bool.
(** numpy's order among rows of equal label, see [sort_index]. *)
Variable label_ties : list MatchRow → MatchRow → MatchRow → bool.
(** The tile files on disk, by path. *)
Variable files : gmap string Document.

(** The neighbours [sindex.nearest(..., return_all=True, max_distance)]
    reports for one point: among the footprints at distance at most
    [max_distance], all those at the least distance, in the order of the
    spatial index. *)
Definition nearest (p : Point) (right : list (string * Geom)) (max_distance : Q)
    : list (string * Q) :=
  let cands :=
    List.filter (λ bd, Qle_bool bd.2 max_distance)
                ((λ b, (b.1, distance (px p, py p) b.2)) <$> right) in
  arrange (query_order p right)
          (List.filter (λ bd, forallb (λ bd', Qle_bool bd.2 bd'.2) cands) cands).

(** The rows of [gpd.sjoin_nearest(group, bldg_gdf, how="left",
    max_distance=..., distance_col="dist_m")] for one left row: one row
    per reported neighbour, or one row with missing columns. *)
Definition nearest_rows (right : list (string * Geom)) (max_distance : Q)
    (r : TileRow) : list MatchRow :=
  match nearest (tr_point r) right max_distance with
  | [] => [ {| m_row := r; bldg_id := CNaN; dist_m := CNaN |} ]
  | ns => (λ bd, {| m_row := r; bldg_id := CStr bd.1; dist_m := CNum bd.2 |}) <$> ns
  end.

Definition sjoin_nearest (group : list TileRow) (right : list (string * Geom))
    (max_distance : Q) : list MatchRow :=
  r ← group; nearest_rows right max_distance r.

(** What the loop body appends to [matched_chunks] once the footprints
    of the tile are known. *)
Definition match_group (group : list TileRow) (bldg_gdf : list (string * Geom))
    : list MatchRow :=
  if is_empty bldg_gdf
  then unmatched group
  else sjoin_nearest group bldg_gdf MAX_BUILDING_DISTANCE.

(** The body of [for tile_path_str, group in has_tile.groupby("path")],
    threading the cache of loaded documents. *)
Definition link_tile (cityjson_cache : gmap string Document)
    (tile_path_str : string) (group : list TileRow)
    : result (gmap string Document * list MatchRow) :=
  '(cache, cj) ←
    match cityjson_cache !! tile_path_str with
    | None =>
        cj ← from_option Ret (Raise FileNotFoundError) (files !! tile_path_str);
        Ret (<[tile_path_str := cj]> cityjson_cache, cj)
    | Some cj => Ret (cityjson_cache, cj)
    end;
  bldg_gdf ← load_buildings_from_cityjson Polygon unary_union cj;
  Ret (cache, match_group group bldg_gdf).

Fixpoint link_tiles (cityjson_cache : gmap string Document)
    (groups : list (string * list TileRow))
    : result (gmap string Document * list (list MatchRow)) :=
  match groups with
  | [] => Ret (cityjson_cache, [])
  | (tile_path_str, group) :: rest =>
      '(cache, chunk) ← link_tile cityjson_cache tile_path_str group;
      '(cache', chunks) ← link_tiles cache rest;
      Ret (cache', chunk :: chunks)
  end.

(** Steps 3 and 4 of [main]: the frame [matched_all] and the cache. *)
Definition link (gdf_osm : list Point) (gdf_tiles : list Tile)
    : result (gmap string Document * list MatchRow) :=
  let osm_with_tiles := sjoin gdf_osm gdf_tiles in
  let no_tile := List.filter (λ r, isna (tr_path r)) osm_with_tiles in
  let has_tile := List.filter (λ r, negb (isna (tr_path r))) osm_with_tiles in
  '(cityjson_cache, matched_chunks) ← link_tiles ∅ (groupby_path has_tile);
  let matched_all :=
    if is_empty matched_chunks
    then unmatched osm_with_tiles
    else concat matched_chunks in
  let matched_all :=
    if is_empty no_tile
    then matched_all
    else (matched_all ++ unmatched no_tile)%list in
  Ret (cityjson_cache, sort_index label_ties matched_all).

(** [row.get("osm_id", idx)] *)
Definition row_osm_id (row : MatchRow) : cell :=
  let p := tr_point (m_row row) in
  default (CNum (inject_Z (index p))) (dict_get (props p) "osm_id").

(** Step 5 for one row: the building file.  A cell that is not a string
    is no key of CityObjects. *)
Definition bld_data (cityjson_cache : gmap string Document) (row : MatchRow)
    : result BldData :=
  let tile_path_str := tr_path (m_row row) in
  cityjson_single ←
    match bldg_id row, tile_path_str with
    | CNone, _ => Ret None
    | b, CStr p =>
        match cityjson_cache !! p with
        | Some cj_full =>
            match b with
            | CStr b => make_single_building_cityjson cj_full b
            | _ => Ret None
            end
        | None => Ret None
        end
    | _, _ => Ret None
    end;
  Ret {| osm_id := row_osm_id row;
         cityjson_tile := tr_filename (m_row row);
         cityjson_building_id := bldg_id row;
         distance_to_building_m := if isna (dist_m row) then CNone else dist_m row;
         cityjson := cityjson_single |}.

(** [main]: the building files in the order they are written, each with
    the osm id that names it. *)
Definition main (gdf_osm : list Point) (gdf_tiles : list Tile)
    : result (list (cell * BldData)) :=
  '(cityjson_cache, matched_all) ← link gdf_osm gdf_tiles;
  mapM (λ row, d ← bld_data cityjson_cache row; Ret (row_osm_id row, d)) matched_all.

End Linker.

#[global] Instance Q_eq_dec : EqDecision Q.
Proof. solve_decision. Defined.
#[global] Instance cell_eq_dec : EqDecision cell.
Proof. solve_decision. Defined.

(** The file left on disk under a name: the last one written. *)
Definition final_record (writes : list (cell * BldData)) (id : cell) : option BldData :=
  snd <$> last (List.filter (λ w, bool_decide (w.1 = id)) writes).

End Merge3d.

(** ** Vocabulary for statements about index trees *)

Module Trees.

(** The integer leaves of a tree, left to right. *)
Fixpoint leaves (t : tree) : list Z :=
  match t with
  | Leaf i => [i]
  | Null => []
  | Group l => concat (map leaves l)
  end.

(** The nesting shape of a tree: its branching and the positions of its
    leaves, with the leaf values erased. *)
Fixpoint shape (t : tree) : tree :=
  match t with
  | Leaf _ => Leaf 0
  | Null => Null
  | Group l => Group (map shape l)
  end.

(** Structural induction on trees, with the hypothesis for every member of
    a group. *)
Section tree_induction.
Variable P : tree → Prop.
Hypothesis Hleaf : ∀ i, P (Leaf i).
Hypothesis Hnull : P Null.
Hypothesis Hgroup : ∀ l, Forall P l → P (Group l).

Fixpoint tree_ind (t : tree) : P t :=
  match t with
  | Leaf i => Hleaf i
  | Null => Hnull
  | Group l =>
      Hgroup l ((fix go (l : list tree) : Forall P l :=
                   match l with
                   | [] => @List.Forall_nil _ P
                   | x :: l' => @List.Forall_cons _ P x l' (tree_ind x) (go l')
                   end) l)
  end.
End tree_induction.

End Trees.
Export Trees.

(** ** Vocabulary for statements about geometries *)

Module Geometries.

(** [semantics.values] is missing (no semantics, no key, or null) or is the
    empty list. *)
Definition values_missing_or_empty (geom : Geometry) : Prop :=
  match g_semantics geom with
  | None => True
  | Some sem => sem_values sem = Null ∨ sem_values sem = Group []
  end.

(** [boundaries] is a JSON array, or the key is absent. *)
Definition boundaries_is_list (geom : Geometry) : Prop :=
  match g_boundaries geom with
  | None => True
  | Some b => ∃ l, b = Group l
  end.

(** A MultiSurface geometry that carries no usable semantic values. *)
Definition multisurface_without_values (geom : Geometry) : Prop :=
  g_type geom = Some "MultiSurface" ∧
  boundaries_is_list geom ∧
  values_missing_or_empty geom.

(** The document with another dictionary of city objects. *)
Definition with_CityObjects (cj : Document) (objs : list (string * CityObject))
    : Document :=
  {| cj_other := cj_other cj; cj_vertices := cj_vertices cj; cj_CityObjects := objs |}.

End Geometries.
Export Geometries.

(** ** Vocabulary for statements about matching *)

Module Matching.

(** A footprint is an accepted nearest neighbour of the point: it lies
    within the threshold and no footprint of the frame is nearer. *)
Definition accepted_nearest {Geom : Type} (distance : Q * Q → Geom → Q)
    (p : Merge3d.Point) (right : list (string * Geom))
    (max_distance : Q) (g : Geom) : Prop :=
  (distance (Merge3d.px p, Merge3d.py p) g <= max_distance)%Q ∧
  ∀ b' g', (b', g') ∈ right →
    (distance (Merge3d.px p, Merge3d.py p) g
     <= distance (Merge3d.px p, Merge3d.py p) g')%Q.

End Matching.
Export Matching.

(** ** Concrete inputs used by the examples *)

Module Examples.

Definition wall : surface := {| s_type := Some "WallSurface" |}.
Definition roof : surface := {| s_type := Some "RoofSurface" |}.
Definition ground : surface := {| s_type := Some "GroundSurface" |}.

Definition multisurface (boundaries : tree) (surfaces : list surface) (vals : tree)
    : Geometry :=
  {| g_type := Some "MultiSurface";
     g_boundaries := Some boundaries;
     g_semantics := Some {| sem_surfaces := surfaces; sem_values := vals |} |}.


(** surfaces [Wall], values [[]]: the value of surface 0 is an empty group. *)
Definition empty_group_geom : Geometry :=
  multisurface (Group []) [wall] (Group [Group []]).

(** A document with two buildings over a shared vertex array.  Building
    b1 is a box on the vertices 4..11, building b0 has no geometry. *)
Definition box_vertices : list vertex :=
  [ (90, 90, 0); (91, 90, 0); (91, 91, 0); (90, 91, 0);
    (10, 0, 0); (14, 0, 0); (14, 4, 0); (10, 4, 0);
    (10, 0, 3); (14, 0, 3); (14, 4, 3); (10, 4, 3) ]%Q.

Definition box_geom : Geometry :=
  multisurface
    (Group [ Group [Group [Leaf 4; Leaf 7; Leaf 6; Leaf 5]];
             Group [Group [Leaf 8; Leaf 9; Leaf 10; Leaf 11]];
             Group [Group [Leaf 4; Leaf 5; Leaf 9; Leaf 8]] ])
    [ground; roof; wall]
    (Group [Leaf 0; Leaf 1; Leaf 2]).

Definition b1 : CityObject :=
  {| co_type := Some "Building";
     co_attributes := [("function", "residential")];
     co_geometry := [box_geom] |}.

Definition b0 : CityObject :=
  {| co_type := Some "Building"; co_attributes := []; co_geometry := [] |}.

Definition box_doc : Document :=
  {| cj_other := [("type", "CityJSON"); ("version", "1.0.1")];
     cj_vertices := box_vertices;
     cj_CityObjects := [("b0", b0); ("b1", b1)] |}.

(** The box alone, over its own eight vertices. *)
Definition box_local_geom : Geometry :=
  multisurface
    (Group [ Group [Group [Leaf 0; Leaf 3; Leaf 2; Leaf 1]];
             Group [Group [Leaf 4; Leaf 5; Leaf 6; Leaf 7]];
             Group [Group [Leaf 0; Leaf 1; Leaf 5; Leaf 4]] ])
    [ground; roof; wall]
    (Group [Leaf 0; Leaf 1; Leaf 2]).

Definition b1_local : CityObject :=
  {| co_type := Some "Building";
     co_attributes := [("function", "residential")];
     co_geometry := [box_local_geom] |}.

Definition box_local_doc : Document :=
  {| cj_other := [("type", "CityJSON"); ("version", "1.0.1")];
     cj_vertices := [ (10, 0, 0); (14, 0, 0); (14, 4, 0); (10, 4, 0);
                      (10, 0, 3); (14, 0, 3); (14, 4, 3); (10, 4, 3) ]%Q;
     cj_CityObjects := [("b1", b1_local)] |}.

(** Stand-ins for shapely in the examples.  A geometry is the list of
    its rings; every footprint below is one axis-parallel rectangle and
    every point is level with it or straight above or below it, where the
    planar distance is the gap along one axis, which [distance]
    computes. *)
Definition Geom : Type := list (list (Q * Q)).

Definition Polygon (ring : list (Q * Q)) : result Geom :=
  if bool_decide (0 < length ring < 3)%nat then Raise ValueError else Ret [ring].

Definition unary_union (gs : list Geom) : Geom := concat gs.

Definition Qmin' (a b : Q) : Q := if Qle_bool a b then a else b.
Definition Qmax' (a b : Q) : Q := if Qle_bool a b then b else a.

Definition gap (l : list Q) (v : Q) : Q :=
  let lo := foldr Qmin' (hd 0%Q l) l in
  let hi := foldr Qmax' (hd 0%Q l) l in
  if Merge3d.Qltb v lo then (lo - v)%Q
  else if Merge3d.Qltb hi v then (v - hi)%Q
  else 0%Q.

Definition distance (p : Q * Q) (g : Geom) : Q :=
  (gap (fst <$> concat g) p.1 + gap (snd <$> concat g) p.2)%Q.

(** Stand-ins for the orders the libraries choose: neighbours at equal
    distance are reported in frame order, and rows of equal label keep
    their order. *)
Definition query_order (p : Merge3d.Point) (right : list (string * Geom))
    (n n' : string * Q) : bool := true.

Definition label_ties (frame : list Merge3d.MatchRow) (r r' : Merge3d.MatchRow) : bool :=
  true.

(** A building whose only surface is a ground rectangle over the vertices
    [first .. first + 3]. *)
Definition ground_building (first : Z) : CityObject :=
  {| co_type := Some "Building";
     co_attributes := [];
     co_geometry :=
       [multisurface
          (Group [Group [Group [Leaf first; Leaf (first + 1);
                                Leaf (first + 2); Leaf (first + 3)]]])
          [ground] (Group [Leaf 0])] |}.

Definition rectangle (x0 x1 : Q) : list vertex :=
  [ (x0, 48, 0); (x1, 48, 0); (x1, 52, 0); (x0, 52, 0) ]%Q.

(** One tile with building A on x in [20, 24] and building B on x in
    [40, 44], both on y in [48, 52]. *)
Definition tile_doc : Document :=
  {| cj_other := [("type", "CityJSON")];
     cj_vertices := (rectangle 20 24 ++ rectangle 40 44)%list;
     cj_CityObjects := [("A", ground_building 0); ("B", ground_building 4)] |}.

Definition tile : Merge3d.Tile :=
  {| Merge3d.filename := "tile.json"; Merge3d.path := "tiles/tile.json";
     Merge3d.xmin := 0; Merge3d.ymin := 0; Merge3d.xmax := 100; Merge3d.ymax := 100 |}.

(** A building whose geometries are MultiSurfaces with a ground surface
    declared but no usable [semantics.values]: one without the key, one
    with an empty list. *)
Definition building_without_values : CityObject :=
  {| co_type := Some "Building";
     co_attributes := [];
     co_geometry :=
       [ multisurface (Group [Group [Group [Leaf 0; Leaf 1; Leaf 2; Leaf 3]]])
                      [ground] Null;
         multisurface (Group [Group [Group [Leaf 4; Leaf 5; Leaf 6; Leaf 7]]])
                      [ground] (Group []) ] |}.

(** [tile_doc] with that building between A and B. *)
Definition tile_doc_with_unvalued : Document :=
  {| cj_other := [("type", "CityJSON")];
     cj_vertices := (rectangle 20 24 ++ rectangle 40 44)%list;
     cj_CityObjects := [("A", ground_building 0);
                        ("N", building_without_values);
                        ("B", ground_building 4)] |}.

(** The footprints of [tile_doc]. *)
Definition two_buildings : list (string * Geom) :=
  [ ("A", [[(20, 48); (24, 48); (24, 52); (20, 52)]]);
    ("B", [[(40, 48); (44, 48); (44, 52); (40, 52)]]) ]%Q.

Definition point (i : Z) (x : Q) : Merge3d.Point :=
  {| Merge3d.index := i; Merge3d.px := x; Merge3d.py := 50;
     Merge3d.props := [] |}.

Definition in_tile (p : Merge3d.Point) (t : Merge3d.Tile) : Merge3d.TileRow :=
  Merge3d.tile_row p t.

(** 10 from A and 30 from B. *)
Definition p_near : Merge3d.Point := point 0 10.
(** 26 from B and 46 from A: nothing within 25. *)
Definition p_far : Merge3d.Point := point 1 70.
(** 8 from A and 8 from B. *)
Definition p_tie : Merge3d.Point := point 2 32.

(** Two tiles whose boxes overlap on x in (50, 60).  The east tile has
    building B on x in [65, 69], the west tile building A on x in
    [31, 35]; the point at x = 55 lies in both boxes, 10 from B and 20
    from A. *)
Definition east_doc : Document :=
  {| cj_other := [("type", "CityJSON")];
     cj_vertices := rectangle 65 69;
     cj_CityObjects := [("B", ground_building 0)] |}.

Definition west_doc : Document :=
  {| cj_other := [("type", "CityJSON")];
     cj_vertices := rectangle 31 35;
     cj_CityObjects := [("A", ground_building 0)] |}.

Definition east : Merge3d.Tile :=
  {| Merge3d.filename := "east.json"; Merge3d.path := "tiles/east.json";
     Merge3d.xmin := 50; Merge3d.ymin := 0; Merge3d.xmax := 110; Merge3d.ymax := 100 |}.

Definition west : Merge3d.Tile :=
  {| Merge3d.filename := "west.json"; Merge3d.path := "tiles/west.json";
     Merge3d.xmin := 0; Merge3d.ymin := 0; Merge3d.xmax := 60; Merge3d.ymax := 100 |}.

Definition files : gmap string Document :=
  <["tiles/east.json" := east_doc]> (<["tiles/west.json" := west_doc]> ∅).

Definition p_both : Merge3d.Point := point 0 55.

Definition id4 : gmap Z Z := enumerate_map [0; 1; 2; 3].

End Examples.

(** ** bld2mesh.py: geometry source, polygon collection, meshes *)

Module Mesh.

(** The input JSON of the script: the embedded [cityjson] block when it is a
    dictionary with vertices and CityObjects, [cityjson_building_id],
    [cityjson_tile], and whether the old-style [building] key holds a
    value. *)
Record Input : Type :=
  { in_cityjson : option Document;
    in_building_id : option string;
    in_tile : option string;
    in_building : bool }.

(** Truthiness of an optional string: missing and empty are false. *)
Definition nonempty (s : option string) : bool :=
  match s with
  | Some s => negb (String.eqb s "")
  | None => false
  end.

(** [np.array(vertices, dtype=float)]: every coordinate is converted to a
    64-bit float.  [to_float] is that conversion; it rounds a number that no
    such float holds. *)
Definition float_vertex (to_float : Q → Q) (v : vertex) : vertex :=
  let '(x, y, z) := v in (to_float x, to_float y, to_float z).

Definition np_array (to_float : Q → Q) (vertices : list vertex) : list vertex :=
  float_vertex to_float <$> vertices.

(** "Find geometry source": the vertex array and the building object,
    from the embedded block or from the external tile [BASE_DIR / tile_name]
    read from [files]. *)
Definition resolve_source (to_float : Q → Q) (files : gmap string Document) (data : Input)
    : result (list vertex * CityObject) :=
  let building_id := in_building_id data in
  match in_cityjson data, nonempty building_id with
  | Some city, true =>
      match dict_get (cj_CityObjects city) (default "" building_id) with
      | None => Bld2Mesh.error "Building id not found in embedded CityObjects."
      | Some building_obj => Ret (np_array to_float (cj_vertices city), building_obj)
      end
  | _, _ =>
      if negb (nonempty (in_tile data)) || negb (in_building data)
      then Bld2Mesh.error "File has no valid embedded 'cityjson' and no usable old-style 'cityjson_tile' + 'building' keys. Cannot build mesh."
      else
        match files !! default "" (in_tile data) with
        | None => Bld2Mesh.error "Cannot read external CityJSON tile"
        | Some tile =>
            if negb (nonempty building_id)
            then Bld2Mesh.error "Missing 'cityjson_building_id' in file for old-style format."
            else
              match dict_get (cj_CityObjects tile) (default "" building_id) with
              | None => Bld2Mesh.error "Building id not found in external CityObjects."
              | Some building_obj =>
                  Ret (np_array to_float (cj_vertices tile), building_obj)
              end
        end
  end.

(** [polygons_by_type], a [defaultdict(list)], with the rings as they are
    read: keys in insertion order. *)
Definition ring_dict : Type := list (string * list (list tree)).

(** [polygons_by_type[sem_type].append(outer_ring)] *)
Fixpoint dict_append (d : ring_dict) (k : string) (ring : list tree) : ring_dict :=
  match d with
  | [] => [(k, [ring])]
  | (k', rings) :: d' =>
      if String.eqb k' k
      then (k', (rings ++ [ring])%list) :: d'
      else (k', rings) :: dict_append d' k ring
  end.

(** The body of the innermost loop, for the surface addressed by
    [idx_path]: skip a falsy surface, take [surface[0]], skip a ring of
    fewer than three entries, file the ring under its semantic type. *)
Definition collect_surface (geom : Geometry) (idx_path : list Z) (surface : tree)
    (d : ring_dict) : result ring_dict :=
  if negb (truthy surface)
  then Ret d
  else
    outer_ring ← getitem surface 0;
    match outer_ring with
    | Group ring =>
        if bool_decide (length ring < 3)%nat
        then Ret d
        else
          sem_type ← Bld2Mesh.get_sem_type geom idx_path;
          Ret (dict_append d sem_type ring)
    | Leaf _ | Null => Raise TypeError
    end.

(** [for i, x in enumerate(l): body], threading the dictionary. *)
Fixpoint enumerate_fold (body : nat → tree → ring_dict → result ring_dict)
    (i : nat) (l : list tree) (d : ring_dict) : result ring_dict :=
  match l with
  | [] => Ret d
  | x :: rest => d' ← body i x d; enumerate_fold body (S i) rest d'
  end.

(** [for e in x] on a JSON value: only a list can be iterated. *)
Definition iter (x : tree) : result (list tree) :=
  match x with
  | Group l => Ret l
  | Leaf _ | Null => Raise TypeError
  end.

(** The MultiSurface / CompositeSurface branch, also the fallback branch. *)
Definition collect_multisurface (geom : Geometry) (boundaries : tree) (d : ring_dict)
    : result ring_dict :=
  surfaces ← iter boundaries;
  enumerate_fold (λ surf_index surface, collect_surface geom [Z.of_nat surf_index] surface)
                 0 surfaces d.

(** The Solid / MultiSolid branch. *)
Definition collect_shell (geom : Geometry) (solid_index shell_index : nat) (shell : tree)
    (d : ring_dict) : result ring_dict :=
  if negb (truthy shell)
  then Ret d
  else
    surfaces ← iter shell;
    enumerate_fold
      (λ surf_index surface,
         collect_surface geom
           [Z.of_nat solid_index; Z.of_nat shell_index; Z.of_nat surf_index] surface)
      0 surfaces d.

Definition collect_solid (geom : Geometry) (solid_index : nat) (solid : tree)
    (d : ring_dict) : result ring_dict :=
  if negb (truthy solid)
  then Ret d
  else
    shells ← iter solid;
    enumerate_fold (collect_shell geom solid_index) 0 shells d.

Definition collect_solids (geom : Geometry) (boundaries : tree) (d : ring_dict)
    : result ring_dict :=
  solids ← iter boundaries;
  enumerate_fold (collect_solid geom) 0 solids d.

(** [s in (a, b)] *)
Definition one_of (s a b : string) : bool := String.eqb s a || String.eqb s b.

(** The body of [for geom in geoms]. *)
Definition collect_geometry (geom : Geometry) (d : ring_dict) : result ring_dict :=
  let gtype := default "" (g_type geom) in
  let boundaries := Merge3d.boundaries_of geom in
  if one_of gtype "MultiSurface" "CompositeSurface"
  then collect_multisurface geom boundaries d
  else if one_of gtype "Solid" "MultiSolid"
  then collect_solids geom boundaries d
  else collect_multisurface geom boundaries d.

Fixpoint collect_geometries (geoms : list Geometry) (d : ring_dict) : result ring_dict :=
  match geoms with
  | [] => Ret d
  | geom :: rest => d' ← collect_geometry geom d; collect_geometries rest d'
  end.

(** "Collect polygons by semantic surface type", with its two fatal
    checks. *)
Definition collect_polygons (building_obj : CityObject) : result ring_dict :=
  let geoms := co_geometry building_obj in
  if is_empty geoms
  then Bld2Mesh.error "Building has no 'geometry'."
  else
    polygons_by_type ← collect_geometries geoms [];
    if is_empty polygons_by_type
    then Bld2Mesh.error "No polygons found in building geometry."
    else Ret polygons_by_type.

(** [faces.extend(triangulate_fan(poly))] over the polygons of one type. *)
Definition type_faces (global_to_local : gmap Z Z) (polys : list (list Z))
    : result (list (list Z)) :=
  tris ← mapM (Bld2Mesh.triangulate_fan global_to_local) polys;
  Ret (concat tris).

(** The loop that fills [meshes] and the check after it: a type without
    faces gets no mesh, no mesh at all is fatal.  A mesh is kept as its
    node name and its faces; all meshes share the vertex buffer. *)
Definition build_meshes (global_to_local : gmap Z Z)
    (polygons_by_type : Bld2Mesh.polygons) : result (list (string * list (list Z))) :=
  by_type ← mapM (λ '(sem_type, polys),
                    faces ← type_faces global_to_local polys;
                    Ret (sem_type, faces))
                 polygons_by_type;
  let meshes :=
    List.filter (λ m : string * list (list Z), negb (is_empty m.2)) by_type in
  if is_empty meshes
  then Bld2Mesh.error "No faces generated for any surface type."
  else Ret meshes.

End Mesh.

(** ** merge3d.py: the tile index *)

Module TileIndex.

(** A file matched by [gebaeude_lod2_*.json] with its
    [metadata.geographicalExtent], [None] when the key is missing or null. *)
Record TileFile : Type :=
  { tf_name : string; tf_path : string; tf_extent : option (list Q) }.

(** [build_tile_index] returns the frame or raises RuntimeError. *)
Inductive outcome : Type :=
| Index (tiles : list Merge3d.Tile)
| RuntimeError (msg : string).

(** The row appended for a file, if its extent has six entries. *)
Definition tile_of (f : TileFile) : option Merge3d.Tile :=
  match tf_extent f with
  | Some [xmin; ymin; zmin; xmax; ymax; zmax] =>
      Some {| Merge3d.filename := tf_name f; Merge3d.path := tf_path f;
              Merge3d.xmin := xmin; Merge3d.ymin := ymin;
              Merge3d.xmax := xmax; Merge3d.ymax := ymax |}
  | _ => None
  end.

Definition build_tile_index (found : list TileFile) : outcome :=
  let rows := omap tile_of found in
  if is_empty rows
  then RuntimeError "No CityJSON tiles found"
  else Index rows.

End TileIndex.

(** ** Vocabulary for statements about rings and meshes *)

Module Rings.

(** A ring read from JSON as a ring of vertex indices, when all its
    entries are integers. *)
Definition int_ring (ring : list tree) : option (list Z) :=
  mapM (λ t, match t with Leaf k => Some k | Null | Group _ => None end) ring.

(** The collected dictionary as the triangulator takes it. *)
Definition int_polygons (d : Mesh.ring_dict) : option Bld2Mesh.polygons :=
  mapM (λ '(k, rings), rs ← mapM int_ring rings; Some (k, rs)) d.

(** A surface reduced to its outer ring. *)
Definition outer_only (surface : tree) : tree :=
  match surface with
  | Group (outer :: _) => Group [outer]
  | _ => surface
  end.

(** [f] applied to the members at nesting depth [depth] of a tree. *)
Fixpoint map_at (depth : nat) (f : tree → tree) (t : tree) : tree :=
  match depth with
  | O => f t
  | S depth' =>
      match t with
      | Group l => Group (map (map_at depth' f) l)
      | _ => t
      end
  end.

(** A dictionary of collected polygons is well formed: distinct keys, no
    key without a ring, no ring of fewer than three entries. *)
Definition well_collected (d : Mesh.ring_dict) : Prop :=
  NoDup d.*1 ∧
  Forall (λ kr, kr.2 ≠ [] ∧ Forall (λ ring : list tree, (3 ≤ length ring)%nat) kr.2) d.

(** The nesting depth at which the collection loops of a geometry meet
    its surfaces: below solid and shell for Solid and MultiSolid, directly
    in [boundaries] otherwise. *)
Definition surface_depth (geom : Geometry) : nat :=
  let gtype := default "" (g_type geom) in
  if Mesh.one_of gtype "MultiSurface" "CompositeSurface" then 1%nat
  else if Mesh.one_of gtype "Solid" "MultiSolid" then 3%nat
  else 1%nat.

(** The document with another vertex array. *)
Definition with_vertices (cj : Document) (vertices : list vertex) : Document :=
  {| cj_other := cj_other cj; cj_vertices := vertices;
     cj_CityObjects := cj_CityObjects cj |}.

(** The tree with every integer leaf renamed. *)
Fixpoint relabel (f : Z → Z) (t : tree) : tree :=
  match t with
  | Leaf i => Leaf (f i)
  | Null => Null
  | Group l => Group (map (relabel f) l)
  end.

(** The collected dictionary with the entries of every ring renamed. *)
Definition relabel_rings (f : Z → Z) (d : Mesh.ring_dict) : Mesh.ring_dict :=
  (λ kr : string * list (list tree), (kr.1, map (map (relabel f)) kr.2)) <$> d.

(** No integer stands where a list is expected, down to nesting depth
    [n]. *)
Fixpoint lists_above (n : nat) (t : tree) : Prop :=
  match n with
  | O => True
  | S n' =>
      match t with
      | Leaf _ => False
      | Null => True
      | Group l => Forall (lists_above n') l
      end
  end.

(** The boundaries of the geometry hold lists down to its surfaces. *)
Definition well_nested (geom : Geometry) : Prop :=
  lists_above (S (surface_depth geom)) (Merge3d.boundaries_of geom).

(** The renaming of vertex indices by an index map. *)
Definition renaming (index_map : gmap Z Z) (g : Z) : Z :=
  default 0 (index_map !! g).

(** The number of triangles of a fan over a ring. *)
Definition fan_size (ring : list Z) : nat := length ring - 2.

End Rings.
Export Rings.

(** ** Further concrete inputs *)

Module Examples2.

(** A building with one MultiSurface geometry that has no semantics: a
    quadrilateral, a triangle, a degenerate two-point ring and an empty
    surface. *)
Definition plain_building : CityObject :=
  {| co_type := Some "Building";
     co_attributes := [];
     co_geometry :=
       [ {| g_type := Some "MultiSurface";
            g_boundaries :=
              Some (Group [ Group [Group [Leaf 0; Leaf 1; Leaf 2; Leaf 3]];
                            Group [Group [Leaf 4; Leaf 5; Leaf 6]];
                            Group [Group [Leaf 0; Leaf 4]];
                            Group [] ]);
            g_semantics := None |} ] |}.

(** The polygons collected from the box of [Examples.b1], as rings of
    vertex indices. *)
Definition box_polygons : Bld2Mesh.polygons :=
  [ ("GroundSurface", [[4; 7; 6; 5]]);
    ("RoofSurface", [[8; 9; 10; 11]]);
    ("WallSurface", [[4; 5; 9; 8]]) ].

(** A building given as a Solid with a ground surface, and with a second
    geometry that declares walls only and whose boundaries are no list. *)
Definition solid_building : CityObject :=
  {| co_type := Some "Building";
     co_attributes := [];
     co_geometry :=
       [ {| g_type := Some "Solid";
            g_boundaries :=
              Some (Group [Group [Group [Group [Leaf 0; Leaf 1; Leaf 2; Leaf 3]]]]);
            g_semantics :=
              Some {| sem_surfaces := [Examples.ground];
                      sem_values := Group [Group [Leaf 0]] |} |};
         Examples.multisurface (Leaf 7) [Examples.wall] (Group [Leaf 0]) ] |}.

(** [Examples.tile_doc] with that building between A and B. *)
Definition tile_doc_with_solid : Document :=
  {| cj_other := [("type", "CityJSON")];
     cj_vertices := (Examples.rectangle 20 24 ++ Examples.rectangle 40 44)%list;
     cj_CityObjects := [("A", Examples.ground_building 0);
                        ("S", solid_building);
                        ("B", Examples.ground_building 4)] |}.

(** The tile files found by the glob: the two tiles of [Examples.files]
    and a file without extent. *)
Definition found : list TileIndex.TileFile :=
  [ {| TileIndex.tf_name := "west.json"; TileIndex.tf_path := "tiles/west.json";
       TileIndex.tf_extent := Some [0; 0; 0; 60; 100; 30]%Q |};
    {| TileIndex.tf_name := "broken.json"; TileIndex.tf_path := "tiles/broken.json";
       TileIndex.tf_extent := None |};
    {| TileIndex.tf_name := "east.json"; TileIndex.tf_path := "tiles/east.json";
       TileIndex.tf_extent := Some [50; 0; 0; 110; 100; 30]%Q |} ].

(** A point east of every tile. *)
Definition p_outside : Merge3d.Point := Examples.point 3 200.

(** The conversion to floats on numbers that a float holds exactly, as
    the small integers of the examples are. *)
Definition exact (q : Q) : Q := q.

(** The file of [Examples.tile]. *)
Definition tile_files : gmap string Document :=
  <["tiles/tile.json" := Examples.tile_doc]> ∅.

(** The building files of a run over the two tiles of [Examples.files]:
    a point in both tiles and a point in none. *)
Definition run_points : list Merge3d.Point := [Examples.p_both; p_outside].

Definition run_tiles : list Merge3d.Tile := [Examples.west; Examples.east].

Definition no_file : Merge3d.BldData :=
  {| Merge3d.osm_id := Merge3d.CNone; Merge3d.cityjson_tile := Merge3d.CNone;
     Merge3d.cityjson_building_id := Merge3d.CNone;
     Merge3d.distance_to_building_m := Merge3d.CNone;
     Merge3d.cityjson := None |}.

Definition run_writes : list (Merge3d.cell * Merge3d.BldData) :=
  Eval vm_compute in
    match Merge3d.main Examples.Polygon Examples.unary_union Examples.distance Examples.query_order Examples.label_ties
            Examples.files run_points run_tiles with
    | Ret writes => writes
    | Raise _ => []
    end.

Definition first_write : Merge3d.cell * Merge3d.BldData :=
  Eval vm_compute in nth 0 run_writes (Merge3d.CNone, no_file).

End Examples2.

(** ** Vocabulary for statements about the linking run *)

Module Frames.

(** The osm id that names the files of a point: [row.get("osm_id", idx)]. *)
Definition osm_id_of (p : Merge3d.Point) : Merge3d.cell :=
  default (Merge3d.CNum (inject_Z (Merge3d.index p)))
          (dict_get (Merge3d.props p) "osm_id").

(** The row the tile join keeps for a point in no tile. *)
Definition untiled_row (p : Merge3d.Point) : Merge3d.TileRow :=
  {| Merge3d.tr_point := p; Merge3d.tr_filename := Merge3d.CNaN;
     Merge3d.tr_path := Merge3d.CNaN |}.

(** The ids of the city objects of type Building, in file order. *)
Definition building_ids (cj : Document) : list string :=
  (List.filter (λ co : string * CityObject,
                  bool_decide (co_type co.2 = Some "Building"))
               (cj_CityObjects cj)).*1.

(** A geometry that declares no ground: it is no MultiSurface, or none of
    its semantic surfaces has type GroundSurface. *)
Definition without_ground (geom : Geometry) : Prop :=
  g_type geom ≠ Some "MultiSurface"
  ∨ Forall (λ s, s_type s ≠ Some "GroundSurface") (Bld2Mesh.surf_defs geom).

(** The open box of a tile file's extent contains the point. *)
Definition in_extent (p : Merge3d.Point) (extent : list Q) : Prop :=
  match extent with
  | [xmin; ymin; _; xmax; ymax; _] =>
      (xmin < Merge3d.px p)%Q ∧ (Merge3d.px p < xmax)%Q ∧
      (ymin < Merge3d.py p)%Q ∧ (Merge3d.py p < ymax)%Q
  | _ => False
  end.

End Frames.
Export Frames.

(** * Theorems *)

(** ** Generic facts: the result monad, Python indexing, trees *)

Lemma mapM_result_Forall2 {A B : Type} (f : A → result B) (l : list A) (k : list B) :
  Forall2 (λ a b, f a = Ret b) l k → mapM f l = Ret k.
Proof.
  induction 1 as [|a b l k Hab _ IH]; [reflexivity|].
  cbn. rewrite Hab. cbn. rewrite IH. reflexivity.
Qed.

Lemma mapM_result_inv {A B : Type} (f : A → result B) (l : list A) (k : list B) :
  mapM f l = Ret k → Forall2 (λ a b, f a = Ret b) l k.
Proof.
  revert k. induction l as [|a l IH]; intros k; cbn.
  - intros [= <-]. constructor.
  - destruct (f a) as [b|e] eqn:Hfa; cbn; [|discriminate].
    destruct (mapM f l) as [k'|e] eqn:Hl; cbn; [|discriminate].
    intros [= <-]. constructor; [assumption|]. apply IH. reflexivity.
Qed.

Lemma py_index_nonneg {A : Type} (l : list A) (i : Z) (x : A) :
  0 ≤ i → l !! Z.to_nat i = Some x → py_index l i = Ret x.
Proof.
  intros Hi Hx. unfold py_index.
  apply lookup_lt_Some in Hx as Hlt.
  rewrite (bool_decide_eq_false_2 (i < 0)) by lia.
  rewrite bool_decide_eq_true_2 by lia.
  rewrite Hx. reflexivity.
Qed.

Lemma py_index_valid {A : Type} (l : list A) (i : Z) :
  - Z.of_nat (length l) ≤ i < Z.of_nat (length l) →
  ∃ x, py_index l i = Ret x.
Proof.
  intros Hi. unfold py_index.
  set (j := if bool_decide (i < 0) then i + Z.of_nat (length l) else i).
  assert (Hj : 0 ≤ j < Z.of_nat (length l)) by (subst j; case_bool_decide; lia).
  rewrite bool_decide_eq_true_2 by exact Hj.
  destruct (lookup_lt_is_Some_2 l (Z.to_nat j)) as [x Hx]; [lia|].
  exists x. rewrite Hx. reflexivity.
Qed.

(** ** Semantic surface resolver *)




(** The walk raises nothing but IndexError and TypeError, the two
    exceptions the [try] catches. *)
Lemma walk_raises (v : tree) (idx_path : list Z) (e : exn) :
  Bld2Mesh.walk v idx_path = Raise e → e = IndexError ∨ e = TypeError.
Proof.
  revert v. induction idx_path as [|i rest IH]; intros v; cbn; [discriminate|].
  destruct (getitem v i) as [v'|e'] eqn:Hget; cbn.
  - apply IH.
  - intros [= <-]. destruct v as [k| |l]; cbn in Hget; try (injection Hget as <-; tauto).
    unfold py_index in Hget.
    destruct (bool_decide _); [|injection Hget as <-; tauto].
    destruct (l !! _); cbn in Hget; [discriminate|injection Hget as <-; tauto].
Qed.

(** The degraded outcomes: without semantics or surfaces, with a path that
    does not fit the values tree, or with a resolved index outside the
    surfaces, the sentinel is returned. *)
Lemma resolver_degrades_to_unknown (geom : Geometry) (idx_path : list Z) :
  Bld2Mesh.surf_defs geom = [] ∨
  Bld2Mesh.values geom = Null ∨
  (∃ e, Bld2Mesh.walk (Bld2Mesh.values geom) idx_path = Raise e) ∨
  (∃ k, Bld2Mesh.walk (Bld2Mesh.values geom) idx_path = Ret (Leaf k) ∧
        ¬ 0 ≤ k < Z.of_nat (length (Bld2Mesh.surf_defs geom))) →
  Bld2Mesh.get_sem_type geom idx_path = Ret "Unknown".
Proof.
  unfold Bld2Mesh.get_sem_type.
  intros [Hs|[Hv|[[e He]|(k & Hk & Hrange)]]].
  - rewrite Hs. reflexivity.
  - rewrite Hv, orb_true_r. reflexivity.
  - destruct (_ || _); [reflexivity|]. rewrite He.
    apply walk_raises in He as [-> | ->]; reflexivity.
  - destruct (_ || _); [reflexivity|]. rewrite Hk. cbn.
    rewrite bool_decide_eq_false_2 by exact Hrange. reflexivity.
Qed.

(** C3: the resolver does not always return.  When the walk ends on an
    empty group, [v[0]] is evaluated outside the [try] and raises
    IndexError, as for surfaces [Wall], values [[]] and path (0,); on every
    other input a string is returned. *)
Theorem resolver_raises_on_empty_group :
  Bld2Mesh.get_sem_type Examples.empty_group_geom [0] = Raise IndexError ∧
  ∀ (geom : Geometry) (idx_path : list Z),
    (∃ s, Bld2Mesh.get_sem_type geom idx_path = Ret s)
    ∨ (Bld2Mesh.walk (Bld2Mesh.values geom) idx_path = Ret (Group []) ∧
       Bld2Mesh.get_sem_type geom idx_path = Raise IndexError).
Proof.
  split; [reflexivity|]. intros geom idx_path. unfold Bld2Mesh.get_sem_type.
  destruct (is_empty (Bld2Mesh.surf_defs geom) || is_None (Bld2Mesh.values geom));
    [left; eauto|].
  destruct (Bld2Mesh.walk (Bld2Mesh.values geom) idx_path) as [v|e] eqn:Hwalk.
  - assert (Hleaf : ∀ k, ∃ s,
              (if bool_decide (0 ≤ k < Z.of_nat (length (Bld2Mesh.surf_defs geom)))
               then s ← py_index (Bld2Mesh.surf_defs geom) k;
                    Ret (default "Unknown" (s_type s))
               else Ret "Unknown") = Ret s).
    { intros k. case_bool_decide as Hk; [|eauto].
      destruct (py_index_valid (Bld2Mesh.surf_defs geom) k) as [s Hs]; [lia|].
      rewrite Hs. cbn. eauto. }
    destruct v as [k| |[|x l]]; cbn.
    + left. apply Hleaf.
    + left. eauto.
    + right. split; reflexivity.
    + left. rewrite (py_index_nonneg (x :: l) 0 x); [|lia|reflexivity].
      destruct x as [k| |l']; cbn; [apply Hleaf|eauto|eauto].
  - left. apply walk_raises in Hwalk as [-> | ->]; eauto.
Qed.

(** ** Fan triangulation *)

(** C6: a ring whose indices are all keys of the dictionary yields no
    triangle when its length L is below 3, and otherwise the L-2 triangles
    (ring[0], ring[i], ring[i+1]) for i = 1 .. L-2, in that order; ring
    [0,1,2,3] yields [(0,1,2),(0,2,3)] and ring [0,1] yields []. *)
Theorem triangulate_fan_spec :
  (∀ (global_to_local : gmap Z Z) (ring local_ring : list Z),
     Forall2 (λ g l, global_to_local !! g = Some l) ring local_ring →
     ∃ tris : list (list Z),
       Bld2Mesh.triangulate_fan global_to_local ring = Ret tris ∧
       ((length local_ring < 3)%nat → tris = []) ∧
       ((3 ≤ length local_ring)%nat →
          length tris = (length local_ring - 2)%nat ∧
          ∀ i : nat, (1 ≤ i ≤ length local_ring - 2)%nat →
            tris !! (i - 1)%nat
            = Some [local_ring !!! 0%nat; local_ring !!! i; local_ring !!! (i + 1)%nat])) ∧
  Bld2Mesh.triangulate_fan Examples.id4 [0; 1; 2; 3] = Ret [[0; 1; 2]; [0; 2; 3]] ∧
  Bld2Mesh.triangulate_fan Examples.id4 [0; 1] = Ret [].
Proof.
  split; [|split; vm_compute; reflexivity].
  intros g2l ring local_ring Hmap.
  assert (Hm : mapM (λ g, from_option Ret (Raise KeyError) (g2l !! g)) ring = Ret local_ring).
  { apply mapM_result_Forall2. eapply Forall2_impl; [exact Hmap|].
    intros g l Hg. cbn. rewrite Hg. reflexivity. }
  unfold Bld2Mesh.triangulate_fan. rewrite Hm. cbn.
  case_bool_decide as Hlen.
  - eexists. split; [reflexivity|]. split; [reflexivity|]. lia.
  - eexists. split; [reflexivity|]. split; [lia|]. intros _.
    split.
    + rewrite length_fmap, length_seq. lia.
    + intros i Hi. rewrite list_lookup_fmap.
      rewrite lookup_seq_lt by lia. cbn.
      replace (S (i - 1)) with i by lia.
      replace (S (i - 1 + 1)) with (i + 1)%nat by lia. reflexivity.
Qed.

Lemma triangulate_fan_spec_witness :
  ∃ tris : list (list Z),
    Bld2Mesh.triangulate_fan Examples.id4 [3; 1; 0; 2; 1] = Ret tris ∧
    ((length [3; 1; 0; 2; 1] < 3)%nat → tris = []) ∧
    ((3 ≤ length [3; 1; 0; 2; 1])%nat →
       length tris = (length [3; 1; 0; 2; 1] - 2)%nat ∧
       ∀ i : nat, (1 ≤ i ≤ length [3; 1; 0; 2; 1] - 2)%nat →
         tris !! (i - 1)%nat
         = Some [[3; 1; 0; 2; 1] !!! 0%nat; [3; 1; 0; 2; 1] !!! i;
                 [3; 1; 0; 2; 1] !!! (i + 1)%nat]).
Proof.
  apply (proj1 triangulate_fan_spec Examples.id4 [3; 1; 0; 2; 1] [3; 1; 0; 2; 1]).
  repeat (constructor; [vm_compute; reflexivity|]). constructor.
Defined.

(** ** Vertex compactor *)

Lemma fold_collect_spec (l : list tree) (used : gset Z) (i : Z) :
  Forall (λ x, ∀ used, i ∈ Merge3d.collect_indices x used ↔ i ∈ leaves x ∨ i ∈ used) l →
  i ∈ fold_left (λ used e, Merge3d.collect_indices e used) l used
  ↔ i ∈ concat (map leaves l) ∨ i ∈ used.
Proof.
  intros Hl. revert used. induction Hl as [|x l Hx _ IH]; intros used; cbn.
  - rewrite elem_of_nil. tauto.
  - rewrite IH, Hx, elem_of_app. tauto.
Qed.

Lemma collect_indices_spec (x : tree) (used : gset Z) (i : Z) :
  i ∈ Merge3d.collect_indices x used ↔ i ∈ leaves x ∨ i ∈ used.
Proof.
  revert used. induction x as [j| |l IH] using tree_ind; intros used; cbn.
  - rewrite elem_of_union, elem_of_singleton, list_elem_of_singleton. tauto.
  - rewrite elem_of_nil. tauto.
  - apply fold_collect_spec. exact IH.
Qed.

Lemma fold_geoms_spec (geoms : list Geometry) (used : gset Z) (i : Z) :
  i ∈ fold_left (λ used geom, Merge3d.collect_indices (Merge3d.boundaries_of geom) used)
                geoms used
  ↔ (∃ geom, geom ∈ geoms ∧ i ∈ leaves (Merge3d.boundaries_of geom)) ∨ i ∈ used.
Proof.
  revert used. induction geoms as [|g geoms IH]; intros used; cbn.
  - split; [tauto|]. intros [(geom & Hin & _)|H]; [|exact H].
    apply elem_of_nil in Hin. contradiction.
  - rewrite IH, collect_indices_spec. split.
    + intros [(geom & Hin & Hi)|[Hi|Hi]].
      * left. exists geom. split; [by apply list_elem_of_further|exact Hi].
      * left. exists g. split; [apply list_elem_of_here|exact Hi].
      * right. exact Hi.
    + intros [(geom & Hin & Hi)|Hi]; [|tauto].
      apply elem_of_cons in Hin as [->|Hin]; [tauto|]. left. eauto.
Qed.

(** The collected set is exactly the set of integer leaves of the boundary
    trees of the building. *)
Lemma used_indices_of_spec (bld_obj : CityObject) (i : Z) :
  i ∈ Merge3d.used_indices_of bld_obj
  ↔ ∃ geom, geom ∈ co_geometry bld_obj ∧ i ∈ leaves (Merge3d.boundaries_of geom).
Proof.
  unfold Merge3d.used_indices_of. rewrite fold_geoms_spec.
  split; [intros [H|H]; [exact H|]|tauto].
  apply elem_of_empty in H. contradiction.
Qed.

Lemma imap_enumerate_fst {A B : Type} (f : nat → B) (l : list A) :
  (imap (λ i g, (g, f i)) l).*1 = l.
Proof.
  revert f. induction l as [|x l IH]; intros f; cbn; [reflexivity|].
  f_equal. exact (IH (f ∘ S)).
Qed.

(** The dictionary built by enumerating a duplicate-free list sends each
    entry to its position. *)
Lemma enumerate_map_lookup (l : list Z) (g j : Z) :
  NoDup l →
  enumerate_map l !! g = Some j ↔ ∃ i : nat, j = Z.of_nat i ∧ l !! i = Some g.
Proof.
  intros Hnd. unfold enumerate_map. split.
  - intros H%elem_of_list_to_map_2.
    apply elem_of_lookup_imap in H as (i & y & Heq & Hl).
    injection Heq as -> ->. eauto.
  - intros (i & -> & Hl). apply elem_of_list_to_map_1.
    + rewrite (imap_enumerate_fst Z.of_nat). exact Hnd.
    + apply elem_of_lookup_imap. eauto.
Qed.

Lemma StronglySorted_le_lt (l : list Z) :
  StronglySorted Z.le l → NoDup l → StronglySorted Z.lt l.
Proof.
  induction 1 as [|x l Hl IH Hx]; intros Hnd; constructor.
  - apply IH. by apply NoDup_cons in Hnd as [_ ?].
  - apply NoDup_cons in Hnd as [Hnotin _].
    rewrite Forall_forall in Hx |- *. intros y Hy.
    assert (x ≠ y) by (intros ->; exact (Hnotin Hy)).
    specialize (Hx y Hy). lia.
Qed.

(** [sorted(used_indices)]: strictly increasing, and it lists the set. *)
Lemma sorted_used_spec (used : gset Z) :
  let sorted_idx := merge_sort Z.le (elements used) in
  StronglySorted Z.lt sorted_idx ∧
  NoDup sorted_idx ∧
  (∀ g, g ∈ sorted_idx ↔ g ∈ used) ∧
  length sorted_idx = size used.
Proof.
  intros sorted_idx.
  assert (Hperm : sorted_idx ≡ₚ elements used) by apply merge_sort_Permutation.
  assert (Hnd : NoDup sorted_idx) by (rewrite Hperm; apply NoDup_elements).
  split; [|split; [exact Hnd|split]].
  - apply StronglySorted_le_lt; [|exact Hnd].
    apply StronglySorted_merge_sort; apply _.
  - intros g. rewrite Hperm. apply elem_of_elements.
  - rewrite Hperm. reflexivity.
Qed.

Lemma remap_group_spec (m : gmap Z Z) (l : list tree) :
  Forall (λ t, (∀ g, g ∈ leaves t → is_Some (m !! g)) →
               ∃ t', Merge3d.remap_boundaries m t = Ret t' ∧ shape t' = shape t ∧
                     Forall2 (λ g j, m !! g = Some j) (leaves t) (leaves t')) l →
  (∀ g, g ∈ concat (map leaves l) → is_Some (m !! g)) →
  ∃ l', mapM (Merge3d.remap_boundaries m) l = Ret l' ∧ map shape l' = map shape l ∧
        Forall2 (λ g j, m !! g = Some j) (concat (map leaves l)) (concat (map leaves l')).
Proof.
  induction 1 as [|t l Ht _ IH]; intros Hdom.
  - exists []. repeat split. constructor.
  - cbn in Hdom.
    destruct Ht as (t' & Ht' & Hsh & Hlv).
    { intros g Hg. apply Hdom, elem_of_app. tauto. }
    destruct IH as (l' & Hl' & Hshl & Hlvl).
    { intros g Hg. apply Hdom, elem_of_app. tauto. }
    exists (t' :: l'). cbn. rewrite Ht'. cbn. rewrite Hl'. cbn.
    split; [reflexivity|]. split; [congruence|].
    apply Forall2_app; assumption.
Qed.

(** Remapping a tree all of whose leaves are keys succeeds; the result has
    the shape of the input and its leaves are the images of the input's. *)
Lemma remap_boundaries_spec (m : gmap Z Z) (t : tree) :
  (∀ g, g ∈ leaves t → is_Some (m !! g)) →
  ∃ t', Merge3d.remap_boundaries m t = Ret t' ∧ shape t' = shape t ∧
        Forall2 (λ g j, m !! g = Some j) (leaves t) (leaves t').
Proof.
  induction t as [i| |l IH] using tree_ind; intros Hdom.
  - destruct (Hdom i) as [j Hj]; [apply list_elem_of_here|].
    exists (Leaf j). cbn. rewrite Hj. cbn. repeat split.
    constructor; [exact Hj|constructor].
  - exists Null. repeat split. constructor.
  - destruct (remap_group_spec m l IH Hdom) as (l' & Hl' & Hsh & Hlv).
    exists (Group l'). cbn. rewrite Hl'. cbn. split; [reflexivity|].
    split; [congruence|exact Hlv].
Qed.

(** Remapping with a dictionary that fixes every leaf returns the tree. *)
Lemma remap_boundaries_id (m : gmap Z Z) (t : tree) :
  (∀ g, g ∈ leaves t → m !! g = Some g) →
  Merge3d.remap_boundaries m t = Ret t.
Proof.
  induction t as [i| |l IH] using tree_ind; intros Hfix; cbn.
  - rewrite (Hfix i); [reflexivity|apply list_elem_of_here].
  - reflexivity.
  - assert (Hl : mapM (Merge3d.remap_boundaries m) l = Ret l).
    { cbn in Hfix. induction IH as [|t l Ht _ IHl]; [reflexivity|].
      cbn in Hfix. cbn. rewrite Ht.
      - cbn. rewrite IHl; [reflexivity|].
        intros g Hg. apply Hfix, elem_of_app. tauto.
      - intros g Hg. apply Hfix, elem_of_app. tauto. }
    rewrite Hl. reflexivity.
Qed.

Lemma mapM_result_exists {A B : Type} (f : A → result B) (P : A → B → Prop) (l : list A) :
  (∀ a, a ∈ l → ∃ b, f a = Ret b ∧ P a b) →
  ∃ k, mapM f l = Ret k ∧ Forall2 P l k.
Proof.
  induction l as [|a l IH]; intros Hl.
  - exists []. split; [reflexivity|constructor].
  - destruct (Hl a) as (b & Hb & HP); [apply list_elem_of_here|].
    destruct IH as (k & Hk & HF).
    { intros a' Ha'. apply Hl. by apply list_elem_of_further. }
    exists (b :: k). cbn. rewrite Hb. cbn. rewrite Hk. cbn.
    split; [reflexivity|]. constructor; assumption.
Qed.

(** C4: for a building whose boundary trees reference at least one vertex
    index, all of them valid for the vertex array, compaction returns a
    document with the building as its only city object.  [sorted_idx] lists
    the distinct integer leaves of the boundary trees of the building in
    strictly increasing order and N is its length.  The vertex array of the
    returned document has N rows, row i being the original row at the i-th
    smallest referenced index.  Every boundary tree of the returned
    building has the nesting shape of the original tree, its integer leaves
    lie in [0, N), and each leaf is the rank of the index it replaces. *)
Theorem compaction_contiguous_and_shape_preserving
    (cj : Document) (bldg_id : string) (bld_obj : CityObject) :
  dict_get (cj_CityObjects cj) bldg_id = Some bld_obj →
  (∃ geom g, geom ∈ co_geometry bld_obj ∧ g ∈ leaves (Merge3d.boundaries_of geom)) →
  (∀ geom g, geom ∈ co_geometry bld_obj → g ∈ leaves (Merge3d.boundaries_of geom) →
             - Z.of_nat (length (cj_vertices cj)) ≤ g < Z.of_nat (length (cj_vertices cj))) →
  ∃ (sorted_idx : list Z) (doc : Document) (bld_obj' : CityObject),
    Merge3d.make_single_building_cityjson cj bldg_id = Ret (Some doc) ∧
    cj_other doc = cj_other cj ∧
    cj_CityObjects doc = [(bldg_id, bld_obj')] ∧
    co_type bld_obj' = co_type bld_obj ∧
    co_attributes bld_obj' = co_attributes bld_obj ∧
    StronglySorted Z.lt sorted_idx ∧
    (∀ g, g ∈ sorted_idx
          ↔ ∃ geom, geom ∈ co_geometry bld_obj ∧ g ∈ leaves (Merge3d.boundaries_of geom)) ∧
    length (cj_vertices doc) = length sorted_idx ∧
    Forall2 (λ g v, py_index (cj_vertices cj) g = Ret v) sorted_idx (cj_vertices doc) ∧
    Forall2 (λ geom geom',
               g_type geom' = g_type geom ∧
               g_semantics geom' = g_semantics geom ∧
               ∃ b', g_boundaries geom' = Some b' ∧
                     shape b' = shape (Merge3d.boundaries_of geom) ∧
                     Forall (λ j, 0 ≤ j < Z.of_nat (length (cj_vertices doc))) (leaves b') ∧
                     Forall2 (λ g j, 0 ≤ j ∧ sorted_idx !! Z.to_nat j = Some g)
                             (leaves (Merge3d.boundaries_of geom)) (leaves b'))
            (co_geometry bld_obj) (co_geometry bld_obj').
Proof.
  intros Hget (geom0 & g0 & Hgeom0 & Hg0) Hvalid.
  set (used := Merge3d.used_indices_of bld_obj).
  assert (Hused : ∀ g, g ∈ used
            ↔ ∃ geom, geom ∈ co_geometry bld_obj ∧ g ∈ leaves (Merge3d.boundaries_of geom))
    by (intros g; apply used_indices_of_spec).
  assert (Hne : used ≠ ∅).
  { intros Hempty. assert (Hin : g0 ∈ used) by (apply Hused; eauto).
    rewrite Hempty in Hin. by apply elem_of_empty in Hin. }
  set (sorted_idx := merge_sort Z.le (elements used)).
  destruct (sorted_used_spec used) as (Hsorted & Hnd & Hmem & Hlen).
  fold sorted_idx in Hsorted, Hnd, Hmem, Hlen.
  destruct (mapM_result_exists (py_index (cj_vertices cj))
              (λ g v, py_index (cj_vertices cj) g = Ret v) sorted_idx)
    as (new_vertices & Hnv & Hrows).
  { intros g Hg. apply Hmem, Hused in Hg as (geom & Hgeom & Hleaf).
    destruct (py_index_valid (cj_vertices cj) g) as [v Hv]; [by eapply Hvalid|].
    eauto. }
  apply Forall2_length in Hrows as Hrows_len.
  set (index_map := enumerate_map sorted_idx).
  destruct (mapM_result_exists
              (λ geom, b ← Merge3d.remap_boundaries index_map (Merge3d.boundaries_of geom);
                       Ret (Merge3d.set_boundaries geom b))
              (λ geom geom',
                 g_type geom' = g_type geom ∧
                 g_semantics geom' = g_semantics geom ∧
                 ∃ b', g_boundaries geom' = Some b' ∧
                       shape b' = shape (Merge3d.boundaries_of geom) ∧
                       Forall (λ j, 0 ≤ j < Z.of_nat (length new_vertices)) (leaves b') ∧
                       Forall2 (λ g j, 0 ≤ j ∧ sorted_idx !! Z.to_nat j = Some g)
                               (leaves (Merge3d.boundaries_of geom)) (leaves b'))
              (co_geometry bld_obj))
    as (geoms & Hgeoms & Hrel).
  { intros geom Hgeom.
    destruct (remap_boundaries_spec index_map (Merge3d.boundaries_of geom))
      as (b' & Hb' & Hshape & Hleaves).
    { intros g Hg.
      assert (Hgu : g ∈ sorted_idx) by (apply Hmem, Hused; eauto).
      apply list_elem_of_lookup in Hgu as [i Hi].
      exists (Z.of_nat i). apply enumerate_map_lookup; eauto. }
    exists (Merge3d.set_boundaries geom b'). rewrite Hb'. cbn.
    split; [reflexivity|]. split; [reflexivity|]. split; [reflexivity|].
    exists b'. split; [reflexivity|]. split; [exact Hshape|].
    assert (Hranks : Forall2 (λ g j, 0 ≤ j ∧ sorted_idx !! Z.to_nat j = Some g)
                             (leaves (Merge3d.boundaries_of geom)) (leaves b')).
    { eapply Forall2_impl; [exact Hleaves|].
      intros g j Hj. cbn in Hj.
      apply enumerate_map_lookup in Hj as (i & -> & Hi); [|exact Hnd].
      rewrite Nat2Z.id. split; [lia|exact Hi]. }
    split; [|exact Hranks].
    apply Forall_forall. intros j Hj.
    apply list_elem_of_lookup in Hj as [n Hn].
    destruct (Forall2_lookup_r _ _ _ _ _ Hranks Hn) as (g & _ & Hj0 & Hj1).
    apply lookup_lt_Some in Hj1. rewrite <- Hrows_len. lia. }
  exists sorted_idx,
    {| cj_other := cj_other cj; cj_vertices := new_vertices;
       cj_CityObjects := [(bldg_id, Merge3d.set_geometry bld_obj geoms)] |},
    (Merge3d.set_geometry bld_obj geoms).
  split.
  { unfold Merge3d.make_single_building_cityjson. rewrite Hget.
    fold used. unfold Merge3d.compact.
    rewrite bool_decide_eq_false_2 by exact Hne.
    fold sorted_idx. rewrite Hnv. cbn. fold index_map.
    rewrite Hgeoms. reflexivity. }
  cbn [cj_other cj_vertices cj_CityObjects].
  do 4 (split; [reflexivity|]).
  split; [exact Hsorted|].
  split; [intros g; rewrite Hmem; apply Hused|].
  split; [by rewrite Hrows_len|].
  split; [exact Hrows|exact Hrel].
Qed.

Lemma compaction_contiguous_and_shape_preserving_witness :
  ∃ (sorted_idx : list Z) (doc : Document) (bld_obj' : CityObject),
    Merge3d.make_single_building_cityjson Examples.box_doc "b1" = Ret (Some doc) ∧
    cj_other doc = cj_other Examples.box_doc ∧
    cj_CityObjects doc = [("b1", bld_obj')] ∧
    co_type bld_obj' = co_type Examples.b1 ∧
    co_attributes bld_obj' = co_attributes Examples.b1 ∧
    StronglySorted Z.lt sorted_idx ∧
    (∀ g, g ∈ sorted_idx
          ↔ ∃ geom, geom ∈ co_geometry Examples.b1 ∧
                    g ∈ leaves (Merge3d.boundaries_of geom)) ∧
    length (cj_vertices doc) = length sorted_idx ∧
    Forall2 (λ g v, py_index (cj_vertices Examples.box_doc) g = Ret v)
            sorted_idx (cj_vertices doc) ∧
    Forall2 (λ geom geom',
               g_type geom' = g_type geom ∧
               g_semantics geom' = g_semantics geom ∧
               ∃ b', g_boundaries geom' = Some b' ∧
                     shape b' = shape (Merge3d.boundaries_of geom) ∧
                     Forall (λ j, 0 ≤ j < Z.of_nat (length (cj_vertices doc))) (leaves b') ∧
                     Forall2 (λ g j, 0 ≤ j ∧ sorted_idx !! Z.to_nat j = Some g)
                             (leaves (Merge3d.boundaries_of geom)) (leaves b'))
            (co_geometry Examples.b1) (co_geometry bld_obj').
Proof.
  apply (compaction_contiguous_and_shape_preserving Examples.box_doc "b1" Examples.b1).
  - reflexivity.
  - exists Examples.box_geom, 4. split; [apply list_elem_of_here|].
    vm_compute. apply list_elem_of_here.
  - intros geom g ->%list_elem_of_singleton Hg.
    assert (Hrange : 4 ≤ g ≤ 11).
    { revert Hg. cbn. rewrite !elem_of_cons. intros Hg.
      repeat (destruct Hg as [->|Hg]; [lia|]). by apply elem_of_nil in Hg. }
    cbn. lia.
Defined.

Example compaction_box :
  Merge3d.make_single_building_cityjson Examples.box_doc "b1"
  = Ret (Some {| cj_other := [("type", "CityJSON"); ("version", "1.0.1")];
                 cj_vertices := [ (10, 0, 0); (14, 0, 0); (14, 4, 0); (10, 4, 0);
                                  (10, 0, 3); (14, 0, 3); (14, 4, 3); (10, 4, 3) ]%Q;
                 cj_CityObjects :=
                   [("b1", Merge3d.set_geometry Examples.b1
                       [Examples.multisurface
                          (Group [ Group [Group [Leaf 0; Leaf 3; Leaf 2; Leaf 1]];
                                   Group [Group [Leaf 4; Leaf 5; Leaf 6; Leaf 7]];
                                   Group [Group [Leaf 0; Leaf 1; Leaf 5; Leaf 4]] ])
                          [Examples.ground; Examples.roof; Examples.wall]
                          (Group [Leaf 0; Leaf 1; Leaf 2])])] |}).
Proof. vm_compute. reflexivity. Qed.

(** The mesh export builds its local vertex array the same way: the used
    indices in strictly increasing order, the sliced rows in that order, and
    a dictionary that sends every index of every ring to its rank. *)
Lemma local_vertex_array_spec (polygons_by_type : Bld2Mesh.polygons)
    (vertices_global : list vertex) :
  Bld2Mesh.used_global_indices polygons_by_type ≠ [] →
  (∀ g, g ∈ Bld2Mesh.used_global_indices polygons_by_type →
        - Z.of_nat (length vertices_global) ≤ g < Z.of_nat (length vertices_global)) →
  ∃ vertices,
    Bld2Mesh.local_vertex_array polygons_by_type vertices_global
    = Ret (enumerate_map (Bld2Mesh.used_global_indices polygons_by_type), vertices) ∧
    StronglySorted Z.lt (Bld2Mesh.used_global_indices polygons_by_type) ∧
    Forall2 (λ g v, py_index vertices_global g = Ret v)
            (Bld2Mesh.used_global_indices polygons_by_type) vertices ∧
    ∀ sem_type polys poly g,
      (sem_type, polys) ∈ polygons_by_type → poly ∈ polys → g ∈ poly →
      ∃ i : nat,
        enumerate_map (Bld2Mesh.used_global_indices polygons_by_type) !! g
        = Some (Z.of_nat i) ∧
        Bld2Mesh.used_global_indices polygons_by_type !! i = Some g.
Proof.
  intros Hne Hvalid. unfold Bld2Mesh.local_vertex_array.
  set (used := Bld2Mesh.used_global_indices polygons_by_type) in *.
  destruct (sorted_used_spec
              (list_to_set (polys ← polygons_by_type.*2; poly ← polys; poly)))
    as (Hsorted & Hnd & Hmem & _).
  change (merge_sort Z.le _) with used in Hsorted, Hnd, Hmem.
  destruct (mapM_result_exists (py_index vertices_global)
              (λ g v, py_index vertices_global g = Ret v) used)
    as (vertices & Hv & Hrows).
  { intros g Hg. destruct (py_index_valid vertices_global g) as [v Hgv]; eauto. }
  exists vertices. destruct used as [|g0 used'] eqn:Hused; [congruence|].
  cbn [is_empty]. rewrite Hv. split; [reflexivity|]. split; [exact Hsorted|].
  split; [exact Hrows|].
  intros sem_type polys poly g Hpolys Hpoly Hg.
  assert (Hin : g ∈ g0 :: used').
  { apply Hmem, elem_of_list_to_set, list_elem_of_bind. exists polys. split.
    - apply list_elem_of_bind. eauto.
    - apply list_elem_of_fmap. by exists (sem_type, polys). }
  apply list_elem_of_lookup in Hin as [i Hi]. exists i.
  split; [|exact Hi]. apply enumerate_map_lookup; eauto.
Qed.

Lemma mapM_result_fmap {A B : Type} (f : A → result B) (g : A → B) (l : list A) :
  (∀ a, a ∈ l → f a = Ret (g a)) → mapM f l = Ret (g <$> l).
Proof.
  intros Hl. apply mapM_result_Forall2.
  apply Forall2_fmap_r, Forall_Forall2_diag, Forall_forall. exact Hl.
Qed.

(** The sorted list of a set that is an initial segment of the naturals. *)
Lemma sorted_initial_segment (used : gset Z) (n : nat) :
  (∀ g, g ∈ used ↔ 0 ≤ g < Z.of_nat n) →
  merge_sort Z.le (elements used) = seqZ 0 (Z.of_nat n).
Proof.
  intros Hused.
  destruct (sorted_used_spec used) as (Hsorted & Hnd & Hmem & _).
  apply (StronglySorted_unique Z.le).
  - apply StronglySorted_merge_sort; apply _.
  - apply Sorted_StronglySorted; [apply _|].
    unfold seqZ. generalize (Z.to_nat (Z.of_nat n)). intros k.
    generalize 0%nat. induction k as [|k IH]; intros m; cbn; [constructor|].
    constructor; [apply IH|]. destruct k; cbn; constructor. lia.
  - apply NoDup_Permutation; [exact Hnd|apply NoDup_seqZ|].
    intros g. rewrite Hmem, Hused, elem_of_seqZ. lia.
Qed.

Lemma mapM_py_index_all {A : Type} (l : list A) :
  mapM (py_index l) (seqZ 0 (Z.of_nat (length l))) = Ret l.
Proof.
  apply mapM_result_Forall2, Forall2_same_length_lookup_2.
  - rewrite length_seqZ. lia.
  - intros i g x Hg Hx. apply lookup_seqZ in Hg as [-> _].
    apply py_index_nonneg; [lia|]. rewrite Z.add_0_l, Nat2Z.id. exact Hx.
Qed.

(** C5: compaction is idempotent.  When the integer leaves of the boundary
    trees of the building are exactly the positions [0, N) of the vertex
    array, compaction returns the vertex array as it is and gives every
    geometry its own boundary tree back: the remapping is the identity. *)
Theorem compaction_idempotent_on_local_trees
    (cj : Document) (bldg_id : string) (bld_obj : CityObject) :
  dict_get (cj_CityObjects cj) bldg_id = Some bld_obj →
  (∀ g, g ∈ Merge3d.used_indices_of bld_obj ↔ 0 ≤ g < Z.of_nat (length (cj_vertices cj))) →
  Merge3d.make_single_building_cityjson cj bldg_id
  = Ret (Some {| cj_other := cj_other cj;
                 cj_vertices := cj_vertices cj;
                 cj_CityObjects :=
                   [(bldg_id,
                     Merge3d.set_geometry bld_obj
                       ((λ geom, Merge3d.set_boundaries geom (Merge3d.boundaries_of geom))
                          <$> co_geometry bld_obj))] |}).
Proof.
  intros Hget Hlocal.
  unfold Merge3d.make_single_building_cityjson. rewrite Hget.
  assert (Hcompact : ∃ index_map,
             Merge3d.compact (cj_vertices cj) (Merge3d.used_indices_of bld_obj)
             = Ret (cj_vertices cj, index_map) ∧
             ∀ g, g ∈ Merge3d.used_indices_of bld_obj → index_map !! g = Some g).
  { unfold Merge3d.compact. case_bool_decide as Hempty.
    - exists ∅. split.
      + destruct (cj_vertices cj) as [|v vs]; [reflexivity|].
        assert (H0 : 0 ∈ Merge3d.used_indices_of bld_obj) by (apply Hlocal; cbn; lia).
        rewrite Hempty in H0. apply elem_of_empty in H0. contradiction.
      + intros g Hg. rewrite Hempty in Hg. apply elem_of_empty in Hg. contradiction.
    - rewrite (sorted_initial_segment _ _ Hlocal).
      eexists. split.
      + rewrite mapM_py_index_all. reflexivity.
      + intros g Hg%Hlocal. apply enumerate_map_lookup; [apply NoDup_seqZ|].
        exists (Z.to_nat g). split; [lia|]. apply lookup_seqZ. lia. }
  destruct Hcompact as (index_map & -> & Hfix). cbn.
  rewrite (mapM_result_fmap _
             (λ geom, Merge3d.set_boundaries geom (Merge3d.boundaries_of geom))).
  - reflexivity.
  - intros geom Hgeom. rewrite remap_boundaries_id; [reflexivity|].
    intros g Hg. apply Hfix, used_indices_of_spec. eauto.
Qed.

Lemma compaction_idempotent_on_local_trees_witness :
  Merge3d.make_single_building_cityjson Examples.box_local_doc "b1"
  = Ret (Some Examples.box_local_doc).
Proof.
  apply (compaction_idempotent_on_local_trees Examples.box_local_doc "b1" Examples.b1_local).
  - reflexivity.
  - intros g.
    replace (Merge3d.used_indices_of Examples.b1_local)
      with (list_to_set (seqZ 0 8) : gset Z) by (vm_compute; reflexivity).
    rewrite elem_of_list_to_set, elem_of_seqZ. cbn. lia.
Defined.

(** With an empty set of referenced indices compaction of one building does
    not fail: the document is built with an empty vertex array and the
    boundary trees as they are. *)
Lemma make_single_building_empty
    (cj : Document) (bldg_id : string) (bld_obj : CityObject) :
  dict_get (cj_CityObjects cj) bldg_id = Some bld_obj →
  Merge3d.used_indices_of bld_obj = ∅ →
  Merge3d.make_single_building_cityjson cj bldg_id
  = Ret (Some {| cj_other := cj_other cj;
                 cj_vertices := [];
                 cj_CityObjects :=
                   [(bldg_id,
                     Merge3d.set_geometry bld_obj
                       ((λ geom, Merge3d.set_boundaries geom (Merge3d.boundaries_of geom))
                          <$> co_geometry bld_obj))] |}).
Proof.
  intros Hget Hempty.
  unfold Merge3d.make_single_building_cityjson. rewrite Hget.
  unfold Merge3d.compact. rewrite bool_decide_eq_true_2 by exact Hempty. cbn.
  rewrite (mapM_result_fmap _
             (λ geom, Merge3d.set_boundaries geom (Merge3d.boundaries_of geom))).
  - reflexivity.
  - intros geom Hgeom. rewrite remap_boundaries_id; [reflexivity|].
    intros g Hg.
    assert (Hin : g ∈ Merge3d.used_indices_of bld_obj)
      by (apply used_indices_of_spec; eauto).
    rewrite Hempty in Hin. apply elem_of_empty in Hin. contradiction.
Qed.

(** C2, as the code has it: with an empty set of referenced indices the
    single-building extraction succeeds with an empty vertex array and
    unchanged boundary trees; only the mesh export stops, with a fatal
    error, when its list of used indices is empty. *)
Theorem empty_index_set_outcomes :
  (∀ (cj : Document) (bldg_id : string) (bld_obj : CityObject),
     dict_get (cj_CityObjects cj) bldg_id = Some bld_obj →
     Merge3d.used_indices_of bld_obj = ∅ →
     Merge3d.make_single_building_cityjson cj bldg_id
     = Ret (Some {| cj_other := cj_other cj;
                    cj_vertices := [];
                    cj_CityObjects :=
                      [(bldg_id,
                        Merge3d.set_geometry bld_obj
                          ((λ geom, Merge3d.set_boundaries geom (Merge3d.boundaries_of geom))
                             <$> co_geometry bld_obj))] |})) ∧
  (∀ (polygons_by_type : Bld2Mesh.polygons) (vertices_global : list vertex),
     Bld2Mesh.used_global_indices polygons_by_type = [] →
     Bld2Mesh.local_vertex_array polygons_by_type vertices_global
     = Raise (SystemExit "No vertex indices referenced by polygons.")).
Proof.
  split.
  - exact make_single_building_empty.
  - intros polys vs Hempty. unfold Bld2Mesh.local_vertex_array.
    rewrite Hempty. reflexivity.
Qed.

Lemma empty_index_set_outcomes_witness :
  Merge3d.make_single_building_cityjson Examples.box_doc "b0"
  = Ret (Some {| cj_other := [("type", "CityJSON"); ("version", "1.0.1")];
                 cj_vertices := [];
                 cj_CityObjects := [("b0", Examples.b0)] |}) ∧
  Bld2Mesh.local_vertex_array [("Unknown", [[]])] Examples.box_vertices
  = Raise (SystemExit "No vertex indices referenced by polygons.").
Proof.
  split.
  - apply (proj1 empty_index_set_outcomes Examples.box_doc "b0" Examples.b0).
    + reflexivity.
    + vm_compute. reflexivity.
  - apply (proj2 empty_index_set_outcomes [("Unknown", [[]])] Examples.box_vertices).
    vm_compute. reflexivity.
Defined.

(** C2 as stated fails: building b0 references no vertex index, and its
    compaction returns a document instead of failing. *)
Lemma empty_geometry_does_not_fail :
  Merge3d.used_indices_of Examples.b0 = ∅ ∧
  ¬ (∃ e, Merge3d.make_single_building_cityjson Examples.box_doc "b0" = Raise e) ∧
  Merge3d.make_single_building_cityjson Examples.box_doc "b0"
  = Ret (Some {| cj_other := [("type", "CityJSON"); ("version", "1.0.1")];
                 cj_vertices := [];
                 cj_CityObjects := [("b0", Examples.b0)] |}).
Proof.
  split; [vm_compute; reflexivity|]. split.
  - intros [e He]. vm_compute in He. discriminate.
  - vm_compute. reflexivity.
Qed.

(** ** Footprint extraction *)

Lemma mapM_result_app {A B : Type} (f : A → result B) (l1 l2 : list A) :
  mapM f (l1 ++ l2)%list = r1 ← mapM f l1; r2 ← mapM f l2; Ret (r1 ++ r2)%list.
Proof.
  induction l1 as [|a l1 IH]; cbn.
  - destruct (mapM f l2); reflexivity.
  - destruct (f a) as [b|e]; cbn; [|reflexivity].
    rewrite IH. destruct (mapM f l1) as [r1|e]; cbn; [|reflexivity].
    destruct (mapM f l2); reflexivity.
Qed.

Lemma concat_all_nil {A : Type} (ls : list (list A)) :
  Forall (λ l, l = []) ls → concat ls = [].
Proof. induction 1 as [|l ls -> _ IH]; [reflexivity|exact IH]. Qed.

Section Footprint_facts.

Context {Geom : Type}.
Variable Polygon : list (Q * Q) → result Geom.
Variable unary_union : list Geom → Geom.

(** A MultiSurface geometry without semantic values adds no ground
    polygon, and reads neither its rings nor the vertex array. *)
Lemma geom_without_values_no_polys (vertices : list vertex) (geom : Geometry) :
  multisurface_without_values geom →
  Merge3d.geom_ground_polys Polygon vertices geom = Ret [].
Proof.
  intros (Htype & Hlist & Hvals). unfold Merge3d.geom_ground_polys.
  rewrite bool_decide_eq_true_2 by exact Htype. cbn [negb].
  case_bool_decide as Hground; [reflexivity|].
  assert (Hb : ∃ l, Merge3d.boundaries_of geom = Group l).
  { unfold boundaries_is_list in Hlist. unfold Merge3d.boundaries_of.
    destruct (g_boundaries geom) as [b|]; [exact Hlist|]. by exists []. }
  destruct Hb as [surfs ->]. cbn [Merge3d.iter].
  set (values := match g_semantics geom with
                 | Some sem => sem_values sem
                 | None => Group []
                 end).
  assert (Hfalsy : truthy values = false).
  { subst values. unfold values_missing_or_empty in Hvals.
    destruct (g_semantics geom) as [sem|]; [|reflexivity].
    destruct Hvals as [-> | ->]; reflexivity. }
  change (mbind ?k (Ret surfs)) with (k surfs). cbn beta.
  rewrite (mapM_result_fmap _ (λ _, [])).
  - cbn. rewrite concat_all_nil; [reflexivity|].
    apply Forall_fmap, Forall_forall. reflexivity.
  - intros [surf_idx rings] _. unfold Merge3d.surface_ground_polys, Merge3d.surface_sem_idx.
    rewrite Hfalsy. reflexivity.
Qed.

(** A building made of such geometries only has no footprint. *)
Lemma building_without_values_no_footprint (vertices : list vertex) (obj : CityObject) :
  Forall multisurface_without_values (co_geometry obj) →
  Merge3d.footprint Polygon unary_union vertices obj = Ret None.
Proof.
  intros Hall. unfold Merge3d.footprint.
  rewrite (mapM_result_fmap _ (λ _, [])).
  - cbn. rewrite concat_all_nil; [reflexivity|].
    apply Forall_fmap, Forall_forall. reflexivity.
  - intros geom Hgeom. apply geom_without_values_no_polys.
    rewrite Forall_forall in Hall. exact (Hall geom Hgeom).
Qed.

(** Such a building is dropped from the footprint frame: loading the
    document gives what loading it without the building gives. *)
Lemma load_buildings_skips (cj : Document) (pre post : list (string * CityObject))
    (cid : string) (obj : CityObject) :
  cj_CityObjects cj = (pre ++ (cid, obj) :: post)%list →
  Forall multisurface_without_values (co_geometry obj) →
  Merge3d.load_buildings_from_cityjson Polygon unary_union cj
  = Merge3d.load_buildings_from_cityjson Polygon unary_union
      (with_CityObjects cj (pre ++ post)%list).
Proof.
  intros Hobjs Hall. unfold Merge3d.load_buildings_from_cityjson.
  rewrite Hobjs. cbn [with_CityObjects cj_vertices cj_CityObjects].
  rewrite !mapM_result_app.
  destruct (mapM _ pre) as [r1|e]; cbn; [|reflexivity].
  rewrite (building_without_values_no_footprint _ _ Hall).
  case_bool_decide; cbn.
  all: destruct (mapM _ post) as [r2|e]; cbn; [|reflexivity].
  all: rewrite !omap_app; reflexivity.
Qed.

End Footprint_facts.

(** ** Nearest-building matching *)

Lemma elem_of_List_filter {A : Type} (f : A → bool) (l : list A) (x : A) :
  x ∈ List.filter f l ↔ x ∈ l ∧ f x = true.
Proof. rewrite !list_elem_of_In. apply filter_In. Qed.

(** Placing and arranging keep the members of a list. *)
Lemma elem_of_place {A : Type} (before : A → A → bool) (x y : A) (l : list A) :
  y ∈ Merge3d.place before x l ↔ y = x ∨ y ∈ l.
Proof.
  induction l as [|z l IH]; cbn.
  - rewrite list_elem_of_singleton, elem_of_nil. tauto.
  - destruct (before x z); rewrite !elem_of_cons; [tauto|]. rewrite IH. tauto.
Qed.

Lemma elem_of_arrange {A : Type} (before : A → A → bool) (y : A) (l : list A) :
  y ∈ Merge3d.arrange before l ↔ y ∈ l.
Proof.
  unfold Merge3d.arrange. induction l as [|x l IH]; cbn; [reflexivity|].
  rewrite elem_of_place, elem_of_cons, IH. reflexivity.
Qed.

Lemma arrange_nil {A : Type} (before : A → A → bool) (l : list A) :
  Merge3d.arrange before l = [] ↔ l = [].
Proof.
  split; [|intros ->; reflexivity].
  destruct l as [|x l]; [reflexivity|]. intros Hnil.
  assert (Hx : x ∈ Merge3d.arrange before (x :: l))
    by (apply elem_of_arrange, list_elem_of_here).
  rewrite Hnil in Hx. by apply elem_of_nil in Hx.
Qed.

(** A non-empty list of candidates has one of least distance. *)
Lemma least_candidate_exists (cands : list (string * Q)) :
  cands ≠ [] →
  ∃ bd, bd ∈ cands ∧ forallb (λ bd', Qle_bool bd.2 bd'.2) cands = true.
Proof.
  induction cands as [|c cands IH]; [congruence|]. intros _.
  destruct cands as [|c' cands'].
  - exists c. split; [apply list_elem_of_here|]. cbn.
    rewrite andb_true_r. apply Qle_bool_iff, Qle_refl.
  - destruct IH as (bd & Hin & Hmin); [discriminate|].
    destruct (Qlt_le_dec c.2 bd.2) as [Hlt|Hle].
    + exists c. split; [apply list_elem_of_here|].
      apply forallb_forall. intros x Hx%list_elem_of_In.
      apply Qle_bool_iff. apply elem_of_cons in Hx as [->|Hx]; [apply Qle_refl|].
      rewrite forallb_forall in Hmin.
      specialize (Hmin x (proj1 (list_elem_of_In _ _) Hx)).
      apply Qle_bool_iff in Hmin.
      apply Qlt_le_weak. eapply Qlt_le_trans; eassumption.
    + exists bd. split; [by apply list_elem_of_further|].
      change (Qle_bool bd.2 c.2 && forallb (λ bd', Qle_bool bd.2 bd'.2) (c' :: cands') = true).
      rewrite Hmin, andb_true_r. apply Qle_bool_iff, Hle.
Qed.

Section Nearest_facts.

Context {Geom : Type}.
Variable distance : Q * Q → Geom → Q.
Variable query_order :
  Merge3d.Point → list (string * Geom) → string * Q → string * Q → bool.

Local Abbreviation dist p g := (distance (Merge3d.px p, Merge3d.py p) g).

(** The neighbours reported for a point are the accepted nearest ones. *)
Lemma nearest_spec (p : Merge3d.Point) (right : list (string * Geom))
    (max_distance : Q) (b : string) (d : Q) :
  (b, d) ∈ Merge3d.nearest distance query_order p right max_distance
  ↔ ∃ g, (b, g) ∈ right ∧ d = dist p g ∧ accepted_nearest distance p right max_distance g.
Proof.
  unfold Merge3d.nearest.
  set (cands := List.filter (λ bd : string * Q, Qle_bool bd.2 max_distance) _).
  assert (Hcands : ∀ b d, (b, d) ∈ cands
             ↔ ∃ g, (b, g) ∈ right ∧ d = dist p g ∧ (d <= max_distance)%Q).
  { intros b0 d0. subst cands. rewrite elem_of_List_filter, list_elem_of_fmap. cbn.
    rewrite Qle_bool_iff. split.
    - intros [([b1 g] & [= -> ->] & Hin) Hle]. eauto.
    - intros (g & Hin & -> & Hle). split; [|exact Hle]. by exists (b0, g). }
  rewrite elem_of_arrange, elem_of_List_filter, Hcands, forallb_forall. cbn. split.
  - intros [(g & Hin & -> & Hle) Hmin]. exists g. split; [exact Hin|].
    split; [reflexivity|]. split; [exact Hle|].
    intros b' g' Hin'.
    destruct (Qlt_le_dec max_distance (dist p g')) as [Hfar|Hnear].
    + apply Qlt_le_weak. eapply Qle_lt_trans; eassumption.
    + apply Qle_bool_iff, (Hmin (b', dist p g')).
      apply list_elem_of_In, Hcands. eauto.
  - intros (g & Hin & -> & Hle & Hmin). split; [eauto|].
    intros [b' d'] Hin'%list_elem_of_In. cbn.
    apply Hcands in Hin' as (g' & Hin' & -> & _).
    apply Qle_bool_iff. eauto.
Qed.

(** No neighbour is reported exactly when no footprint is within the
    threshold. *)
Lemma nearest_nil (p : Merge3d.Point) (right : list (string * Geom)) (max_distance : Q) :
  Merge3d.nearest distance query_order p right max_distance = []
  ↔ ∀ b g, (b, g) ∈ right → ¬ (dist p g <= max_distance)%Q.
Proof.
  split.
  - intros Hnil b g Hin Hle.
    set (cands := List.filter (λ bd : string * Q, Qle_bool bd.2 max_distance)
                    ((λ b : string * Geom, (b.1, dist p b.2)) <$> right)).
    assert (Hc : (b, dist p g) ∈ cands).
    { subst cands. apply elem_of_List_filter. split.
      - apply list_elem_of_fmap. by exists (b, g).
      - apply Qle_bool_iff, Hle. }
    destruct (least_candidate_exists cands) as ([b0 d0] & Hin0 & Hmin0).
    { intros Heq. rewrite Heq in Hc. by apply elem_of_nil in Hc. }
    assert (Hn : (b0, d0) ∈ Merge3d.nearest distance query_order p right max_distance).
    { unfold Merge3d.nearest. fold cands.
      apply elem_of_arrange, elem_of_List_filter. by split. }
    rewrite Hnil in Hn. by apply elem_of_nil in Hn.
  - intros Hfar.
    destruct (Merge3d.nearest distance query_order p right max_distance) as [|[b d] ns] eqn:Hn;
      [reflexivity|].
    assert (Hin : (b, d) ∈ Merge3d.nearest distance query_order p right max_distance)
      by (rewrite Hn; apply list_elem_of_here).
    apply nearest_spec in Hin as (g & Hin & _ & Hle & _).
    destruct (Hfar b g Hin Hle).
Qed.

End Nearest_facts.

Section Match_facts.

Context {Geom : Type}.
Variable distance : Q * Q → Geom → Q.
Variable query_order :
  Merge3d.Point → list (string * Geom) → string * Q → string * Q → bool.

(** The rows the nearest join yields for one row of the group. *)
Lemma elem_of_nearest_rows (right : list (string * Geom)) (max_distance : Q)
    (r : Merge3d.TileRow) (m : Merge3d.MatchRow) :
  m ∈ Merge3d.nearest_rows distance query_order right max_distance r
  ↔ (Merge3d.nearest distance query_order (Merge3d.tr_point r) right max_distance = [] ∧
     m = {| Merge3d.m_row := r; Merge3d.bldg_id := Merge3d.CNaN;
            Merge3d.dist_m := Merge3d.CNaN |})
    ∨ (∃ b d, (b, d) ∈ Merge3d.nearest distance query_order (Merge3d.tr_point r) right max_distance ∧
              m = {| Merge3d.m_row := r; Merge3d.bldg_id := Merge3d.CStr b;
                     Merge3d.dist_m := Merge3d.CNum d |}).
Proof.
  unfold Merge3d.nearest_rows.
  destruct (Merge3d.nearest distance query_order (Merge3d.tr_point r) right max_distance)
    as [|n ns] eqn:Hn.
  - rewrite list_elem_of_singleton. split; [tauto|].
    intros [[_ ->]|(b & d & Hin & _)]; [reflexivity|]. by apply elem_of_nil in Hin.
  - rewrite list_elem_of_fmap. split.
    + intros ([b d] & -> & Hin). right. eauto.
    + intros [[Hnil _]|(b & d & Hin & ->)]; [discriminate|]. by exists (b, d).
Qed.

(** Every row of the chunk of a tile stems from one row of the group. *)
Lemma elem_of_match_group (group : list Merge3d.TileRow)
    (bldg_gdf : list (string * Geom)) (m : Merge3d.MatchRow) :
  m ∈ Merge3d.match_group distance query_order group bldg_gdf
  ↔ ∃ r, r ∈ group ∧
      ((bldg_gdf = [] ∧
        m = {| Merge3d.m_row := r; Merge3d.bldg_id := Merge3d.CNone;
               Merge3d.dist_m := Merge3d.CNone |})
       ∨ (bldg_gdf ≠ [] ∧
          m ∈ Merge3d.nearest_rows distance query_order bldg_gdf Merge3d.MAX_BUILDING_DISTANCE r)).
Proof.
  unfold Merge3d.match_group. destruct bldg_gdf as [|b0 bs]; cbn [is_empty].
  - unfold Merge3d.unmatched. rewrite list_elem_of_fmap. split.
    + intros (r & -> & Hr). exists r. split; [exact Hr|]. left. by split.
    + intros (r & Hr & [[_ ->]|[Hne _]]); [|congruence]. by exists r.
  - unfold Merge3d.sjoin_nearest. rewrite list_elem_of_bind. split.
    + intros (r & Hm & Hr). exists r. split; [exact Hr|]. right. by split.
    + intros (r & Hr & [[Hnil _]|[_ Hm]]); [discriminate|]. by exists r.
Qed.

Lemma m_row_nearest_rows (right : list (string * Geom)) (max_distance : Q)
    (r : Merge3d.TileRow) (m : Merge3d.MatchRow) :
  m ∈ Merge3d.nearest_rows distance query_order right max_distance r → Merge3d.m_row m = r.
Proof.
  intros [[_ ->]|(b & d & _ & ->)]%elem_of_nearest_rows; reflexivity.
Qed.

(** What the chunk of a tile holds for one row of the group. *)
Lemma match_group_row (group : list Merge3d.TileRow)
    (bldg_gdf : list (string * Geom)) (r : Merge3d.TileRow) (m : Merge3d.MatchRow) :
  r ∈ group →
  (m ∈ Merge3d.match_group distance query_order group bldg_gdf ∧ Merge3d.m_row m = r)
  ↔ (bldg_gdf = [] ∧
     m = {| Merge3d.m_row := r; Merge3d.bldg_id := Merge3d.CNone;
            Merge3d.dist_m := Merge3d.CNone |})
    ∨ (bldg_gdf ≠ [] ∧
       m ∈ Merge3d.nearest_rows distance query_order bldg_gdf Merge3d.MAX_BUILDING_DISTANCE r).
Proof.
  intros Hr. rewrite elem_of_match_group. split.
  - intros [(r' & Hr' & [[Hnil ->]|[Hne Hm]]) Hrow].
    + cbn in Hrow. subst r'. by left.
    + apply m_row_nearest_rows in Hm as Hrow'. rewrite Hrow in Hrow'. subst r'.
      by right.
  - intros [[Hnil ->]|[Hne Hm]].
    + split; [|reflexivity]. exists r. split; [exact Hr|]. by left.
    + split; [|by eapply m_row_nearest_rows]. exists r. split; [exact Hr|]. by right.
Qed.

End Match_facts.

(** What the rows of one point in one tile say about its footprints. *)
Lemma match_group_outcome {Geom : Type} (distance : Q * Q → Geom → Q)
    (query_order : Merge3d.Point → list (string * Geom) → string * Q → string * Q → bool)
    (group : list Merge3d.TileRow) (bldg_gdf : list (string * Geom))
    (r : Merge3d.TileRow) :
  r ∈ group →
  (∃ m, m ∈ Merge3d.match_group distance query_order group bldg_gdf ∧ Merge3d.m_row m = r) ∧
  ∀ m, m ∈ Merge3d.match_group distance query_order group bldg_gdf → Merge3d.m_row m = r →
    (∃ b g, (b, g) ∈ bldg_gdf ∧
            Merge3d.bldg_id m = Merge3d.CStr b ∧
            Merge3d.dist_m m
            = Merge3d.CNum (distance (Merge3d.px (Merge3d.tr_point r),
                                      Merge3d.py (Merge3d.tr_point r)) g) ∧
            accepted_nearest distance (Merge3d.tr_point r) bldg_gdf
                             Merge3d.MAX_BUILDING_DISTANCE g)
    ∨ (Merge3d.isna (Merge3d.bldg_id m) = true ∧
       Merge3d.isna (Merge3d.dist_m m) = true ∧
       ∀ b g, (b, g) ∈ bldg_gdf →
         ¬ (distance (Merge3d.px (Merge3d.tr_point r),
                      Merge3d.py (Merge3d.tr_point r)) g
            <= Merge3d.MAX_BUILDING_DISTANCE)%Q).
Proof.
  intros Hr. split.
  - destruct bldg_gdf as [|b0 bs] eqn:Hb.
    + eexists. apply (match_group_row distance query_order group [] r _ Hr). left. by split.
    + rewrite <- Hb.
      destruct (Merge3d.nearest_rows distance query_order bldg_gdf Merge3d.MAX_BUILDING_DISTANCE r)
        as [|m ms] eqn:Hrows.
      * unfold Merge3d.nearest_rows in Hrows.
        destruct (Merge3d.nearest _ _ _ _); discriminate.
      * exists m. apply (match_group_row distance query_order group bldg_gdf r m Hr). right.
        split; [congruence|]. rewrite Hrows. apply list_elem_of_here.
  - intros m Hm Hrow.
    assert (Hcase : (bldg_gdf = [] ∧
               m = {| Merge3d.m_row := r; Merge3d.bldg_id := Merge3d.CNone;
                      Merge3d.dist_m := Merge3d.CNone |})
              ∨ (bldg_gdf ≠ [] ∧
                 m ∈ Merge3d.nearest_rows distance query_order bldg_gdf Merge3d.MAX_BUILDING_DISTANCE r))
      by (apply (match_group_row distance query_order group bldg_gdf r m Hr); by split).
    destruct Hcase as [[-> ->]|[_ Hin]].
    + right. split; [reflexivity|]. split; [reflexivity|].
      intros b g Hin. by apply elem_of_nil in Hin.
    + apply elem_of_nearest_rows in Hin as [[Hnil ->]|(b & d & Hin & ->)].
      * right. split; [reflexivity|]. split; [reflexivity|].
        exact (proj1 (nearest_nil distance query_order _ _ _) Hnil).
      * left. apply nearest_spec in Hin as (g & Hin & -> & Hacc).
        exists b, g. split; [exact Hin|]. split; [reflexivity|].
        split; [reflexivity|exact Hacc].
Qed.

(** C7: within a tile the linker takes, for every point, the footprints
    nearest to it by planar distance and accepts a match only when that
    distance is at most the threshold, 25, and every point of the group has
    a record; nothing is raised.  But the record of a point without a
    footprint within the threshold does not have a null building id when
    the tile has footprints: the join leaves NaN in both cells, the
    building file gets a null distance, for which NaN is tested, and NaN
    as building id, for which it is not.  Only in a tile without
    footprints are both cells None and both written as null.  First the run
    over the example tile with the point that is 26 from B and 46 from A,
    then every group. *)
Theorem unmatched_building_id_is_nan_not_null :
  (∀ (query_order : Merge3d.Point → list (string * Examples.Geom) → string * Q → string * Q
                    → bool)
     (label_ties : list Merge3d.MatchRow → Merge3d.MatchRow → Merge3d.MatchRow → bool),
     ∃ d, Merge3d.main Examples.Polygon Examples.unary_union Examples.distance
            query_order label_ties Examples2.tile_files
            [Examples.p_far] [Examples.tile]
          = Ret [(Merge3d.CNum 1, d)] ∧
          Merge3d.cityjson_building_id d = Merge3d.CNaN ∧
          Merge3d.distance_to_building_m d = Merge3d.CNone ∧
          Merge3d.cityjson d = None) ∧
  Merge3d.CNaN ≠ Merge3d.CNone ∧
  ∀ (Geom : Type) (distance : Q * Q → Geom → Q)
    (query_order : Merge3d.Point → list (string * Geom) → string * Q → string * Q → bool)
    (group : list Merge3d.TileRow) (bldg_gdf : list (string * Geom))
    (r : Merge3d.TileRow),
    r ∈ group →
    Merge3d.MAX_BUILDING_DISTANCE = 25%Q ∧
    (∃ m, m ∈ Merge3d.match_group distance query_order group bldg_gdf ∧
          Merge3d.m_row m = r) ∧
    ∀ m, m ∈ Merge3d.match_group distance query_order group bldg_gdf →
         Merge3d.m_row m = r →
      (∃ b g, (b, g) ∈ bldg_gdf ∧
              Merge3d.bldg_id m = Merge3d.CStr b ∧
              Merge3d.dist_m m
              = Merge3d.CNum (distance (Merge3d.px (Merge3d.tr_point r),
                                        Merge3d.py (Merge3d.tr_point r)) g) ∧
              accepted_nearest distance (Merge3d.tr_point r) bldg_gdf 25 g ∧
              ∀ cache d, Merge3d.bld_data cache m = Ret d →
                Merge3d.cityjson_building_id d = Merge3d.CStr b ∧
                Merge3d.distance_to_building_m d = Merge3d.dist_m m)
      ∨ ((∀ b g, (b, g) ∈ bldg_gdf →
            ¬ (distance (Merge3d.px (Merge3d.tr_point r),
                         Merge3d.py (Merge3d.tr_point r)) g <= 25)%Q) ∧
         ((bldg_gdf = [] ∧
           Merge3d.bldg_id m = Merge3d.CNone ∧ Merge3d.dist_m m = Merge3d.CNone)
          ∨ (bldg_gdf ≠ [] ∧
             Merge3d.bldg_id m = Merge3d.CNaN ∧ Merge3d.dist_m m = Merge3d.CNaN)) ∧
         ∀ cache, ∃ d, Merge3d.bld_data cache m = Ret d ∧
                       Merge3d.cityjson_building_id d = Merge3d.bldg_id m ∧
                       Merge3d.distance_to_building_m d = Merge3d.CNone ∧
                       Merge3d.cityjson d = None).
Proof.
  split; [|split; [discriminate|]].
  { intros query_order label_ties. eexists. split; [vm_compute; reflexivity|].
    repeat split. }
  intros Geom distance query_order group bldg_gdf r Hr. split; [reflexivity|].
  destruct (match_group_outcome distance query_order group bldg_gdf r Hr) as [Hex _].
  split; [exact Hex|].
  intros m Hm Hrow.
  assert (Hcase := proj1 (match_group_row distance query_order group bldg_gdf r m Hr)
                     (conj Hm Hrow)).
  assert (Hnone : ∀ (c : Merge3d.cell) cache,
            c = Merge3d.CNone ∨ c = Merge3d.CNaN →
            ∃ d, Merge3d.bld_data cache
                   {| Merge3d.m_row := r; Merge3d.bldg_id := c; Merge3d.dist_m := c |}
                 = Ret d ∧
                 Merge3d.cityjson_building_id d = c ∧
                 Merge3d.distance_to_building_m d = Merge3d.CNone ∧
                 Merge3d.cityjson d = None).
  { intros c cache [-> | ->]; unfold Merge3d.bld_data; cbn.
    - eexists. split; [reflexivity|]. by repeat split.
    - destruct (Merge3d.tr_path r) as [| |k|q]; cbn;
        try (eexists; split; [reflexivity|]; by repeat split).
      destruct (cache !! k); cbn; eexists; (split; [reflexivity|]); by repeat split. }
  destruct Hcase as [[-> ->]|[Hne Hin]].
  - right. split; [intros b g Hin; by apply elem_of_nil in Hin|].
    split; [left; by repeat split|].
    intros cache. exact (Hnone _ cache (or_introl eq_refl)).
  - apply elem_of_nearest_rows in Hin as [[Hnil ->]|(b & d & Hin & ->)].
    + right. split; [exact (proj1 (nearest_nil distance query_order _ _ _) Hnil)|].
      split; [right; by repeat split|].
      intros cache. exact (Hnone _ cache (or_intror eq_refl)).
    + left. apply nearest_spec in Hin as (g & Hin & -> & Hacc).
      exists b, g. split; [exact Hin|]. split; [reflexivity|].
      split; [reflexivity|]. split; [exact Hacc|].
      intros cache d Hd. unfold Merge3d.bld_data in Hd. cbn in Hd.
      match type of Hd with
      | mbind _ ?single = _ => destruct single as [x|e]; cbn in Hd; [|discriminate]
      end.
      injection Hd as <-. by split.
Qed.

(** The general part at the two points of the specification's example:
    the point 10 from A is matched to A at 10, the point with nothing
    within 25 has NaN in both cells. *)
Lemma unmatched_building_id_is_nan_not_null_witness :
  (∀ m, m ∈ Merge3d.match_group Examples.distance Examples.query_order
              [Examples.in_tile Examples.p_near Examples.tile;
               Examples.in_tile Examples.p_far Examples.tile]
              Examples.two_buildings →
        Merge3d.m_row m = Examples.in_tile Examples.p_near Examples.tile →
        Merge3d.bldg_id m = Merge3d.CStr "A" ∧ Merge3d.dist_m m = Merge3d.CNum 10) ∧
  (∀ m, m ∈ Merge3d.match_group Examples.distance Examples.query_order
              [Examples.in_tile Examples.p_near Examples.tile;
               Examples.in_tile Examples.p_far Examples.tile]
              Examples.two_buildings →
        Merge3d.m_row m = Examples.in_tile Examples.p_far Examples.tile →
        Merge3d.bldg_id m = Merge3d.CNaN ∧ Merge3d.dist_m m = Merge3d.CNaN).
Proof.
  destruct unmatched_building_id_is_nan_not_null as (_ & _ & Hgroup).
  split; intros m Hm Hrow.
  - destruct (Hgroup _ Examples.distance Examples.query_order
                [Examples.in_tile Examples.p_near Examples.tile;
                 Examples.in_tile Examples.p_far Examples.tile]
                Examples.two_buildings
                (Examples.in_tile Examples.p_near Examples.tile)
                (list_elem_of_here _ _)) as (_ & _ & Hrows).
    destruct (Hrows m Hm Hrow) as [(b & g & Hin & Hb & Hd & [Hle Hmin] & _)|[Hfar _]].
    + apply elem_of_cons in Hin as [[= -> ->]|Hin].
      { split; [exact Hb|]. rewrite Hd. vm_compute. reflexivity. }
      apply list_elem_of_singleton in Hin as [= -> ->].
      exfalso. revert Hle. vm_compute. intros Hle. by apply Hle.
    + exfalso. apply (Hfar "A" _ (list_elem_of_here _ _)). vm_compute. discriminate.
  - destruct (Hgroup _ Examples.distance Examples.query_order
                [Examples.in_tile Examples.p_near Examples.tile;
                 Examples.in_tile Examples.p_far Examples.tile]
                Examples.two_buildings
                (Examples.in_tile Examples.p_far Examples.tile)
                (list_elem_of_further _ _ _ (list_elem_of_here _ _))) as (_ & _ & Hrows).
    destruct (Hrows m Hm Hrow) as [(b & g & Hin & _ & _ & [Hle _] & _)|(_ & Hcells & _)].
    + exfalso. apply elem_of_cons in Hin as [[= -> ->]|Hin].
      { revert Hle. vm_compute. intros Hle. by apply Hle. }
      apply list_elem_of_singleton in Hin as [= -> ->].
      revert Hle. vm_compute. intros Hle. by apply Hle.
    + destruct Hcells as [(Hnil & _)|(_ & Hb & Hd)]; [discriminate|by split].
Defined.

(** The example of the specification: threshold 25, a point 10 from A and
    30 from B is matched to A at 10; a point with nothing within 25 has a
    missing building id and a missing distance. *)
Example linker_threshold_example :
  Merge3d.match_group Examples.distance Examples.query_order
    [Examples.in_tile Examples.p_near Examples.tile;
     Examples.in_tile Examples.p_far Examples.tile]
    Examples.two_buildings
  = [ {| Merge3d.m_row := Examples.in_tile Examples.p_near Examples.tile;
         Merge3d.bldg_id := Merge3d.CStr "A"; Merge3d.dist_m := Merge3d.CNum 10 |};
      {| Merge3d.m_row := Examples.in_tile Examples.p_far Examples.tile;
         Merge3d.bldg_id := Merge3d.CNaN; Merge3d.dist_m := Merge3d.CNaN |} ].
Proof. vm_compute. reflexivity. Qed.

(** The building file of the point that has nothing within the threshold:
    the distance is written as null, the building id cell is written as the
    frame holds it. *)
Example building_file_of_unmatched_point :
  Merge3d.bld_data (<["tiles/tile.json" := Examples.tile_doc]> ∅)
    {| Merge3d.m_row := Examples.in_tile Examples.p_far Examples.tile;
       Merge3d.bldg_id := Merge3d.CNaN; Merge3d.dist_m := Merge3d.CNaN |}
  = Ret {| Merge3d.osm_id := Merge3d.CNum 1;
           Merge3d.cityjson_tile := Merge3d.CStr "tile.json";
           Merge3d.cityjson_building_id := Merge3d.CNaN;
           Merge3d.distance_to_building_m := Merge3d.CNone;
           Merge3d.cityjson := None |}.
Proof. vm_compute. reflexivity. Qed.

(** The footprints the loader extracts from the example tile. *)
Example tile_footprints :
  Merge3d.load_buildings_from_cityjson Examples.Polygon Examples.unary_union
    Examples.tile_doc
  = Ret Examples.two_buildings.
Proof. vm_compute. reflexivity. Qed.

(** C9, as the code has it: when two or more footprints of a tile are
    nearest to a point at equal accepted distances, the join yields one
    record for each of them, all with that distance; no building id is
    preferred. *)
Theorem ties_yield_every_nearest_building {Geom : Type} (distance : Q * Q → Geom → Q)
    (query_order : Merge3d.Point → list (string * Geom) → string * Q → string * Q → bool)
    (group : list Merge3d.TileRow) (bldg_gdf : list (string * Geom))
    (r : Merge3d.TileRow) (b : string) (d : Q) :
  r ∈ group →
  (∃ m, m ∈ Merge3d.match_group distance query_order group bldg_gdf ∧
        m = {| Merge3d.m_row := r; Merge3d.bldg_id := Merge3d.CStr b;
               Merge3d.dist_m := Merge3d.CNum d |})
  ↔ ∃ g, (b, g) ∈ bldg_gdf ∧
         d = distance (Merge3d.px (Merge3d.tr_point r), Merge3d.py (Merge3d.tr_point r)) g ∧
         accepted_nearest distance (Merge3d.tr_point r) bldg_gdf
                          Merge3d.MAX_BUILDING_DISTANCE g.
Proof.
  intros Hr. split.
  - intros (m & Hm & ->).
    assert (Hcase := proj1 (match_group_row distance query_order group bldg_gdf r _ Hr)
                       (conj Hm eq_refl)).
    destruct Hcase as [[_ [=]]|[_ Hin]].
    apply elem_of_nearest_rows in Hin as [[_ [=]]|(b' & d' & Hin & [= -> ->])].
    apply nearest_spec in Hin. exact Hin.
  - intros (g & Hin & -> & Hacc). eexists. split; [|reflexivity].
    apply (match_group_row distance query_order group bldg_gdf r _ Hr). right. split.
    + intros ->. by apply elem_of_nil in Hin.
    + apply elem_of_nearest_rows. right. do 2 eexists. split; [|reflexivity].
      apply nearest_spec. eauto.
Qed.

Lemma ties_yield_every_nearest_building_witness :
  (∃ m, m ∈ Merge3d.match_group Examples.distance Examples.query_order
              [Examples.in_tile Examples.p_tie Examples.tile] Examples.two_buildings ∧
        m = {| Merge3d.m_row := Examples.in_tile Examples.p_tie Examples.tile;
               Merge3d.bldg_id := Merge3d.CStr "B";
               Merge3d.dist_m := Merge3d.CNum 8 |})
  ↔ ∃ g, (("B", g) : string * Examples.Geom) ∈ Examples.two_buildings ∧
         8%Q = Examples.distance (32, 50)%Q g ∧
         accepted_nearest Examples.distance Examples.p_tie Examples.two_buildings
                          Merge3d.MAX_BUILDING_DISTANCE g.
Proof.
  apply (ties_yield_every_nearest_building Examples.distance Examples.query_order
           [Examples.in_tile Examples.p_tie Examples.tile] Examples.two_buildings
           (Examples.in_tile Examples.p_tie Examples.tile) "B" 8%Q).
  apply list_elem_of_here.
Defined.

(** C9 as stated fails: the point is 8 from A and 8 from B, both within the
    threshold, and the linker records B as well as A, not only the lower
    id A, in whichever order the spatial index reports the two. *)
Lemma tie_is_not_broken_by_lowest_id :
  Examples.distance (32, 50)%Q [[(20, 48); (24, 48); (24, 52); (20, 52)]]%Q = 8%Q ∧
  Examples.distance (32, 50)%Q [[(40, 48); (44, 48); (44, 52); (40, 52)]]%Q = 8%Q ∧
  String.ltb "A" "B" = true ∧
  ∀ query_order : Merge3d.Point → list (string * Examples.Geom) → string * Q → string * Q
                  → bool,
    let rows := Merge3d.match_group Examples.distance query_order
                  [Examples.in_tile Examples.p_tie Examples.tile] Examples.two_buildings in
    let row_A := {| Merge3d.m_row := Examples.in_tile Examples.p_tie Examples.tile;
                    Merge3d.bldg_id := Merge3d.CStr "A";
                    Merge3d.dist_m := Merge3d.CNum 8 |} in
    let row_B := {| Merge3d.m_row := Examples.in_tile Examples.p_tie Examples.tile;
                    Merge3d.bldg_id := Merge3d.CStr "B";
                    Merge3d.dist_m := Merge3d.CNum 8 |} in
    (rows = [row_A; row_B] ∨ rows = [row_B; row_A]) ∧
    ¬ (∀ m, m ∈ rows → Merge3d.bldg_id m = Merge3d.CStr "A").
Proof.
  split; [vm_compute; reflexivity|]. split; [vm_compute; reflexivity|].
  split; [reflexivity|].
  intros query_order. cbv zeta.
  assert (Hrows :
    Merge3d.match_group Examples.distance query_order
      [Examples.in_tile Examples.p_tie Examples.tile] Examples.two_buildings
    = [ {| Merge3d.m_row := Examples.in_tile Examples.p_tie Examples.tile;
           Merge3d.bldg_id := Merge3d.CStr "A"; Merge3d.dist_m := Merge3d.CNum 8 |};
        {| Merge3d.m_row := Examples.in_tile Examples.p_tie Examples.tile;
           Merge3d.bldg_id := Merge3d.CStr "B"; Merge3d.dist_m := Merge3d.CNum 8 |} ]
    ∨ Merge3d.match_group Examples.distance query_order
        [Examples.in_tile Examples.p_tie Examples.tile] Examples.two_buildings
      = [ {| Merge3d.m_row := Examples.in_tile Examples.p_tie Examples.tile;
             Merge3d.bldg_id := Merge3d.CStr "B"; Merge3d.dist_m := Merge3d.CNum 8 |};
          {| Merge3d.m_row := Examples.in_tile Examples.p_tie Examples.tile;
             Merge3d.bldg_id := Merge3d.CStr "A"; Merge3d.dist_m := Merge3d.CNum 8 |} ]).
  { vm_compute.
    match goal with
    | |- context [query_order ?p ?right ?n ?n'] => destruct (query_order p right n n')
    end; [left|right]; reflexivity. }
  split; [exact Hrows|].
  intros Hall.
  assert (HB : {| Merge3d.m_row := Examples.in_tile Examples.p_tie Examples.tile;
                  Merge3d.bldg_id := Merge3d.CStr "B"; Merge3d.dist_m := Merge3d.CNum 8 |}
               ∈ Merge3d.match_group Examples.distance query_order
                   [Examples.in_tile Examples.p_tie Examples.tile] Examples.two_buildings).
  { destruct Hrows as [-> | ->];
      [apply list_elem_of_further, list_elem_of_here|apply list_elem_of_here]. }
  specialize (Hall _ HB). discriminate Hall.
Qed.

(** C10: in footprint extraction a MultiSurface geometry whose
    [semantics.values] is missing or empty adds no ground polygon; a building
    made of such geometries only has no footprint, and it is left out of the
    footprint frame without raising: the document loads as it does without
    the building. *)
Theorem building_without_semantic_values_is_skipped {Geom : Type}
    (Polygon : list (Q * Q) → result Geom) (unary_union : list Geom → Geom)
    (cj : Document) (pre post : list (string * CityObject))
    (cid : string) (obj : CityObject) :
  cj_CityObjects cj = (pre ++ (cid, obj) :: post)%list →
  Forall multisurface_without_values (co_geometry obj) →
  Forall (λ geom, Merge3d.geom_ground_polys Polygon (cj_vertices cj) geom = Ret [])
         (co_geometry obj) ∧
  Merge3d.footprint Polygon unary_union (cj_vertices cj) obj = Ret None ∧
  Merge3d.load_buildings_from_cityjson Polygon unary_union cj
  = Merge3d.load_buildings_from_cityjson Polygon unary_union
      (with_CityObjects cj (pre ++ post)%list).
Proof.
  intros Hobjs Hall. split; [|split].
  - eapply Forall_impl; [exact Hall|]. intros geom Hgeom.
    by apply geom_without_values_no_polys.
  - by apply building_without_values_no_footprint.
  - by eapply load_buildings_skips.
Qed.

Lemma building_without_semantic_values_is_skipped_witness :
  Forall (λ geom, Merge3d.geom_ground_polys Examples.Polygon
                    (cj_vertices Examples.tile_doc_with_unvalued) geom = Ret [])
         (co_geometry Examples.building_without_values) ∧
  Merge3d.footprint Examples.Polygon Examples.unary_union
    (cj_vertices Examples.tile_doc_with_unvalued) Examples.building_without_values
  = Ret None ∧
  Merge3d.load_buildings_from_cityjson Examples.Polygon Examples.unary_union
    Examples.tile_doc_with_unvalued
  = Merge3d.load_buildings_from_cityjson Examples.Polygon Examples.unary_union
      Examples.tile_doc.
Proof.
  apply (building_without_semantic_values_is_skipped
           Examples.Polygon Examples.unary_union Examples.tile_doc_with_unvalued
           [("A", Examples.ground_building 0)] [("B", Examples.ground_building 4)]
           "N" Examples.building_without_values).
  - reflexivity.
  - apply Forall_cons. split.
    + split; [reflexivity|]. split; [cbn; eauto|]. left. reflexivity.
    + apply Forall_cons. split; [|apply Forall_nil; exact I].
      split; [reflexivity|]. split; [cbn; eauto|]. right. reflexivity.
Defined.

(** ** The linking run *)

Example two_tiles_frame :
  Merge3d.link Examples.Polygon Examples.unary_union Examples.distance Examples.query_order Examples.label_ties Examples.files
    [Examples.p_both] [Examples.west; Examples.east]
  = Ret (Examples.files,
         [ {| Merge3d.m_row := Merge3d.tile_row Examples.p_both Examples.east;
              Merge3d.bldg_id := Merge3d.CStr "B"; Merge3d.dist_m := Merge3d.CNum 10 |};
           {| Merge3d.m_row := Merge3d.tile_row Examples.p_both Examples.west;
              Merge3d.bldg_id := Merge3d.CStr "A"; Merge3d.dist_m := Merge3d.CNum 20 |} ]).
Proof. vm_compute. reflexivity. Qed.

(** C1 as stated fails: the point lies in both tiles, the east tile offers
    B at 10 and the west tile A at 20; the linker writes one building file
    per tile under the same osm id, and the file left on disk is that of
    the west tile, A at 20, not the nearer B at 10. *)
Lemma final_record_is_last_tile_not_nearest :
  ∃ writes rec,
    Merge3d.main Examples.Polygon Examples.unary_union Examples.distance Examples.query_order Examples.label_ties Examples.files
      [Examples.p_both] [Examples.west; Examples.east] = Ret writes ∧
    (λ w, (w.1, Merge3d.cityjson_tile w.2, Merge3d.cityjson_building_id w.2,
           Merge3d.distance_to_building_m w.2)) <$> writes
    = [ (Merge3d.CNum 0, Merge3d.CStr "east.json", Merge3d.CStr "B", Merge3d.CNum 10);
        (Merge3d.CNum 0, Merge3d.CStr "west.json", Merge3d.CStr "A", Merge3d.CNum 20) ] ∧
    Merge3d.final_record writes (Merge3d.CNum 0) = Some rec ∧
    Merge3d.cityjson_building_id rec = Merge3d.CStr "A" ∧
    Merge3d.distance_to_building_m rec = Merge3d.CNum 20 ∧
    (10 < 20)%Q.
Proof.
  eexists _, _.
  split; [vm_compute; reflexivity|].
  split; [vm_compute; reflexivity|].
  split; [vm_compute; reflexivity|].
  split; [reflexivity|]. split; reflexivity.
Qed.

Lemma elem_of_sort_index
    (label_ties : list Merge3d.MatchRow → Merge3d.MatchRow → Merge3d.MatchRow → bool)
    (m : Merge3d.MatchRow) (rows : list Merge3d.MatchRow) :
  m ∈ Merge3d.sort_index label_ties rows ↔ m ∈ rows.
Proof.
  unfold Merge3d.sort_index.
  destruct (Merge3d.is_monotonic_increasing _); [reflexivity|apply elem_of_arrange].
Qed.

(** Sorting by index label gives ascending labels, whatever order the
    library gives to rows of equal label. *)
Lemma is_monotonic_increasing_sorted (labels : list Z) :
  Merge3d.is_monotonic_increasing labels = true ↔ StronglySorted Z.le labels.
Proof.
  induction labels as [|a [|b rest] IH].
  - split; [constructor|reflexivity].
  - split; [repeat constructor|reflexivity].
  - change (Merge3d.is_monotonic_increasing (a :: b :: rest))
      with (bool_decide (a ≤ b) && Merge3d.is_monotonic_increasing (b :: rest)).
    rewrite andb_true_iff, bool_decide_eq_true, IH. split.
    + intros [Hab Hs]. constructor; [exact Hs|].
      apply StronglySorted_inv in Hs as [_ Hall].
      constructor; [exact Hab|]. eapply Forall_impl; [exact Hall|]. cbn. lia.
    + intros [Hs Hall]%StronglySorted_inv. split; [|exact Hs].
      by apply Forall_cons in Hall as [? _].
Qed.

Lemma sort_index_ascending
    (label_ties : list Merge3d.MatchRow → Merge3d.MatchRow → Merge3d.MatchRow → bool)
    (rows : list Merge3d.MatchRow) :
  StronglySorted Z.le (Merge3d.label <$> Merge3d.sort_index label_ties rows).
Proof.
  unfold Merge3d.sort_index.
  destruct (Merge3d.is_monotonic_increasing (Merge3d.label <$> rows)) eqn:Hmono;
    [by apply is_monotonic_increasing_sorted|].
  unfold Merge3d.arrange. generalize (label_ties rows) as ties. intros ties. clear Hmono.
  induction rows as [|r rows IH]; [constructor|]. cbn [foldr].
  set (before := λ r r' : Merge3d.MatchRow,
         bool_decide (Merge3d.label r < Merge3d.label r')
         || bool_decide (Merge3d.label r = Merge3d.label r') && ties r r') in *.
  revert IH. generalize (foldr (Merge3d.place before) [] rows) as l. intros l Hl.
  induction l as [|y l IHl]; [repeat constructor|]. cbn [Merge3d.place].
  apply StronglySorted_inv in Hl as [Hl Hall].
  destruct (before r y) eqn:Hb.
  - assert (Hle : Merge3d.label r ≤ Merge3d.label y).
    { subst before. cbn in Hb. apply orb_true_iff in Hb as [Hb|Hb].
      - apply bool_decide_eq_true in Hb. lia.
      - apply andb_true_iff in Hb as [Hb _]. apply bool_decide_eq_true in Hb. lia. }
    rewrite !fmap_cons. constructor.
    + constructor; assumption.
    + constructor; [exact Hle|]. eapply Forall_impl; [exact Hall|]. cbn. lia.
  - assert (Hge : Merge3d.label y ≤ Merge3d.label r).
    { subst before. cbn in Hb. apply orb_false_iff in Hb as [Hb _].
      apply bool_decide_eq_false in Hb. lia. }
    rewrite fmap_cons. constructor; [by apply IHl|].
    apply Forall_forall. intros z (m & -> & Hm)%list_elem_of_fmap.
    apply elem_of_place in Hm as [->|Hm]; [exact Hge|].
    rewrite Forall_forall in Hall. apply Hall, list_elem_of_fmap. eauto.
Qed.

Lemma path_is_true (k : string) (r : Merge3d.TileRow) :
  Merge3d.path_is k r = true ↔ Merge3d.tr_path r = Merge3d.CStr k.
Proof.
  unfold Merge3d.path_is. destruct (Merge3d.tr_path r) as [| |s|q]; try (split; discriminate).
  rewrite String.eqb_eq. split; [intros ->; reflexivity|intros [= ->]; reflexivity].
Qed.

(** The groups of [groupby("path")]: one per path that occurs, holding the
    rows of that path. *)
Lemma elem_of_groupby_path (rows : list Merge3d.TileRow) (k : string)
    (group : list Merge3d.TileRow) :
  (k, group) ∈ Merge3d.groupby_path rows
  ↔ group = List.filter (Merge3d.path_is k) rows ∧
    ∃ r, r ∈ rows ∧ Merge3d.tr_path r = Merge3d.CStr k.
Proof.
  unfold Merge3d.groupby_path. rewrite list_elem_of_fmap.
  setoid_rewrite merge_sort_Permutation. setoid_rewrite elem_of_elements.
  setoid_rewrite elem_of_list_to_set. setoid_rewrite list_elem_of_omap.
  split.
  - intros (k' & [= -> ->] & r & Hr & Hk). split; [reflexivity|].
    exists r. split; [exact Hr|]. destruct (Merge3d.tr_path r); congruence.
  - intros [-> (r & Hr & Hk)]. exists k. split; [reflexivity|].
    exists r. split; [exact Hr|]. rewrite Hk. reflexivity.
Qed.

Lemma elem_of_concat {A : Type} (x : A) (ls : list (list A)) :
  x ∈ concat ls ↔ ∃ l, l ∈ ls ∧ x ∈ l.
Proof.
  rewrite list_elem_of_In, in_concat.
  split; intros (l & H1 & H2); exists l; by rewrite ?list_elem_of_In in *.
Qed.

Lemma elem_of_unmatched (rows : list Merge3d.TileRow) (m : Merge3d.MatchRow) :
  m ∈ Merge3d.unmatched rows
  ↔ ∃ r, r ∈ rows ∧ m = {| Merge3d.m_row := r; Merge3d.bldg_id := Merge3d.CNone;
                            Merge3d.dist_m := Merge3d.CNone |}.
Proof.
  unfold Merge3d.unmatched. rewrite list_elem_of_fmap.
  split; intros (r & H1 & H2); exists r; by split.
Qed.

(** The rows of the tile join: a point in a tile has a row for that tile; a
    row without a path belongs to a point that no tile contains. *)
Lemma tile_row_in_sjoin (gdf_osm : list Merge3d.Point) (gdf_tiles : list Merge3d.Tile)
    (p : Merge3d.Point) (t : Merge3d.Tile) :
  p ∈ gdf_osm → t ∈ gdf_tiles → Merge3d.within p t = true →
  Merge3d.tile_row p t ∈ Merge3d.sjoin gdf_osm gdf_tiles.
Proof.
  intros Hp Ht Hin. unfold Merge3d.sjoin. apply list_elem_of_bind.
  exists p. split; [|exact Hp].
  assert (Hf : t ∈ List.filter (Merge3d.within p) gdf_tiles)
    by (apply elem_of_List_filter; by split).
  destruct (List.filter (Merge3d.within p) gdf_tiles) as [|t0 ts];
    [by apply elem_of_nil in Hf|].
  apply list_elem_of_fmap. by exists t.
Qed.

Section Link_facts.

Context {Geom : Type}.
Variable Polygon : list (Q * Q) → result Geom.
Variable unary_union : list Geom → Geom.
Variable distance : Q * Q → Geom → Q.
Variable query_order :
  Merge3d.Point → list (string * Geom) → string * Q → string * Q → bool.
Variable label_ties :
  list Merge3d.MatchRow → Merge3d.MatchRow → Merge3d.MatchRow → bool.
Variable files : gmap string Document.

(** One turn of the tile loop: the document is the file at the path,
    whether it was cached or not, and the chunk is the match of the group
    against the footprints of that document. *)
Lemma link_tile_spec (cache cache' : gmap string Document) (k : string)
    (group : list Merge3d.TileRow) (chunk : list Merge3d.MatchRow) :
  (∀ k v, cache !! k = Some v → files !! k = Some v) →
  Merge3d.link_tile Polygon unary_union distance query_order files cache k group
  = Ret (cache', chunk) →
  (∀ k v, cache' !! k = Some v → files !! k = Some v) ∧
  ∃ cj bldg_gdf,
    files !! k = Some cj ∧
    Merge3d.load_buildings_from_cityjson Polygon unary_union cj = Ret bldg_gdf ∧
    chunk = Merge3d.match_group distance query_order group bldg_gdf.
Proof.
  intros Hinv. unfold Merge3d.link_tile.
  destruct (cache !! k) as [cj|] eqn:Hc; cbn.
  - destruct (Merge3d.load_buildings_from_cityjson Polygon unary_union cj)
      as [bldg|e] eqn:Hload; cbn; [|discriminate].
    intros [= <- <-]. split; [exact Hinv|]. exists cj, bldg. eauto.
  - destruct (files !! k) as [cj|] eqn:Hf; cbn; [|discriminate].
    destruct (Merge3d.load_buildings_from_cityjson Polygon unary_union cj)
      as [bldg|e] eqn:Hload; cbn; [|discriminate].
    intros [= <- <-]. split; [|exists cj, bldg; eauto].
    intros k' v Hk'. apply lookup_insert_Some in Hk' as [[<- <-]|[_ Hk']];
      [exact Hf|eauto].
Qed.

Lemma link_tiles_spec (groups : list (string * list Merge3d.TileRow))
    (cache cache' : gmap string Document) (chunks : list (list Merge3d.MatchRow)) :
  (∀ k v, cache !! k = Some v → files !! k = Some v) →
  Merge3d.link_tiles Polygon unary_union distance query_order files cache groups
  = Ret (cache', chunks) →
  Forall2 (λ kg chunk,
             ∃ cj bldg_gdf,
               files !! kg.1 = Some cj ∧
               Merge3d.load_buildings_from_cityjson Polygon unary_union cj
               = Ret bldg_gdf ∧
               chunk = Merge3d.match_group distance query_order kg.2 bldg_gdf)
          groups chunks.
Proof.
  revert cache cache' chunks.
  induction groups as [|[k group] groups IH]; intros cache cache' chunks Hinv; cbn.
  - intros [= <- <-]. constructor.
  - destruct (Merge3d.link_tile Polygon unary_union distance query_order files cache k group)
      as [[cache1 chunk]|e] eqn:Htile; cbn; [|discriminate].
    destruct (Merge3d.link_tiles Polygon unary_union distance query_order files cache1 groups)
      as [[cache2 chunks']|e] eqn:Hrest; cbn; [|discriminate].
    intros [= <- <-].
    destruct (link_tile_spec _ _ _ _ _ Hinv Htile) as [Hinv1 Hchunk].
    constructor; [exact Hchunk|]. eapply IH; eassumption.
Qed.

(** The linked records of a run.  For a point in a tile, the records with
    that tile are the rows of the match of the point against the
    footprints of the tile's own document, and of nothing else. *)
Lemma link_spec (gdf_osm : list Merge3d.Point) (gdf_tiles : list Merge3d.Tile)
    (cache : gmap string Document) (matched_all : list Merge3d.MatchRow)
    (tr : Merge3d.TileRow) (k : string) :
  Merge3d.link Polygon unary_union distance query_order label_ties files gdf_osm gdf_tiles
  = Ret (cache, matched_all) →
  tr ∈ Merge3d.sjoin gdf_osm gdf_tiles →
  Merge3d.tr_path tr = Merge3d.CStr k →
  ∃ cj bldg_gdf,
    files !! k = Some cj ∧
    Merge3d.load_buildings_from_cityjson Polygon unary_union cj = Ret bldg_gdf ∧
    ∀ m, (m ∈ matched_all ∧ Merge3d.m_row m = tr)
         ↔ m ∈ Merge3d.match_group distance query_order [tr] bldg_gdf.
Proof.
  intros Hlink Htr Hk. unfold Merge3d.link in Hlink.
  set (osm_with_tiles := Merge3d.sjoin gdf_osm gdf_tiles) in *.
  set (no_tile := List.filter (λ r, Merge3d.isna (Merge3d.tr_path r)) osm_with_tiles) in *.
  set (has_tile := List.filter (λ r, negb (Merge3d.isna (Merge3d.tr_path r)))
                     osm_with_tiles) in *.
  destruct (Merge3d.link_tiles Polygon unary_union distance query_order files ∅
              (Merge3d.groupby_path has_tile))
    as [[cache0 chunks]|e] eqn:Htiles; cbn in Hlink; [|discriminate].
  injection Hlink as <- <-.
  apply link_tiles_spec in Htiles as Hchunks;
    [|intros k0 v Hk0; rewrite lookup_empty in Hk0; discriminate].
  assert (Hhas : tr ∈ has_tile).
  { apply elem_of_List_filter. split; [exact Htr|]. rewrite Hk. reflexivity. }
  set (group := List.filter (Merge3d.path_is k) has_tile).
  assert (Hgroup : (k, group) ∈ Merge3d.groupby_path has_tile)
    by (apply elem_of_groupby_path; eauto).
  assert (Htrg : tr ∈ group)
    by (apply elem_of_List_filter; split; [exact Hhas|by apply path_is_true]).
  apply list_elem_of_lookup in Hgroup as [i Hi].
  destruct (Forall2_lookup_l _ _ _ _ _ Hchunks Hi) as (chunk & Hci & cj & bldg & Hf & Hload & ->).
  cbn in Hf. exists cj, bldg. split; [exact Hf|]. split; [exact Hload|].
  assert (Hne : chunks ≠ []) by (intros ->; discriminate).
  intros m.
  assert (Hone : m ∈ Merge3d.match_group distance query_order [tr] bldg
                 ↔ (m ∈ Merge3d.match_group distance query_order [tr] bldg ∧ Merge3d.m_row m = tr)).
  { split; [|tauto]. intros Hm. split; [exact Hm|].
    apply elem_of_match_group in Hm as (r & Hr%list_elem_of_singleton & Hcase).
    subst r. destruct Hcase as [[_ ->]|[_ Hm]]; [reflexivity|].
    by eapply m_row_nearest_rows. }
  rewrite Hone, (match_group_row distance query_order [tr] bldg tr m (list_elem_of_here _ _)).
  rewrite <- (match_group_row distance query_order group bldg tr m Htrg).
  split; [|intros [Hm Hrow]; split; [|exact Hrow]].
  - intros [Hm Hrow]. split; [|exact Hrow].
    rewrite elem_of_sort_index in Hm.
    assert (Hin : m ∈ concat chunks ∨ m ∈ Merge3d.unmatched no_tile).
    { destruct chunks as [|c cs]; [congruence|]. cbn [is_empty] in Hm.
      match type of Hm with
      | context [if ?b then _ else _] => destruct b
      end; [by left|]. by apply elem_of_app in Hm. }
    destruct Hin as [Hin|Hin].
    + apply elem_of_concat in Hin as (chunk' & Hchunk' & Hm').
      apply list_elem_of_lookup in Hchunk' as [j Hj].
      destruct (Forall2_lookup_r _ _ _ _ _ Hchunks Hj)
        as ([k' group'] & Hgj & cj' & bldg' & Hf' & Hload' & ->).
      cbn in Hf', Hm'.
      apply list_elem_of_lookup_2, elem_of_groupby_path in Hgj as [-> _].
      apply elem_of_match_group in Hm' as Hsrc.
      destruct Hsrc as (r & Hr & Hcase).
      assert (Hrow' : Merge3d.m_row m = r).
      { destruct Hcase as [[_ ->]|[_ Hmr]]; [reflexivity|].
        by eapply m_row_nearest_rows. }
      rewrite Hrow in Hrow'. subst r.
      apply elem_of_List_filter in Hr as [_ Hpk%path_is_true].
      rewrite Hk in Hpk. injection Hpk as <-.
      rewrite Hf in Hf'. injection Hf' as <-.
      rewrite Hload in Hload'. injection Hload' as <-. exact Hm'.
    + apply elem_of_unmatched in Hin as (r & Hr & ->). cbn in Hrow. subst r.
      apply elem_of_List_filter in Hr as [_ Hna]. rewrite Hk in Hna. discriminate.
  - rewrite elem_of_sort_index.
    assert (Hin : m ∈ concat chunks).
    { apply elem_of_concat. eexists. split; [|exact Hm].
      by eapply list_elem_of_lookup_2. }
    destruct chunks as [|c cs]; [congruence|]. cbn [is_empty].
    match goal with
    | |- context [if ?b then _ else _] => destruct b
    end; [exact Hin|]. apply elem_of_app. by left.
Qed.

End Link_facts.

Lemma sjoin_inv (gdf_osm : list Merge3d.Point) (gdf_tiles : list Merge3d.Tile)
    (tr : Merge3d.TileRow) :
  tr ∈ Merge3d.sjoin gdf_osm gdf_tiles →
  (∃ t, t ∈ gdf_tiles ∧ Merge3d.within (Merge3d.tr_point tr) t = true ∧
        tr = Merge3d.tile_row (Merge3d.tr_point tr) t)
  ∨ Merge3d.tr_path tr = Merge3d.CNaN.
Proof.
  unfold Merge3d.sjoin. intros (p & Htr & Hp)%list_elem_of_bind.
  destruct (List.filter (Merge3d.within p) gdf_tiles) as [|t0 ts] eqn:Hf.
  - apply list_elem_of_singleton in Htr as ->. by right.
  - apply list_elem_of_fmap in Htr as (t & -> & Ht). left.
    rewrite <- Hf in Ht. apply elem_of_List_filter in Ht as [Ht Hw].
    exists t. by repeat split.
Qed.

Section Link_origin.

Context {Geom : Type}.
Variable Polygon : list (Q * Q) → result Geom.
Variable unary_union : list Geom → Geom.
Variable distance : Q * Q → Geom → Q.
Variable query_order :
  Merge3d.Point → list (string * Geom) → string * Q → string * Q → bool.
Variable label_ties :
  list Merge3d.MatchRow → Merge3d.MatchRow → Merge3d.MatchRow → bool.
Variable files : gmap string Document.

(** Every linked record stems from a row of the tile join; a record
    whose row has no tile has neither building id nor distance. *)
Lemma link_rows_origin (gdf_osm : list Merge3d.Point) (gdf_tiles : list Merge3d.Tile)
    (cache : gmap string Document) (matched_all : list Merge3d.MatchRow)
    (m : Merge3d.MatchRow) :
  Merge3d.link Polygon unary_union distance query_order label_ties files gdf_osm gdf_tiles
  = Ret (cache, matched_all) →
  m ∈ matched_all →
  Merge3d.m_row m ∈ Merge3d.sjoin gdf_osm gdf_tiles ∧
  ((Merge3d.bldg_id m = Merge3d.CNone ∧ Merge3d.dist_m m = Merge3d.CNone)
   ∨ ∃ k, Merge3d.tr_path (Merge3d.m_row m) = Merge3d.CStr k).
Proof.
  intros Hlink Hm. unfold Merge3d.link in Hlink.
  destruct (Merge3d.link_tiles Polygon unary_union distance query_order files ∅ _)
    as [[cache0 chunks]|e] eqn:Htiles; cbn in Hlink; [|discriminate].
  injection Hlink as <- <-.
  apply link_tiles_spec in Htiles as Hchunks;
    [|intros k0 v Hk0; rewrite lookup_empty in Hk0; discriminate].
  rewrite elem_of_sort_index in Hm.
  assert (Hin : m ∈ concat chunks
                ∨ ∃ r, r ∈ Merge3d.sjoin gdf_osm gdf_tiles ∧
                       m = {| Merge3d.m_row := r; Merge3d.bldg_id := Merge3d.CNone;
                              Merge3d.dist_m := Merge3d.CNone |}).
  { assert (Hun : ∀ rows, m ∈ Merge3d.unmatched rows →
              (∀ r, r ∈ rows → r ∈ Merge3d.sjoin gdf_osm gdf_tiles) →
              ∃ r, r ∈ Merge3d.sjoin gdf_osm gdf_tiles ∧
                   m = {| Merge3d.m_row := r; Merge3d.bldg_id := Merge3d.CNone;
                          Merge3d.dist_m := Merge3d.CNone |}).
    { intros rows (r & Hr & ->)%elem_of_unmatched Hsub. eauto. }
    assert (Hfil : ∀ f r, r ∈ List.filter f (Merge3d.sjoin gdf_osm gdf_tiles) →
                          r ∈ Merge3d.sjoin gdf_osm gdf_tiles)
      by (intros f r Hr; by apply elem_of_List_filter in Hr as [? _]).
    repeat match type of Hm with
           | context [if ?b then _ else _] => destruct b
           end;
      rewrite ?elem_of_app in Hm; destruct_or?; eauto. }
  destruct Hin as [Hin|(r & Hr & ->)]; [|split; [exact Hr|by left]].
  apply elem_of_concat in Hin as (chunk & Hchunk & Hmc).
  apply list_elem_of_lookup in Hchunk as [j Hj].
  destruct (Forall2_lookup_r _ _ _ _ _ Hchunks Hj)
    as ([k group] & Hgj & cj & bldg & _ & _ & ->).
  apply list_elem_of_lookup_2, elem_of_groupby_path in Hgj as [-> _].
  cbn in Hmc. apply elem_of_match_group in Hmc as (r & Hr & Hcase).
  assert (Hrow : Merge3d.m_row m = r).
  { destruct Hcase as [[_ ->]|[_ Hmr]]; [reflexivity|]. by eapply m_row_nearest_rows. }
  rewrite Hrow.
  apply elem_of_List_filter in Hr as [Hr Hpk%path_is_true].
  apply elem_of_List_filter in Hr as [Hr _]. split; [exact Hr|]. right. eauto.
Qed.

End Link_origin.

(** C1, as the code has it: a point contained in the boxes of several tiles
    is matched independently in each of them.  For every tile that contains
    the point, the linked records of the point with that tile exist and are
    exactly the rows of the match of the point against the footprints of
    that tile's own document: each carries an accepted nearest footprint of
    that tile with its distance, or a missing building id and distance.
    Records of different tiles are not compared.  When no tile of the point
    has a footprint within the threshold, every record of the point has a
    missing building id and a missing distance. *)
Theorem point_matched_independently_per_tile {Geom : Type}
    (Polygon : list (Q * Q) → result Geom) (unary_union : list Geom → Geom)
    (distance : Q * Q → Geom → Q)
    (query_order : Merge3d.Point → list (string * Geom) → string * Q → string * Q → bool)
    (label_ties : list Merge3d.MatchRow → Merge3d.MatchRow → Merge3d.MatchRow → bool)
    (files : gmap string Document)
    (gdf_osm : list Merge3d.Point) (gdf_tiles : list Merge3d.Tile)
    (cache : gmap string Document) (matched_all : list Merge3d.MatchRow)
    (p : Merge3d.Point) :
  Merge3d.link Polygon unary_union distance query_order label_ties files gdf_osm gdf_tiles
  = Ret (cache, matched_all) →
  p ∈ gdf_osm →
  (∀ t, t ∈ gdf_tiles → Merge3d.within p t = true →
     ∃ cj bldg_gdf,
       files !! Merge3d.path t = Some cj ∧
       Merge3d.load_buildings_from_cityjson Polygon unary_union cj = Ret bldg_gdf ∧
       (∀ m, (m ∈ matched_all ∧ Merge3d.m_row m = Merge3d.tile_row p t)
             ↔ m ∈ Merge3d.match_group distance query_order [Merge3d.tile_row p t] bldg_gdf) ∧
       (∃ m, m ∈ matched_all ∧ Merge3d.m_row m = Merge3d.tile_row p t) ∧
       ∀ m, m ∈ matched_all → Merge3d.m_row m = Merge3d.tile_row p t →
         (∃ b g, (b, g) ∈ bldg_gdf ∧
                 Merge3d.bldg_id m = Merge3d.CStr b ∧
                 Merge3d.dist_m m
                 = Merge3d.CNum (distance (Merge3d.px p, Merge3d.py p) g) ∧
                 accepted_nearest distance p bldg_gdf Merge3d.MAX_BUILDING_DISTANCE g)
         ∨ (Merge3d.isna (Merge3d.bldg_id m) = true ∧
            Merge3d.isna (Merge3d.dist_m m) = true)) ∧
  ((∀ t cj bldg_gdf b g,
      t ∈ gdf_tiles → Merge3d.within p t = true →
      files !! Merge3d.path t = Some cj →
      Merge3d.load_buildings_from_cityjson Polygon unary_union cj = Ret bldg_gdf →
      (b, g) ∈ bldg_gdf →
      ¬ (distance (Merge3d.px p, Merge3d.py p) g <= Merge3d.MAX_BUILDING_DISTANCE)%Q) →
   ∀ m, m ∈ matched_all → Merge3d.tr_point (Merge3d.m_row m) = p →
     Merge3d.isna (Merge3d.bldg_id m) = true ∧ Merge3d.isna (Merge3d.dist_m m) = true).
Proof.
  intros Hlink Hp.
  assert (Htile : ∀ t, t ∈ gdf_tiles → Merge3d.within p t = true →
            ∃ cj bldg_gdf,
              files !! Merge3d.path t = Some cj ∧
              Merge3d.load_buildings_from_cityjson Polygon unary_union cj = Ret bldg_gdf ∧
              (∀ m, (m ∈ matched_all ∧ Merge3d.m_row m = Merge3d.tile_row p t)
                    ↔ m ∈ Merge3d.match_group distance query_order [Merge3d.tile_row p t] bldg_gdf)).
  { intros t Ht Hw.
    apply (link_spec Polygon unary_union distance query_order label_ties files gdf_osm gdf_tiles cache matched_all
             (Merge3d.tile_row p t) (Merge3d.path t) Hlink);
      [by apply tile_row_in_sjoin|reflexivity]. }
  split.
  - intros t Ht Hw. destruct (Htile t Ht Hw) as (cj & bldg & Hf & Hload & Hrows).
    exists cj, bldg. split; [exact Hf|]. split; [exact Hload|]. split; [exact Hrows|].
    destruct (match_group_outcome distance query_order [Merge3d.tile_row p t] bldg
                (Merge3d.tile_row p t) (list_elem_of_here _ _)) as [[m [Hm Hrow]] Hout].
    split.
    + exists m. by apply Hrows.
    + intros m' Hm' Hrow'.
      destruct (Hout m' (proj1 (Hrows m') (conj Hm' Hrow')) Hrow')
        as [(b & g & Hin & Hb & Hd & Hacc)|(Hb & Hd & _)]; [left|right; by split].
      exists b, g. by repeat (split; [assumption|]).
  - intros Hnone m Hm Hpt.
    destruct (link_rows_origin Polygon unary_union distance query_order label_ties files gdf_osm gdf_tiles
                cache matched_all m Hlink Hm) as [Hsrc [[-> ->]|[k Hk]]];
      [by split|].
    apply sjoin_inv in Hsrc as [(t & Ht & Hw & Hrow)|Hnan]; [|congruence].
    rewrite Hpt in Hw, Hrow.
    destruct (Htile t Ht Hw) as (cj & bldg & Hf & Hload & Hrows).
    destruct (match_group_outcome distance query_order [Merge3d.tile_row p t] bldg
                (Merge3d.tile_row p t) (list_elem_of_here _ _)) as [_ Hout].
    destruct (Hout m (proj1 (Hrows m) (conj Hm Hrow)) Hrow)
      as [(b & g & Hin & _ & _ & Hle & _)|(Hb & Hd & _)]; [|by split].
    destruct (Hnone t cj bldg b g Ht Hw Hf Hload Hin Hle).
Qed.

Lemma point_matched_independently_per_tile_witness :
  let matched_all :=
    [ {| Merge3d.m_row := Merge3d.tile_row Examples.p_both Examples.east;
         Merge3d.bldg_id := Merge3d.CStr "B"; Merge3d.dist_m := Merge3d.CNum 10 |};
      {| Merge3d.m_row := Merge3d.tile_row Examples.p_both Examples.west;
         Merge3d.bldg_id := Merge3d.CStr "A"; Merge3d.dist_m := Merge3d.CNum 20 |} ] in
  (∀ t, t ∈ [Examples.west; Examples.east] → Merge3d.within Examples.p_both t = true →
     ∃ cj bldg_gdf,
       Examples.files !! Merge3d.path t = Some cj ∧
       Merge3d.load_buildings_from_cityjson Examples.Polygon Examples.unary_union cj
       = Ret bldg_gdf ∧
       (∀ m, (m ∈ matched_all ∧ Merge3d.m_row m = Merge3d.tile_row Examples.p_both t)
             ↔ m ∈ Merge3d.match_group Examples.distance Examples.query_order
                     [Merge3d.tile_row Examples.p_both t] bldg_gdf) ∧
       (∃ m, m ∈ matched_all ∧ Merge3d.m_row m = Merge3d.tile_row Examples.p_both t) ∧
       ∀ m, m ∈ matched_all → Merge3d.m_row m = Merge3d.tile_row Examples.p_both t →
         (∃ b g, (b, g) ∈ bldg_gdf ∧
                 Merge3d.bldg_id m = Merge3d.CStr b ∧
                 Merge3d.dist_m m = Merge3d.CNum (Examples.distance (55, 50)%Q g) ∧
                 accepted_nearest Examples.distance Examples.p_both bldg_gdf
                                  Merge3d.MAX_BUILDING_DISTANCE g)
         ∨ (Merge3d.isna (Merge3d.bldg_id m) = true ∧
            Merge3d.isna (Merge3d.dist_m m) = true)) ∧
  ((∀ t cj bldg_gdf b g,
      t ∈ [Examples.west; Examples.east] → Merge3d.within Examples.p_both t = true →
      Examples.files !! Merge3d.path t = Some cj →
      Merge3d.load_buildings_from_cityjson Examples.Polygon Examples.unary_union cj
      = Ret bldg_gdf →
      (b, g) ∈ bldg_gdf →
      ¬ (Examples.distance (55, 50)%Q g <= Merge3d.MAX_BUILDING_DISTANCE)%Q) →
   ∀ m, m ∈ matched_all → Merge3d.tr_point (Merge3d.m_row m) = Examples.p_both →
     Merge3d.isna (Merge3d.bldg_id m) = true ∧ Merge3d.isna (Merge3d.dist_m m) = true).
Proof.
  apply (point_matched_independently_per_tile
           Examples.Polygon Examples.unary_union Examples.distance Examples.query_order Examples.label_ties Examples.files
           [Examples.p_both] [Examples.west; Examples.east] Examples.files).
  - vm_compute. reflexivity.
  - apply list_elem_of_here.
Defined.

(** The building without semantic values leaves the footprint frame of the
    tile as it is without it. *)
Example unvalued_building_is_absent :
  Merge3d.load_buildings_from_cityjson Examples.Polygon Examples.unary_union
    Examples.tile_doc_with_unvalued
  = Ret Examples.two_buildings.
Proof. vm_compute. reflexivity. Qed.

(** * Further properties of the code *)

(** ** bld2mesh.py: polygon collection *)

(** A loop over [enumerate] keeps what every turn of its body keeps. *)
Lemma enumerate_fold_invariant (P : Mesh.ring_dict → Prop)
    (body : nat → tree → Mesh.ring_dict → result Mesh.ring_dict)
    (l : list tree) (i : nat) (d d' : Mesh.ring_dict) :
  (∀ i x d d', body i x d = Ret d' → P d → P d') →
  Mesh.enumerate_fold body i l d = Ret d' → P d → P d'.
Proof.
  intros Hbody. revert i d. induction l as [|x l IH]; intros i d; cbn.
  - intros [= <-]. tauto.
  - destruct (body i x d) as [d1|e] eqn:Hb; cbn; [|discriminate].
    intros Hrest HP. eapply IH; [exact Hrest|]. eapply Hbody; eassumption.
Qed.

Lemma dict_append_keys (d : Mesh.ring_dict) (k : string) (ring : list tree) :
  (Mesh.dict_append d k ring).*1
  = if bool_decide (k ∈ d.*1) then d.*1 else (d.*1 ++ [k])%list.
Proof.
  induction d as [|[k' rings] d IH]; cbn; [reflexivity|].
  destruct (String.eqb_spec k' k) as [->|Hne]; cbn.
  - rewrite bool_decide_eq_true_2 by apply list_elem_of_here. reflexivity.
  - rewrite IH. do 2 case_bool_decide; try reflexivity.
    + exfalso. apply H0. by apply list_elem_of_further.
    + exfalso. apply elem_of_cons in H0 as [->|?]; [congruence|tauto].
Qed.

Lemma dict_append_Forall (P : string → list (list tree) → Prop)
    (d : Mesh.ring_dict) (k : string) (ring : list tree) :
  Forall (λ kr, P kr.1 kr.2) d →
  P k [ring] →
  (∀ rings, P k rings → P k (rings ++ [ring])%list) →
  Forall (λ kr, P kr.1 kr.2) (Mesh.dict_append d k ring).
Proof.
  intros Hd Hnew Hext. induction Hd as [|[k' rings] d Hkr Hd IH]; cbn.
  - constructor; [exact Hnew|constructor].
  - destruct (String.eqb_spec k' k) as [->|Hne].
    + constructor; [by apply Hext|exact Hd].
    + constructor; assumption.
Qed.

Lemma collect_surface_invariant (geom : Geometry) (idx_path : list Z) (surface : tree)
    (d d' : Mesh.ring_dict) :
  Mesh.collect_surface geom idx_path surface d = Ret d' →
  well_collected d → well_collected d'.
Proof.
  unfold Mesh.collect_surface. destruct (truthy surface); cbn [negb]; [|by intros [= <-]].
  destruct (getitem surface 0) as [[k| |ring]|e]; cbn; try discriminate.
  case_bool_decide as Hlen; [by intros [= <-]|].
  destruct (Bld2Mesh.get_sem_type geom idx_path) as [sem_type|e]; cbn; [|discriminate].
  intros [= <-] [Hnd Hall]. split.
  - rewrite dict_append_keys. case_bool_decide as Hin; [exact Hnd|].
    apply NoDup_app. split; [exact Hnd|]. split.
    + intros x Hx Hx'%list_elem_of_singleton. congruence.
    + apply NoDup_singleton.
  - apply (dict_append_Forall
             (λ _ rings, rings ≠ [] ∧ Forall (λ ring, 3 ≤ length ring)%nat rings)).
    + exact Hall.
    + split; [discriminate|]. constructor; [lia|constructor].
    + intros rings [_ Hrings]. split; [by destruct rings|].
      apply Forall_app. split; [exact Hrings|]. constructor; [lia|constructor].
Qed.

(** Whatever every filed surface keeps, the collection over a geometry
    keeps, whichever branch its type selects. *)
Lemma collect_geometry_preserves (P : Mesh.ring_dict → Prop) (geom : Geometry)
    (d d' : Mesh.ring_dict) :
  (∀ idx_path surface d d',
     Mesh.collect_surface geom idx_path surface d = Ret d' → P d → P d') →
  Mesh.collect_geometry geom d = Ret d' → P d → P d'.
Proof.
  intros Hsurf.
  assert (Hms : ∀ b d d', Mesh.collect_multisurface geom b d = Ret d' → P d → P d').
  { intros b d0 d1. unfold Mesh.collect_multisurface.
    destruct (Mesh.iter b) as [surfaces|e]; cbn; [|discriminate].
    apply (enumerate_fold_invariant P). intros i x d2 d3. apply Hsurf. }
  unfold Mesh.collect_geometry.
  destruct (Mesh.one_of _ "MultiSurface" "CompositeSurface"); [apply Hms|].
  destruct (Mesh.one_of _ "Solid" "MultiSolid"); [|apply Hms].
  unfold Mesh.collect_solids.
  destruct (Mesh.iter _) as [solids|e]; cbn; [|discriminate].
  apply (enumerate_fold_invariant P).
  intros si solid d2 d3. unfold Mesh.collect_solid.
  destruct (truthy solid); cbn [negb]; [|by intros [= <-]].
  destruct (Mesh.iter solid) as [shells|e]; cbn; [|discriminate].
  apply (enumerate_fold_invariant P).
  intros shi shell d4 d5. unfold Mesh.collect_shell.
  destruct (truthy shell); cbn [negb]; [|by intros [= <-]].
  destruct (Mesh.iter shell) as [surfaces|e]; cbn; [|discriminate].
  apply (enumerate_fold_invariant P).
  intros i x d6 d7. apply Hsurf.
Qed.

Lemma collect_geometry_invariant (geom : Geometry) (d d' : Mesh.ring_dict) :
  Mesh.collect_geometry geom d = Ret d' →
  well_collected d → well_collected d'.
Proof.
  apply (collect_geometry_preserves well_collected).
  intros idx_path surface d0 d1. apply collect_surface_invariant.
Qed.

Lemma collect_geometries_invariant (P : Mesh.ring_dict → Prop) (geoms : list Geometry)
    (d d' : Mesh.ring_dict) :
  (∀ geom d d', geom ∈ geoms → Mesh.collect_geometry geom d = Ret d' → P d → P d') →
  Mesh.collect_geometries geoms d = Ret d' → P d → P d'.
Proof.
  revert d. induction geoms as [|geom geoms IH]; intros d Hstep; cbn.
  - intros [= <-]. tauto.
  - destruct (Mesh.collect_geometry geom d) as [d1|e] eqn:Hg; cbn; [|discriminate].
    intros Hrest HP. eapply IH; [|exact Hrest|].
    + intros g d2 d3 Hin. apply Hstep. by apply list_elem_of_further.
    + eapply Hstep; [apply list_elem_of_here|exact Hg|exact HP].
Qed.

Lemma collected_polygons_nonempty_nodup (building_obj : CityObject)
    (polygons_by_type : Mesh.ring_dict) :
  Mesh.collect_polygons building_obj = Ret polygons_by_type →
  polygons_by_type ≠ [] ∧ well_collected polygons_by_type.
Proof.
  unfold Mesh.collect_polygons. destruct (is_empty (co_geometry building_obj)); [discriminate|].
  destruct (Mesh.collect_geometries (co_geometry building_obj) []) as [d|e] eqn:Hc; cbn;
    [|discriminate].
  destruct d as [|kr d]; cbn [is_empty]; [discriminate|]. intros [= <-].
  split; [discriminate|].
  apply (collect_geometries_invariant well_collected _ _ _
           (λ geom d0 d1 _, collect_geometry_invariant geom d0 d1) Hc).
  split; [apply NoDup_nil_2|constructor].
Qed.

(** Polygon collection, when it returns, returns a non-empty dictionary
    with distinct semantic types, each with at least one ring, and every
    ring has at least three entries. *)
Theorem collected_polygons_are_triangulable (building_obj : CityObject)
    (polygons_by_type : Mesh.ring_dict) :
  Mesh.collect_polygons building_obj = Ret polygons_by_type →
  polygons_by_type ≠ [] ∧
  NoDup polygons_by_type.*1 ∧
  Forall (λ kr, kr.2 ≠ [] ∧ Forall (λ ring : list tree, (3 ≤ length ring)%nat) kr.2)
         polygons_by_type.
Proof.
  intros Hcollect.
  destruct (collected_polygons_nonempty_nodup building_obj polygons_by_type Hcollect)
    as (Hne & Hnd & Hall).
  by repeat split.
Qed.

Lemma collected_polygons_are_triangulable_witness :
  let d := [ ("GroundSurface", [[Leaf 4; Leaf 7; Leaf 6; Leaf 5]]);
             ("RoofSurface", [[Leaf 8; Leaf 9; Leaf 10; Leaf 11]]);
             ("WallSurface", [[Leaf 4; Leaf 5; Leaf 9; Leaf 8]]) ] in
  d ≠ [] ∧
  NoDup d.*1 ∧
  Forall (λ kr, kr.2 ≠ [] ∧ Forall (λ ring : list tree, (3 ≤ length ring)%nat) kr.2) d.
Proof.
  apply (collected_polygons_are_triangulable Examples.b1).
  vm_compute. reflexivity.
Defined.

(** A geometry whose semantics cannot resolve anything files every ring
    under the sentinel: a building made of such geometries gives the single
    node name Unknown. *)
Theorem unresolved_semantics_give_one_unknown_node (building_obj : CityObject)
    (polygons_by_type : Mesh.ring_dict) :
  Forall (λ geom, Bld2Mesh.surf_defs geom = [] ∨ Bld2Mesh.values geom = Null)
         (co_geometry building_obj) →
  Mesh.collect_polygons building_obj = Ret polygons_by_type →
  polygons_by_type.*1 = ["Unknown"].
Proof.
  intros Hsem Hcollect.
  destruct (collected_polygons_nonempty_nodup building_obj polygons_by_type Hcollect)
    as (Hne & Hnd & _).
  assert (Hkeys : ∀ k, k ∈ polygons_by_type.*1 → k = "Unknown").
  { revert Hcollect. unfold Mesh.collect_polygons.
    destruct (is_empty (co_geometry building_obj)); [discriminate|].
    destruct (Mesh.collect_geometries (co_geometry building_obj) []) as [d|e] eqn:Hc; cbn;
      [|discriminate].
    destruct (is_empty d); [discriminate|]. intros [= <-].
    refine (collect_geometries_invariant (λ d, ∀ k, k ∈ d.*1 → k = "Unknown")
              _ _ _ _ Hc _).
    - intros geom d0 d1 Hgeom.
      apply (collect_geometry_preserves (λ d, ∀ k, k ∈ d.*1 → k = "Unknown")).
      intros idx_path surface d2 d3. unfold Mesh.collect_surface.
      destruct (truthy surface); cbn [negb]; [|by intros [= <-]].
      destruct (getitem surface 0) as [[k| |ring]|e]; cbn; try discriminate.
      case_bool_decide; [by intros [= <-]|].
      rewrite resolver_degrades_to_unknown; cbn.
      + intros [= <-] Hd k. rewrite dict_append_keys.
        case_bool_decide; [apply Hd|]. rewrite elem_of_app, list_elem_of_singleton.
        intros [?| ->]; [by apply Hd|reflexivity].
      + rewrite Forall_forall in Hsem. destruct (Hsem geom Hgeom); tauto.
    - intros k Hk. by apply elem_of_nil in Hk. }
  destruct polygons_by_type as [|[k1 r1] [|[k2 r2] rest]]; [congruence| |].
  - cbn. rewrite (Hkeys k1); [reflexivity|apply list_elem_of_here].
  - exfalso. cbn in Hnd, Hkeys. apply NoDup_cons in Hnd as [Hnotin _]. apply Hnotin.
    rewrite (Hkeys k1), (Hkeys k2).
    + apply list_elem_of_here.
    + apply list_elem_of_further, list_elem_of_here.
    + apply list_elem_of_here.
Qed.

Lemma unresolved_semantics_give_one_unknown_node_witness :
  [ ("Unknown", [ [Leaf 0; Leaf 1; Leaf 2; Leaf 3]; [Leaf 4; Leaf 5; Leaf 6] ]) ].*1
  = ["Unknown"].
Proof.
  apply (unresolved_semantics_give_one_unknown_node Examples2.plain_building).
  - repeat constructor.
  - vm_compute. reflexivity.
Defined.

Lemma get_sem_type_semantics (geom geom' : Geometry) (idx_path : list Z) :
  g_semantics geom' = g_semantics geom →
  Bld2Mesh.get_sem_type geom' idx_path = Bld2Mesh.get_sem_type geom idx_path.
Proof.
  intros Hsem. unfold Bld2Mesh.get_sem_type, Bld2Mesh.surf_defs, Bld2Mesh.values.
  rewrite Hsem. reflexivity.
Qed.

Lemma enumerate_fold_map (body body' : nat → tree → Mesh.ring_dict → result Mesh.ring_dict)
    (f : tree → tree) (l : list tree) (i : nat) (d : Mesh.ring_dict) :
  (∀ i x d, body' i (f x) d = body i x d) →
  Mesh.enumerate_fold body' i (map f l) d = Mesh.enumerate_fold body i l d.
Proof.
  intros Hbody. revert i d. induction l as [|x l IH]; intros i d; cbn; [reflexivity|].
  rewrite Hbody. destruct (body i x d); cbn; [apply IH|reflexivity].
Qed.

Lemma collect_surface_outer_only (geom geom' : Geometry) (idx_path : list Z)
    (surface : tree) (d : Mesh.ring_dict) :
  g_semantics geom' = g_semantics geom →
  Mesh.collect_surface geom' idx_path (outer_only surface) d
  = Mesh.collect_surface geom idx_path surface d.
Proof.
  intros Hsem. unfold Mesh.collect_surface.
  rewrite (get_sem_type_semantics geom geom' idx_path Hsem).
  destruct surface as [k| |[|outer rest]]; reflexivity.
Qed.

Lemma truthy_map (f : tree → tree) (l : list tree) :
  truthy (Group (map f l)) = truthy (Group l).
Proof. by destruct l. Qed.

(** A loop over the members of a list value reads the mapped list as it
    reads the list, when its body does. *)
Lemma iterate_map_at (body body' : nat → tree → Mesh.ring_dict → result Mesh.ring_dict)
    (n : nat) (t : tree) (d : Mesh.ring_dict) :
  (∀ i x d, body' i (map_at n outer_only x) d = body i x d) →
  (surfaces ← Mesh.iter (map_at (S n) outer_only t); Mesh.enumerate_fold body' 0 surfaces d)
  = (surfaces ← Mesh.iter t; Mesh.enumerate_fold body 0 surfaces d).
Proof.
  intros Hbody. destruct t as [k| |l]; try reflexivity.
  change (map_at (S n) outer_only (Group l)) with (Group (map (map_at n outer_only) l)).
  cbn [Mesh.iter mbind result_bind bind]. by apply enumerate_fold_map.
Qed.

Lemma skip_falsy_map_at (n : nat) (t : tree) :
  truthy (map_at (S n) outer_only t) = truthy t.
Proof.
  destruct t as [k| |l]; try reflexivity.
  change (map_at (S n) outer_only (Group l)) with (Group (map (map_at n outer_only) l)).
  apply truthy_map.
Qed.

(** Holes are dropped: only the first ring of a surface is read, so
    reducing every surface of a geometry to its outer ring changes nothing
    in the collected polygons, whatever the geometry type. *)
Theorem collection_ignores_holes (geom : Geometry) (d : Mesh.ring_dict) :
  Mesh.collect_geometry
    (Merge3d.set_boundaries geom
       (map_at (surface_depth geom) outer_only (Merge3d.boundaries_of geom))) d
  = Mesh.collect_geometry geom d.
Proof.
  set (geom' := Merge3d.set_boundaries geom _).
  assert (Hsem : g_semantics geom' = g_semantics geom) by reflexivity.
  assert (Hms : ∀ b d, Mesh.collect_multisurface geom' (map_at 1 outer_only b) d
                       = Mesh.collect_multisurface geom b d).
  { intros b d0. unfold Mesh.collect_multisurface. apply iterate_map_at.
    intros i x d1. by apply collect_surface_outer_only. }
  assert (Hshell : ∀ si shi shell d,
            Mesh.collect_shell geom' si shi (map_at 1 outer_only shell) d
            = Mesh.collect_shell geom si shi shell d).
  { intros si shi shell d0. unfold Mesh.collect_shell. rewrite skip_falsy_map_at.
    destruct (truthy shell); cbn [negb]; [|reflexivity]. apply iterate_map_at.
    intros i x d1. by apply collect_surface_outer_only. }
  assert (Hsolid : ∀ si solid d,
            Mesh.collect_solid geom' si (map_at 2 outer_only solid) d
            = Mesh.collect_solid geom si solid d).
  { intros si solid d0. unfold Mesh.collect_solid. rewrite skip_falsy_map_at.
    destruct (truthy solid); cbn [negb]; [|reflexivity]. apply iterate_map_at.
    intros shi x d1. apply Hshell. }
  unfold Mesh.collect_geometry.
  change (g_type geom') with (g_type geom).
  change (Merge3d.boundaries_of geom')
    with (map_at (surface_depth geom) outer_only (Merge3d.boundaries_of geom)).
  unfold surface_depth.
  destruct (Mesh.one_of _ "MultiSurface" "CompositeSurface"); [apply Hms|].
  destruct (Mesh.one_of _ "Solid" "MultiSolid"); [|apply Hms].
  unfold Mesh.collect_solids. apply iterate_map_at. intros si x d1. apply Hsolid.
Qed.

(** ** bld2mesh.py: local vertex array and meshes *)

(** The local ring of a ring whose indices are all keys, and the fan the
    triangulator returns for it. *)
Lemma triangulate_fan_local (global_to_local : gmap Z Z) (ring local_ring : list Z) :
  Forall2 (λ g l, global_to_local !! g = Some l) ring local_ring →
  Bld2Mesh.triangulate_fan global_to_local ring
  = Ret (if bool_decide (length local_ring < 3)%nat then []
         else (λ i : nat, [local_ring !!! 0%nat; local_ring !!! i;
                           local_ring !!! (i + 1)%nat])
                <$> seq 1 (length local_ring - 1 - 1)).
Proof.
  intros Hmap. unfold Bld2Mesh.triangulate_fan.
  rewrite (mapM_result_Forall2 _ ring local_ring).
  - cbn. by case_bool_decide.
  - eapply Forall2_impl; [exact Hmap|]. intros g l Hg. cbn. rewrite Hg. reflexivity.
Qed.

(** What a successful local vertex array is made of. *)
Lemma local_vertex_array_inv (polygons_by_type : Bld2Mesh.polygons)
    (vertices_global vertices : list vertex) (global_to_local : gmap Z Z) :
  Bld2Mesh.local_vertex_array polygons_by_type vertices_global
  = Ret (global_to_local, vertices) →
  global_to_local = enumerate_map (Bld2Mesh.used_global_indices polygons_by_type) ∧
  Bld2Mesh.used_global_indices polygons_by_type ≠ [] ∧
  Forall2 (λ g v, py_index vertices_global g = Ret v)
          (Bld2Mesh.used_global_indices polygons_by_type) vertices.
Proof.
  unfold Bld2Mesh.local_vertex_array.
  destruct (Bld2Mesh.used_global_indices polygons_by_type) as [|g0 used] eqn:Hused;
    cbn [is_empty]; [discriminate|].
  destruct (mapM (py_index vertices_global) (g0 :: used)) as [vs|e] eqn:Hm; [|discriminate].
  intros [= <- <-]. split; [reflexivity|]. split; [discriminate|].
  by apply mapM_result_inv.
Qed.

(** Every index of every ring has a local index, and it addresses a row of
    the sliced vertex array. *)
Lemma ring_has_local_indices (polygons_by_type : Bld2Mesh.polygons)
    (vertices_global vertices : list vertex) (global_to_local : gmap Z Z)
    (sem_type : string) (rings : list (list Z)) (ring : list Z) :
  Bld2Mesh.local_vertex_array polygons_by_type vertices_global
  = Ret (global_to_local, vertices) →
  (sem_type, rings) ∈ polygons_by_type → ring ∈ rings →
  ∃ local_ring,
    Forall2 (λ g l, global_to_local !! g = Some l) ring local_ring ∧
    Forall (λ l, 0 ≤ l < Z.of_nat (length vertices)) local_ring.
Proof.
  intros (-> & Hne & Hrows)%local_vertex_array_inv Hrings Hring.
  set (used := Bld2Mesh.used_global_indices polygons_by_type) in *.
  destruct (sorted_used_spec
              (list_to_set (polys ← polygons_by_type.*2; poly ← polys; poly)))
    as (_ & Hnd & Hmem & _).
  change (merge_sort Z.le _) with used in Hnd, Hmem.
  assert (Hall : ∀ g, g ∈ ring →
            ∃ l, enumerate_map used !! g = Some l ∧ 0 ≤ l < Z.of_nat (length vertices)).
  { intros g Hg.
    assert (Hin : g ∈ used).
    { apply Hmem, elem_of_list_to_set, list_elem_of_bind. exists rings. split.
      - apply list_elem_of_bind. eauto.
      - apply list_elem_of_fmap. by exists (sem_type, rings). }
    apply list_elem_of_lookup in Hin as [i Hi]. exists (Z.of_nat i). split.
    - apply enumerate_map_lookup; eauto.
    - apply lookup_lt_Some in Hi. apply Forall2_length in Hrows. lia. }
  clear Hring. induction ring as [|g ring IH].
  - exists []. split; constructor.
  - destruct (Hall g) as (l & Hl & Hrange); [apply list_elem_of_here|].
    destruct IH as (ls & Hls & Hranges).
    { intros g' Hg'. apply Hall. by apply list_elem_of_further. }
    exists (l :: ls). split; constructor; assumption.
Qed.

(** Referential integrity of the mesh: once the local vertex array is
    built, triangulating any ring of the dictionary succeeds (no KeyError),
    gives [len - 2] triangles, none for a ring shorter than three, and
    every triangle has three indices that address rows of the sliced vertex
    array. *)
Theorem faces_index_the_vertex_buffer (polygons_by_type : Bld2Mesh.polygons)
    (vertices_global vertices : list vertex) (global_to_local : gmap Z Z)
    (sem_type : string) (rings : list (list Z)) (ring : list Z) :
  Bld2Mesh.local_vertex_array polygons_by_type vertices_global
  = Ret (global_to_local, vertices) →
  (sem_type, rings) ∈ polygons_by_type → ring ∈ rings →
  ∃ tris,
    Bld2Mesh.triangulate_fan global_to_local ring = Ret tris ∧
    length tris = fan_size ring ∧
    Forall (λ tri, length tri = 3%nat ∧
                   Forall (λ j, 0 ≤ j < Z.of_nat (length vertices)) tri) tris.
Proof.
  intros Hlocal Hrings Hring.
  destruct (ring_has_local_indices _ _ _ _ _ _ _ Hlocal Hrings Hring)
    as (local_ring & Hmap & Hrange).
  eexists. split; [by apply triangulate_fan_local|].
  apply Forall2_length in Hmap as Hlen. unfold fan_size. rewrite Hlen.
  case_bool_decide as Hshort.
  - split; [cbn; lia|constructor].
  - split; [rewrite length_fmap, length_seq; lia|].
    apply Forall_fmap, Forall_forall. intros i [Hi1 Hi2]%elem_of_seq. cbn.
    split; [reflexivity|].
    rewrite Forall_forall in Hrange.
    repeat (constructor; [apply Hrange, list_elem_of_lookup_total_2; lia|]).
    constructor.
Qed.

Lemma faces_index_the_vertex_buffer_witness :
  ∃ tris,
    Bld2Mesh.triangulate_fan (enumerate_map [4; 5; 6; 7; 8; 9; 10; 11]) [8; 9; 10; 11]
    = Ret tris ∧
    length tris = fan_size [8; 9; 10; 11] ∧
    Forall (λ tri, length tri = 3%nat ∧
                   Forall (λ j, 0 ≤ j < Z.of_nat (length (drop 4 Examples.box_vertices))) tri)
           tris.
Proof.
  apply (faces_index_the_vertex_buffer Examples2.box_polygons Examples.box_vertices
           (drop 4 Examples.box_vertices) _ "RoofSurface" [[8; 9; 10; 11]]).
  - vm_compute. reflexivity.
  - apply list_elem_of_further, list_elem_of_here.
  - apply list_elem_of_here.
Defined.

Lemma int_polygons_inv (d : Mesh.ring_dict) (polygons_by_type : Bld2Mesh.polygons) :
  int_polygons d = Some polygons_by_type →
  Forall2 (λ kr kr', kr'.1 = kr.1 ∧
                     Forall2 (λ ring ring', int_ring ring = Some ring' ∧
                                            length ring' = length ring) kr.2 kr'.2)
          d polygons_by_type.
Proof.
  unfold int_polygons. intros H%mapM_Some.
  eapply Forall2_impl; [exact H|]. intros [k rings] [k' rings'] Hkr. cbn in *.
  destruct (mapM int_ring rings) as [rs|] eqn:Hrs; cbn in Hkr; [|discriminate].
  injection Hkr as <- <-. split; [reflexivity|].
  apply mapM_Some in Hrs. eapply Forall2_impl; [exact Hrs|].
  intros ring ring' Hring. split; [exact Hring|].
  unfold int_ring in Hring. apply mapM_Some, Forall2_length in Hring. lia.
Qed.

(** The faces of one semantic type: the fans of its rings, one after the
    other. *)
Lemma type_faces_spec (polygons_by_type : Bld2Mesh.polygons)
    (vertices_global vertices : list vertex) (global_to_local : gmap Z Z)
    (sem_type : string) (rings : list (list Z)) :
  Bld2Mesh.local_vertex_array polygons_by_type vertices_global
  = Ret (global_to_local, vertices) →
  (sem_type, rings) ∈ polygons_by_type →
  ∃ faces, Mesh.type_faces global_to_local rings = Ret faces ∧
           length faces = list_sum (fan_size <$> rings).
Proof.
  intros Hlocal Hrings. unfold Mesh.type_faces.
  destruct (mapM_result_exists (Bld2Mesh.triangulate_fan global_to_local)
              (λ ring tris, length tris = fan_size ring) rings) as (triss & Hm & Hlen).
  { intros ring Hring.
    destruct (ring_has_local_indices _ _ _ _ _ _ _ Hlocal Hrings Hring)
      as (local_ring & Hmap & _).
    eexists. split; [by apply triangulate_fan_local|].
    apply Forall2_length in Hmap. unfold fan_size. rewrite Hmap.
    case_bool_decide; [cbn; lia|]. rewrite length_fmap, length_seq. lia. }
  exists (concat triss). rewrite Hm. split; [reflexivity|].
  rewrite length_concat. f_equal.
  clear -Hlen. induction Hlen as [|ring tris rings triss Hl _ IH]; [reflexivity|].
  cbn. f_equal; assumption.
Qed.

Lemma filter_all_true {A : Type} (f : A → bool) (l : list A) :
  Forall (λ x, f x = true) l → List.filter f l = l.
Proof. induction 1 as [|x l Hx _ IH]; cbn; [reflexivity|]. by rewrite Hx, IH. Qed.

(** From collection to meshes: for the polygons collected from a building,
    once the local vertex array is built, every collected semantic type
    gets a mesh, in collection order, with as many faces as the fans of
    its rings have; the check for an export without faces cannot fire. *)
Theorem every_collected_type_gets_a_mesh (building_obj : CityObject)
    (d : Mesh.ring_dict) (polygons_by_type : Bld2Mesh.polygons)
    (vertices_global vertices : list vertex) (global_to_local : gmap Z Z) :
  Mesh.collect_polygons building_obj = Ret d →
  int_polygons d = Some polygons_by_type →
  Bld2Mesh.local_vertex_array polygons_by_type vertices_global
  = Ret (global_to_local, vertices) →
  ∃ meshes,
    Mesh.build_meshes global_to_local polygons_by_type = Ret meshes ∧
    meshes.*1 = d.*1 ∧
    Forall2 (λ kr m, m.2 ≠ [] ∧ length m.2 = list_sum (fan_size <$> kr.2))
            polygons_by_type meshes.
Proof.
  intros Hcollect Hint Hlocal.
  destruct (collected_polygons_nonempty_nodup _ _ Hcollect) as (Hne & _ & Hwell).
  apply int_polygons_inv in Hint.
  assert (Hpolys : Forall (λ kr, 1 ≤ list_sum (fan_size <$> kr.2))%nat polygons_by_type).
  { clear Hlocal Hne Hcollect.
    induction Hint as [|[k rings] [k' rings'] d polys [_ Hrings] _ IH];
      [constructor|].
    apply Forall_cons in Hwell as [[Hrne Hlens] Hwell]. constructor; [|by apply IH].
    cbn in *. destruct Hrings as [|ring ring' rings rings' [_ Hlen] _]; [congruence|].
    apply Forall_cons in Hlens as [Hlen3 _]. cbn. unfold fan_size at 1. lia. }
  destruct (mapM_result_exists
              (λ '(sem_type, polys),
                 faces ← Mesh.type_faces global_to_local polys; Ret (sem_type, faces))
              (λ kr m, m.1 = kr.1 ∧ length m.2 = list_sum (fan_size <$> kr.2))
              polygons_by_type) as (by_type & Hby & Hrel).
  { intros [sem_type rings] Hin.
    destruct (type_faces_spec _ _ _ _ sem_type rings Hlocal Hin) as (faces & Hf & Hlen).
    exists (sem_type, faces). rewrite Hf. by repeat split. }
  assert (Hfaces : Forall2 (λ kr m, m.1 = kr.1 ∧ m.2 ≠ [] ∧
                                    length m.2 = list_sum (fan_size <$> kr.2))
                           polygons_by_type by_type).
  { clear -Hrel Hpolys. induction Hrel as [|kr m polys ms [Hk Hlen] _ IH]; [constructor|].
    apply Forall_cons in Hpolys as [Hpos Hpolys]. constructor; [|by apply IH].
    split; [exact Hk|]. split; [|exact Hlen]. intros Hnil. rewrite Hnil in Hlen.
    cbn in Hlen. lia. }
  exists by_type. unfold Mesh.build_meshes. rewrite Hby. cbn.
  rewrite filter_all_true.
  - destruct by_type as [|m ms]; cbn [is_empty].
    + apply Forall2_length in Hfaces, Hint. destruct d; [congruence|].
      cbn in *. lia.
    + split; [reflexivity|]. split.
      * transitivity (polygons_by_type.*1).
        -- clear -Hfaces. induction Hfaces as [|kr m' ? ? (Hk & _) _ IH];
             [reflexivity|]. cbn. by rewrite Hk, IH.
        -- clear -Hint. induction Hint as [|kr kr' ? ? [Hk _] _ IH]; [reflexivity|].
           cbn. by rewrite Hk, IH.
      * eapply Forall2_impl; [exact Hfaces|]. intros kr m' (_ & ? & ?). by split.
  - clear -Hfaces. induction Hfaces as [|kr m ? ? (_ & Hm & _) _ IH]; constructor;
      [|exact IH].
    by destruct (m.2).
Qed.

Lemma every_collected_type_gets_a_mesh_witness :
  ∃ meshes,
    Mesh.build_meshes (enumerate_map [4; 5; 6; 7; 8; 9; 10; 11]) Examples2.box_polygons
    = Ret meshes ∧
    meshes.*1 = ["GroundSurface"; "RoofSurface"; "WallSurface"] ∧
    Forall2 (λ kr m, m.2 ≠ [] ∧ length m.2 = list_sum (fan_size <$> kr.2))
            Examples2.box_polygons meshes.
Proof.
  apply (every_collected_type_gets_a_mesh Examples.b1
           [ ("GroundSurface", [[Leaf 4; Leaf 7; Leaf 6; Leaf 5]]);
             ("RoofSurface", [[Leaf 8; Leaf 9; Leaf 10; Leaf 11]]);
             ("WallSurface", [[Leaf 4; Leaf 5; Leaf 9; Leaf 8]]) ]
           Examples2.box_polygons Examples.box_vertices (drop 4 Examples.box_vertices)).
  - vm_compute. reflexivity.
  - vm_compute. reflexivity.
  - vm_compute. reflexivity.
Defined.

Lemma py_index_invalid {A : Type} (l : list A) (i : Z) :
  ¬ (- Z.of_nat (length l) ≤ i < Z.of_nat (length l)) →
  py_index l i = Raise IndexError.
Proof.
  intros Hi. unfold py_index.
  destruct (bool_decide (i < 0)) eqn:Hneg.
  - apply bool_decide_eq_true_1 in Hneg. rewrite bool_decide_eq_false_2; [reflexivity|lia].
  - apply bool_decide_eq_false_1 in Hneg. rewrite bool_decide_eq_false_2; [reflexivity|lia].
Qed.

Lemma mapM_result_raises {A B : Type} (f : A → result B) (l : list A) (a : A) (e : exn) :
  a ∈ l → f a = Raise e → ∃ e', mapM f l = Raise e'.
Proof.
  intros Hin Hfa. induction l as [|x l IH]; [by apply elem_of_nil in Hin|].
  cbn. destruct (f x) as [b|e'] eqn:Hfx; cbn; [|eauto].
  apply elem_of_cons in Hin as [->|Hin]; [congruence|].
  destruct (IH Hin) as [e' ->]. cbn. eauto.
Qed.

(** An invalid vertex index is fatal, not raised: for the polygons
    collected from a building the list of used indices is never empty, so
    the local vertex array is built when every used index is valid for the
    vertex array, and otherwise the script stops with its slicing error; no
    IndexError escapes and the check for an empty index list cannot fire. *)
Theorem local_vertex_array_of_collected_polygons (building_obj : CityObject)
    (d : Mesh.ring_dict) (polygons_by_type : Bld2Mesh.polygons)
    (vertices_global : list vertex) :
  Mesh.collect_polygons building_obj = Ret d →
  int_polygons d = Some polygons_by_type →
  Bld2Mesh.used_global_indices polygons_by_type ≠ [] ∧
  ((Forall (λ g, - Z.of_nat (length vertices_global) ≤ g < Z.of_nat (length vertices_global))
           (Bld2Mesh.used_global_indices polygons_by_type) ∧
    ∃ vertices,
      Bld2Mesh.local_vertex_array polygons_by_type vertices_global
      = Ret (enumerate_map (Bld2Mesh.used_global_indices polygons_by_type), vertices) ∧
      length vertices = length (Bld2Mesh.used_global_indices polygons_by_type))
   ∨ (Exists (λ g, ¬ (- Z.of_nat (length vertices_global) ≤ g
                      < Z.of_nat (length vertices_global)))
             (Bld2Mesh.used_global_indices polygons_by_type) ∧
      Bld2Mesh.local_vertex_array polygons_by_type vertices_global
      = Raise (SystemExit "Failed to slice vertices array with used indices"))).
Proof.
  intros Hcollect Hint.
  destruct (collected_polygons_nonempty_nodup _ _ Hcollect) as (Hne & _ & Hwell).
  apply int_polygons_inv in Hint.
  assert (Hused : Bld2Mesh.used_global_indices polygons_by_type ≠ []).
  { destruct Hint as [|[k rings] [k' rings'] d polys [_ Hrings] _]; [congruence|].
    apply Forall_cons in Hwell as [[Hrne Hlens] _]. cbn in *.
    destruct Hrings as [|ring ring' rings rings' [_ Hlen] _]; [congruence|].
    apply Forall_cons in Hlens as [Hlen3 _].
    destruct ring' as [|g ring']; [cbn in Hlen; lia|].
    destruct (sorted_used_spec
                (list_to_set (polys ← ((k', (g :: ring') :: rings') :: polys).*2;
                              poly ← polys; poly)))
      as (_ & _ & Hmem & _).
    intros Hnil. unfold Bld2Mesh.used_global_indices in Hnil.
    assert (Hg : g ∈ merge_sort Z.le
                   (elements (list_to_set
                                (polys ← ((k', (g :: ring') :: rings') :: polys).*2;
                                 poly ← polys; poly) : gset Z))).
    { apply Hmem, elem_of_list_to_set. cbn. apply list_elem_of_here. }
    rewrite Hnil in Hg. by apply elem_of_nil in Hg. }
  split; [exact Hused|].
  destruct (decide (Forall (λ g, - Z.of_nat (length vertices_global) ≤ g
                                 < Z.of_nat (length vertices_global))
                           (Bld2Mesh.used_global_indices polygons_by_type)))
    as [Hvalid|Hinvalid].
  - left. split; [exact Hvalid|].
    destruct (local_vertex_array_spec polygons_by_type vertices_global Hused)
      as (vertices & Hlva & _ & Hrows & _).
    { rewrite Forall_forall in Hvalid. exact Hvalid. }
    exists vertices. split; [exact Hlva|]. apply Forall2_length in Hrows. lia.
  - right. apply not_Forall_Exists in Hinvalid; [|intros g; apply _].
    split; [exact Hinvalid|].
    apply Exists_exists in Hinvalid as (g & Hg & Hbad).
    unfold Bld2Mesh.local_vertex_array.
    destruct (Bld2Mesh.used_global_indices polygons_by_type) as [|g0 used] eqn:Heq;
      [congruence|]. cbn [is_empty].
    destruct (mapM_result_raises (py_index vertices_global) (g0 :: used) g IndexError Hg)
      as [e' ->]; [by apply py_index_invalid|]. reflexivity.
Qed.

Lemma local_vertex_array_of_collected_polygons_witness :
  Bld2Mesh.used_global_indices Examples2.box_polygons ≠ [] ∧
  ((Forall (λ g, - Z.of_nat (length (take 8 Examples.box_vertices)) ≤ g
                 < Z.of_nat (length (take 8 Examples.box_vertices)))
           (Bld2Mesh.used_global_indices Examples2.box_polygons) ∧
    ∃ vertices,
      Bld2Mesh.local_vertex_array Examples2.box_polygons (take 8 Examples.box_vertices)
      = Ret (enumerate_map (Bld2Mesh.used_global_indices Examples2.box_polygons), vertices) ∧
      length vertices = length (Bld2Mesh.used_global_indices Examples2.box_polygons))
   ∨ (Exists (λ g, ¬ (- Z.of_nat (length (take 8 Examples.box_vertices)) ≤ g
                      < Z.of_nat (length (take 8 Examples.box_vertices))))
             (Bld2Mesh.used_global_indices Examples2.box_polygons) ∧
      Bld2Mesh.local_vertex_array Examples2.box_polygons (take 8 Examples.box_vertices)
      = Raise (SystemExit "Failed to slice vertices array with used indices"))).
Proof.
  apply (local_vertex_array_of_collected_polygons Examples.b1
           [ ("GroundSurface", [[Leaf 4; Leaf 7; Leaf 6; Leaf 5]]);
             ("RoofSurface", [[Leaf 8; Leaf 9; Leaf 10; Leaf 11]]);
             ("WallSurface", [[Leaf 4; Leaf 5; Leaf 9; Leaf 8]]) ]).
  - vm_compute. reflexivity.
  - vm_compute. reflexivity.
Defined.

(** The array of the first eight box vertices is too short for the box:
    the script stops with the slicing error. *)
Example short_vertex_array_is_fatal :
  Bld2Mesh.local_vertex_array Examples2.box_polygons (take 8 Examples.box_vertices)
  = Raise (SystemExit "Failed to slice vertices array with used indices").
Proof. vm_compute. reflexivity. Qed.

(** ** merge3d.py: single-building extraction *)

Lemma mapM_result_raise_inv {A B : Type} (f : A → result B) (l : list A) (e : exn) :
  mapM f l = Raise e → ∃ a, a ∈ l ∧ f a = Raise e.
Proof.
  induction l as [|x l IH]; cbn; [discriminate|].
  destruct (f x) as [b|e'] eqn:Hfx; cbn.
  - destruct (mapM f l) as [k|e'] eqn:Hl; cbn; [discriminate|].
    intros [= ->]. destruct IH as (a & Ha & Hfa); [reflexivity|].
    exists a. split; [by apply list_elem_of_further|exact Hfa].
  - intros [= ->]. exists x. split; [apply list_elem_of_here|exact Hfx].
Qed.

Lemma py_index_raises {A : Type} (l : list A) (i : Z) (e : exn) :
  py_index l i = Raise e →
  e = IndexError ∧ ¬ (- Z.of_nat (length l) ≤ i < Z.of_nat (length l)).
Proof.
  intros Hraise.
  destruct (decide (- Z.of_nat (length l) ≤ i < Z.of_nat (length l))) as [Hv|Hv].
  - destruct (py_index_valid l i Hv) as [x Hx]. congruence.
  - rewrite (py_index_invalid l i Hv) in Hraise. by injection Hraise as <-.
Qed.

(** What the compaction step returns. *)
Lemma compact_inv (full_vertices new_vertices : list vertex) (used : gset Z)
    (index_map : gmap Z Z) :
  Merge3d.compact full_vertices used = Ret (new_vertices, index_map) →
  (used = ∅ ∧ new_vertices = [] ∧ index_map = ∅)
  ∨ (used ≠ ∅ ∧
     index_map = enumerate_map (merge_sort Z.le (elements used)) ∧
     Forall2 (λ g v, py_index full_vertices g = Ret v)
             (merge_sort Z.le (elements used)) new_vertices).
Proof.
  unfold Merge3d.compact. case_bool_decide as Hempty.
  - intros [= <- <-]. by left.
  - destruct (mapM (py_index full_vertices) _) as [nv|e] eqn:Hm; cbn; [|discriminate].
    intros [= <- <-]. right. split; [exact Hempty|]. split; [reflexivity|].
    by apply mapM_result_inv.
Qed.

(** The index map of a successful compaction has every used index as a
    key. *)
Lemma compact_covers (full_vertices new_vertices : list vertex) (used : gset Z)
    (index_map : gmap Z Z) (g : Z) :
  Merge3d.compact full_vertices used = Ret (new_vertices, index_map) →
  g ∈ used → is_Some (index_map !! g).
Proof.
  intros [(-> & _)|(_ & -> & _)]%compact_inv Hg; [by apply elem_of_empty in Hg|].
  destruct (sorted_used_spec used) as (_ & Hnd & Hmem & _).
  apply Hmem, list_elem_of_lookup in Hg as [i Hi].
  exists (Z.of_nat i). apply enumerate_map_lookup; eauto.
Qed.

(** The structure of a successful extraction. *)
Lemma make_single_building_inv (cj doc : Document) (bldg_id : string) :
  Merge3d.make_single_building_cityjson cj bldg_id = Ret (Some doc) →
  ∃ bld_obj new_vertices index_map geoms,
    dict_get (cj_CityObjects cj) bldg_id = Some bld_obj ∧
    Merge3d.compact (cj_vertices cj) (Merge3d.used_indices_of bld_obj)
    = Ret (new_vertices, index_map) ∧
    Forall2 (λ geom geom',
               ∃ b', Merge3d.remap_boundaries index_map (Merge3d.boundaries_of geom) = Ret b' ∧
                     geom' = Merge3d.set_boundaries geom b')
            (co_geometry bld_obj) geoms ∧
    doc = {| cj_other := cj_other cj;
             cj_vertices := new_vertices;
             cj_CityObjects := [(bldg_id, Merge3d.set_geometry bld_obj geoms)] |}.
Proof.
  unfold Merge3d.make_single_building_cityjson.
  destruct (dict_get (cj_CityObjects cj) bldg_id) as [bld_obj|]; [|discriminate].
  destruct (Merge3d.compact _ _) as [[new_vertices index_map]|e] eqn:Hc; cbn;
    [|discriminate].
  destruct (mapM _ (co_geometry bld_obj)) as [geoms|e] eqn:Hgeoms; cbn; [|discriminate].
  intros [= <-]. exists bld_obj, new_vertices, index_map, geoms.
  split; [reflexivity|]. split; [exact Hc|]. split; [|reflexivity].
  apply mapM_result_inv in Hgeoms. eapply Forall2_impl; [exact Hgeoms|].
  intros geom geom'. cbn.
  destruct (Merge3d.remap_boundaries index_map (Merge3d.boundaries_of geom)) as [b'|e];
    cbn; [|discriminate].
  intros [= <-]. eauto.
Qed.

(** The outcomes of the extraction of one building.  A building id that is
    not a key gives [None].  For a key, the extraction returns a document
    exactly when every vertex index referenced by the building is valid for
    the vertex array, and raises IndexError otherwise; the lookup in the
    index map never raises KeyError. *)
Theorem make_single_building_outcomes (cj : Document) (bldg_id : string) :
  match dict_get (cj_CityObjects cj) bldg_id with
  | None => Merge3d.make_single_building_cityjson cj bldg_id = Ret None
  | Some bld_obj =>
      (set_Forall (λ g, - Z.of_nat (length (cj_vertices cj)) ≤ g
                        < Z.of_nat (length (cj_vertices cj)))
                  (Merge3d.used_indices_of bld_obj) ∧
       ∃ doc, Merge3d.make_single_building_cityjson cj bldg_id = Ret (Some doc))
      ∨ (set_Exists (λ g, ¬ (- Z.of_nat (length (cj_vertices cj)) ≤ g
                             < Z.of_nat (length (cj_vertices cj))))
                    (Merge3d.used_indices_of bld_obj) ∧
         Merge3d.make_single_building_cityjson cj bldg_id = Raise IndexError)
  end.
Proof.
  unfold Merge3d.make_single_building_cityjson.
  destruct (dict_get (cj_CityObjects cj) bldg_id) as [bld_obj|]; [|reflexivity].
  set (used := Merge3d.used_indices_of bld_obj).
  destruct (Merge3d.compact (cj_vertices cj) used) as [[new_vertices index_map]|e] eqn:Hc.
  - left. split.
    + intros g Hg.
      apply compact_inv in Hc as [(Hempty & _)|(_ & _ & Hrows)];
        [rewrite Hempty in Hg; by apply elem_of_empty in Hg|].
      destruct (sorted_used_spec used) as (_ & _ & Hmem & _).
      apply Hmem, list_elem_of_lookup in Hg as [i Hi].
      destruct (Forall2_lookup_l _ _ _ _ _ Hrows Hi) as (v & _ & Hv).
      destruct (decide (- Z.of_nat (length (cj_vertices cj)) ≤ g
                        < Z.of_nat (length (cj_vertices cj)))) as [?|Hbad]; [done|].
      rewrite (py_index_invalid _ _ Hbad) in Hv. discriminate.
    + cbn.
      destruct (mapM_result_exists
                  (λ geom, b ← Merge3d.remap_boundaries index_map (Merge3d.boundaries_of geom);
                           Ret (Merge3d.set_boundaries geom b))
                  (λ _ _, True) (co_geometry bld_obj)) as (geoms & -> & _); [|cbn; eauto].
      intros geom Hgeom.
      destruct (remap_boundaries_spec index_map (Merge3d.boundaries_of geom))
        as (b' & -> & _); [|cbn; eauto].
      intros g Hg. eapply compact_covers; [exact Hc|].
      apply used_indices_of_spec. eauto.
  - right. cbn. unfold Merge3d.compact in Hc. case_bool_decide; [discriminate|].
    destruct (mapM (py_index (cj_vertices cj)) _) as [nv|e'] eqn:Hm; cbn in Hc;
      [discriminate|]. injection Hc as <-.
    apply mapM_result_raise_inv in Hm as (g & Hg & [-> Hbad]%py_index_raises).
    split; [|reflexivity]. exists g. split; [|exact Hbad].
    destruct (sorted_used_spec used) as (_ & _ & Hmem & _). by apply Hmem.
Qed.

(** The box document cut after ten vertices: building b1 references
    index 11 and its extraction raises. *)
Example extraction_with_dangling_index :
  Merge3d.make_single_building_cityjson
    (with_vertices Examples.box_doc (take 10 Examples.box_vertices)) "b1"
  = Raise IndexError.
Proof. vm_compute. reflexivity. Qed.

(** A successful remapping found every leaf in the index map. *)
Lemma remap_boundaries_dom (m : gmap Z Z) (t t' : tree) :
  Merge3d.remap_boundaries m t = Ret t' →
  ∀ g, g ∈ leaves t → is_Some (m !! g).
Proof.
  revert t'. induction t as [i| |l IH] using tree_ind; intros t'; cbn.
  - destruct (m !! i) as [j|] eqn:Hj; cbn; [|discriminate].
    intros _ g ->%list_elem_of_singleton. eauto.
  - intros _ g Hg. by apply elem_of_nil in Hg.
  - destruct (mapM (Merge3d.remap_boundaries m) l) as [l'|e] eqn:Hl; cbn; [|discriminate].
    intros _ g (lv & Hlv & Hg)%elem_of_concat.
    apply list_elem_of_In, in_map_iff in Hlv as (t & <- & Ht%list_elem_of_In).
    apply mapM_result_inv in Hl.
    apply list_elem_of_lookup in Ht as [k Hk].
    destruct (Forall2_lookup_l _ _ _ _ _ Hl Hk) as (t'' & _ & Ht'').
    rewrite Forall_forall in IH.
    eapply IH; [eapply list_elem_of_lookup_2; exact Hk|exact Ht''|exact Hg].
Qed.

Lemma remap_boundaries_inv (m : gmap Z Z) (t t' : tree) :
  Merge3d.remap_boundaries m t = Ret t' →
  shape t' = shape t ∧ Forall2 (λ g j, m !! g = Some j) (leaves t) (leaves t').
Proof.
  intros Hremap.
  destruct (remap_boundaries_spec m t (remap_boundaries_dom m t t' Hremap))
    as (t'' & Ht'' & Hshape & Hleaves).
  rewrite Hremap in Ht''. injection Ht'' as <-. by split.
Qed.

(** Compaction over a vertex array of which exactly the positions are used
    returns the array, with an index map that fixes every position. *)
Lemma compact_initial_segment (vertices : list vertex) (used : gset Z) :
  (∀ g, g ∈ used ↔ 0 ≤ g < Z.of_nat (length vertices)) →
  ∃ index_map,
    Merge3d.compact vertices used = Ret (vertices, index_map) ∧
    ∀ g, g ∈ used → index_map !! g = Some g.
Proof.
  intros Hlocal. unfold Merge3d.compact. case_bool_decide as Hempty.
  - exists ∅. split.
    + destruct vertices as [|v vs]; [reflexivity|].
      assert (H0 : 0 ∈ used) by (apply Hlocal; cbn; lia).
      rewrite Hempty in H0. by apply elem_of_empty in H0.
    + intros g Hg. rewrite Hempty in Hg. by apply elem_of_empty in Hg.
  - rewrite (sorted_initial_segment _ _ Hlocal).
    eexists. split.
    + rewrite mapM_py_index_all. reflexivity.
    + intros g Hg%Hlocal. apply enumerate_map_lookup; [apply NoDup_seqZ|].
      exists (Z.to_nat g). split; [lia|]. apply lookup_seqZ. lia.
Qed.

(** How the document of one building relates to the tile it was cut from:
    every geometry keeps its type and semantics, its boundary tree keeps its
    shape, every leaf is a position of the new vertex array that holds the
    vertex the old leaf referred to, and every position of the new vertex
    array is a leaf of some boundary tree. *)
Lemma extraction_structure (cj doc : Document) (bldg_id : string) :
  Merge3d.make_single_building_cityjson cj bldg_id = Ret (Some doc) →
  ∃ bld_obj new_vertices geoms,
    dict_get (cj_CityObjects cj) bldg_id = Some bld_obj ∧
    doc = {| cj_other := cj_other cj;
             cj_vertices := new_vertices;
             cj_CityObjects := [(bldg_id, Merge3d.set_geometry bld_obj geoms)] |} ∧
    Forall2 (λ geom geom',
               g_type geom' = g_type geom ∧
               g_semantics geom' = g_semantics geom ∧
               ∃ b', g_boundaries geom' = Some b' ∧
                     shape b' = shape (Merge3d.boundaries_of geom) ∧
                     Forall2 (λ g j, 0 ≤ j < Z.of_nat (length new_vertices) ∧
                                     ∃ v, py_index (cj_vertices cj) g = Ret v ∧
                                          new_vertices !! Z.to_nat j = Some v)
                             (leaves (Merge3d.boundaries_of geom)) (leaves b'))
            (co_geometry bld_obj) geoms ∧
    ∀ j, 0 ≤ j < Z.of_nat (length new_vertices) →
         j ∈ Merge3d.used_indices_of (Merge3d.set_geometry bld_obj geoms).
Proof.
  intros (bld_obj & new_vertices & index_map & geoms & Hget & Hc & Hgeoms & ->)
    %make_single_building_inv.
  exists bld_obj, new_vertices, geoms. split; [exact Hget|]. split; [reflexivity|].
  assert (Hmap : ∀ g j, index_map !! g = Some j →
            0 ≤ j < Z.of_nat (length new_vertices) ∧
            ∃ v, py_index (cj_vertices cj) g = Ret v ∧
                 new_vertices !! Z.to_nat j = Some v).
  { intros g j Hj.
    apply compact_inv in Hc as [(_ & _ & ->)|(_ & -> & Hrows)];
      [by rewrite lookup_empty in Hj|].
    destruct (sorted_used_spec (Merge3d.used_indices_of bld_obj)) as (_ & Hnd & _).
    apply (enumerate_map_lookup _ _ _ Hnd) in Hj as (i & -> & Hi).
    destruct (Forall2_lookup_l _ _ _ _ _ Hrows Hi) as (v & Hv & Hgv).
    apply lookup_lt_Some in Hv as Hlt. rewrite Nat2Z.id.
    split; [lia|]. eauto. }
  split.
  - eapply Forall2_impl; [exact Hgeoms|].
    intros geom geom' (b' & Hb' & ->). cbn.
    split; [reflexivity|]. split; [reflexivity|].
    exists b'. split; [reflexivity|].
    apply remap_boundaries_inv in Hb' as [Hshape Hleaves].
    split; [exact Hshape|].
    eapply Forall2_impl; [exact Hleaves|]. intros g j. apply Hmap.
  - intros j Hj.
    apply compact_inv in Hc as [(_ & -> & _)|(_ & -> & Hrows)]; [cbn in Hj; lia|].
    destruct (sorted_used_spec (Merge3d.used_indices_of bld_obj)) as (_ & Hnd & Hmem & _).
    apply Forall2_length in Hrows as Hlen.
    destruct (lookup_lt_is_Some_2 (merge_sort Z.le (elements (Merge3d.used_indices_of bld_obj)))
                (Z.to_nat j)) as [g Hg]; [lia|].
    assert (Hgj : enumerate_map (merge_sort Z.le (elements (Merge3d.used_indices_of bld_obj)))
                  !! g = Some j).
    { apply enumerate_map_lookup; [exact Hnd|]. exists (Z.to_nat j). split; [lia|exact Hg]. }
    apply list_elem_of_lookup_2, Hmem, used_indices_of_spec in Hg
      as (geom & Hgeom & Hleaf).
    apply list_elem_of_lookup in Hgeom as [k Hk].
    destruct (Forall2_lookup_l _ _ _ _ _ Hgeoms Hk) as (geom' & Hk' & b' & Hb' & ->).
    apply remap_boundaries_inv in Hb' as [_ Hleaves].
    apply list_elem_of_lookup in Hleaf as [n Hn].
    destruct (Forall2_lookup_l _ _ _ _ _ Hleaves Hn) as (j' & Hn' & Hj').
    assert (j' = j) as -> by congruence.
    apply used_indices_of_spec. eexists. split.
    + cbn. eapply list_elem_of_lookup_2. exact Hk'.
    + cbn. eapply list_elem_of_lookup_2. exact Hn'.
Qed.

(** A building document is a fixed point of the extraction: extracting the
    building again from its own single-building document returns that
    document. *)
Theorem extraction_is_a_fixed_point (cj doc : Document) (bldg_id : string) :
  Merge3d.make_single_building_cityjson cj bldg_id = Ret (Some doc) →
  Merge3d.make_single_building_cityjson doc bldg_id = Ret (Some doc).
Proof.
  intros (bld_obj & new_vertices & geoms & Hget & -> & Hgeoms & Hsurj)%extraction_structure.
  set (obj' := Merge3d.set_geometry bld_obj geoms) in *.
  assert (Hlocal : ∀ g, g ∈ Merge3d.used_indices_of obj'
                        ↔ 0 ≤ g < Z.of_nat (length new_vertices)).
  { intros g. split; [|apply Hsurj].
    intros (geom' & Hgeom' & Hleaf)%used_indices_of_spec. cbn in Hgeom'.
    apply list_elem_of_lookup in Hgeom' as [k Hk].
    destruct (Forall2_lookup_r _ _ _ _ _ Hgeoms Hk)
      as (geom & _ & _ & _ & b' & Hb' & _ & Hleaves).
    unfold Merge3d.boundaries_of in Hleaf. rewrite Hb' in Hleaf. cbn in Hleaf.
    apply list_elem_of_lookup in Hleaf as [n Hn].
    destruct (Forall2_lookup_r _ _ _ _ _ Hleaves Hn) as (g0 & _ & Hrange & _).
    exact Hrange. }
  destruct (compact_initial_segment new_vertices _ Hlocal) as (index_map & Hc & Hfix).
  unfold Merge3d.make_single_building_cityjson.
  cbn [cj_CityObjects cj_vertices cj_other dict_get]. rewrite String.eqb_refl.
  rewrite Hc. cbn.
  rewrite (mapM_result_fmap _ (λ geom, geom)).
  - rewrite list_fmap_id. reflexivity.
  - intros geom' Hgeom'. rewrite remap_boundaries_id.
    + cbn. apply list_elem_of_lookup in Hgeom' as [k Hk].
      destruct (Forall2_lookup_r _ _ _ _ _ Hgeoms Hk)
        as (geom & _ & _ & _ & b' & Hb' & _).
      destruct geom' as [ty bd sem]. cbn in Hb'. subst bd. reflexivity.
    + intros g Hg. apply Hfix, used_indices_of_spec. eauto.
Qed.

Lemma extraction_is_a_fixed_point_witness :
  Merge3d.make_single_building_cityjson Examples.box_local_doc "b1"
  = Ret (Some Examples.box_local_doc).
Proof.
  apply (extraction_is_a_fixed_point Examples.box_doc Examples.box_local_doc "b1").
  vm_compute. reflexivity.
Defined.

(** The extraction keeps the building as it is seen through its indices:
    the other members of the document, the type and attributes of the
    object, and for every geometry its type, the nesting of its boundary
    tree, the coordinates every leaf refers to, and the semantic type that
    the mesh export resolves for every index path. *)
Theorem extraction_preserves_the_building (cj doc : Document) (bldg_id : string) :
  Merge3d.make_single_building_cityjson cj bldg_id = Ret (Some doc) →
  ∃ bld_obj bld_obj',
    dict_get (cj_CityObjects cj) bldg_id = Some bld_obj ∧
    cj_CityObjects doc = [(bldg_id, bld_obj')] ∧
    cj_other doc = cj_other cj ∧
    co_type bld_obj' = co_type bld_obj ∧
    co_attributes bld_obj' = co_attributes bld_obj ∧
    Forall2 (λ geom geom',
               g_type geom' = g_type geom ∧
               shape (Merge3d.boundaries_of geom') = shape (Merge3d.boundaries_of geom) ∧
               Forall2 (λ g j, ∃ v, py_index (cj_vertices cj) g = Ret v ∧
                                    py_index (cj_vertices doc) j = Ret v)
                       (leaves (Merge3d.boundaries_of geom))
                       (leaves (Merge3d.boundaries_of geom')) ∧
               ∀ idx_path, Bld2Mesh.get_sem_type geom' idx_path
                           = Bld2Mesh.get_sem_type geom idx_path)
            (co_geometry bld_obj) (co_geometry bld_obj').
Proof.
  intros (bld_obj & new_vertices & geoms & Hget & -> & Hgeoms & _)%extraction_structure.
  exists bld_obj, (Merge3d.set_geometry bld_obj geoms).
  split; [exact Hget|]. do 4 (split; [reflexivity|]). cbn.
  eapply Forall2_impl; [exact Hgeoms|].
  intros geom geom' (Hty & Hsem & b' & Hb' & Hshape & Hleaves).
  assert (Merge3d.boundaries_of geom' = b') as ->
    by (unfold Merge3d.boundaries_of; rewrite Hb'; reflexivity).
  split; [exact Hty|]. split; [exact Hshape|]. split.
  - eapply Forall2_impl; [exact Hleaves|].
    intros g j ([Hj0 Hj1] & v & Hv & Hnv). exists v. split; [exact Hv|].
    by apply py_index_nonneg.
  - intros idx_path. by apply get_sem_type_semantics.
Qed.

Lemma extraction_preserves_the_building_witness :
  ∃ bld_obj bld_obj',
    dict_get (cj_CityObjects Examples.box_doc) "b1" = Some bld_obj ∧
    cj_CityObjects Examples.box_local_doc = [("b1", bld_obj')] ∧
    cj_other Examples.box_local_doc = cj_other Examples.box_doc ∧
    co_type bld_obj' = co_type bld_obj ∧
    co_attributes bld_obj' = co_attributes bld_obj ∧
    Forall2 (λ geom geom',
               g_type geom' = g_type geom ∧
               shape (Merge3d.boundaries_of geom') = shape (Merge3d.boundaries_of geom) ∧
               Forall2 (λ g j, ∃ v, py_index (cj_vertices Examples.box_doc) g = Ret v ∧
                                    py_index (cj_vertices Examples.box_local_doc) j = Ret v)
                       (leaves (Merge3d.boundaries_of geom))
                       (leaves (Merge3d.boundaries_of geom')) ∧
               ∀ idx_path, Bld2Mesh.get_sem_type geom' idx_path
                           = Bld2Mesh.get_sem_type geom idx_path)
            (co_geometry bld_obj) (co_geometry bld_obj').
Proof.
  apply (extraction_preserves_the_building Examples.box_doc Examples.box_local_doc "b1").
  vm_compute. reflexivity.
Defined.

(** ** merge3d.py: footprints of a tile *)

Lemma dict_get_is_Some {V : Type} (d : list (string * V)) (k : string) (v : V) :
  (k, v) ∈ d → is_Some (dict_get d k).
Proof.
  induction d as [|[k' v'] d IH]; [intros []%elem_of_nil|].
  intros Hin. cbn. destruct (String.eqb_spec k' k) as [->|Hne]; [eauto|].
  apply elem_of_cons in Hin as [[= <- <-]|Hin]; [congruence|by apply IH].
Qed.

Lemma filter_nil_iff {A : Type} (f : A → bool) (l : list A) :
  List.filter f l = [] ↔ ∀ x, x ∈ l → f x = false.
Proof.
  induction l as [|a l IH]; cbn.
  - split; [intros _ x []%elem_of_nil|reflexivity].
  - destruct (f a) eqn:Hfa.
    + split; [discriminate|]. intros Hall.
      rewrite (Hall a) in Hfa by apply list_elem_of_here. discriminate.
    + rewrite IH. split.
      * intros Hall x [->|Hx]%elem_of_cons; [exact Hfa|by apply Hall].
      * intros Hall x Hx. by apply Hall, list_elem_of_further.
Qed.

Lemma ground_indices_empty (surfaces : list surface) :
  Forall (λ s, s_type s ≠ Some "GroundSurface") surfaces →
  Merge3d.ground_indices surfaces = ∅.
Proof.
  intros Hall. unfold Merge3d.ground_indices.
  assert (Hnil : ∀ j, omap (λ '(i, s), if bool_decide (s_type s = Some "GroundSurface")
                                        then Some (Z.of_nat i) else None)
                           (imap (λ i s, pair (j + i)%nat s) surfaces) = []).
  { induction Hall as [|s l Hs _ IH]; intros j; [reflexivity|].
    cbn. rewrite bool_decide_eq_false_2 by exact Hs.
    rewrite <- (IH (S j)). f_equal. apply imap_ext. intros i x _. cbn. f_equal. lia. }
  specialize (Hnil 0%nat).
  change (imap (λ i s, pair (0 + i)%nat s) surfaces) with (imap pair surfaces) in Hnil.
  rewrite Hnil. reflexivity.
Qed.

Section Load_facts.

Context {Geom : Type}.
Variable Polygon : list (Q * Q) → result Geom.
Variable unary_union : list Geom → Geom.

(** A geometry that declares no ground adds no ground polygon; its
    boundaries, its semantic values and the vertex array are not read. *)
Lemma geom_without_ground_no_polys (vertices : list vertex) (geom : Geometry) :
  without_ground geom → Merge3d.geom_ground_polys Polygon vertices geom = Ret [].
Proof.
  intros [Htype|Hground]; unfold Merge3d.geom_ground_polys.
  - rewrite bool_decide_eq_false_2 by exact Htype. reflexivity.
  - case_bool_decide; cbn [negb]; [|reflexivity].
    rewrite (ground_indices_empty _ Hground).
    rewrite bool_decide_eq_true_2 by reflexivity. reflexivity.
Qed.

(** The loop over the city objects: a building whose footprint is [None]
    leaves no row. *)
Lemma load_buildings_drops (cj : Document) (pre post : list (string * CityObject))
    (cid : string) (obj : CityObject) :
  cj_CityObjects cj = (pre ++ (cid, obj) :: post)%list →
  Merge3d.footprint Polygon unary_union (cj_vertices cj) obj = Ret None →
  Merge3d.load_buildings_from_cityjson Polygon unary_union cj
  = Merge3d.load_buildings_from_cityjson Polygon unary_union
      (with_CityObjects cj (pre ++ post)%list).
Proof.
  intros Hobjs Hnone. unfold Merge3d.load_buildings_from_cityjson.
  rewrite Hobjs. cbn [with_CityObjects cj_vertices cj_CityObjects].
  rewrite !mapM_result_app.
  destruct (mapM _ pre) as [r1|e]; cbn; [|reflexivity].
  rewrite Hnone.
  case_bool_decide; cbn.
  all: destruct (mapM _ post) as [r2|e]; cbn; [|reflexivity].
  all: rewrite !omap_app; reflexivity.
Qed.

(** The rows of the footprint frame, read back. *)
Lemma load_buildings_inv (cj : Document) (rows : list (string * Geom)) :
  Merge3d.load_buildings_from_cityjson Polygon unary_union cj = Ret rows →
  rows.*1 `sublist_of` building_ids cj ∧
  ∀ b g, (b, g) ∈ rows →
    ∃ obj, (b, obj) ∈ cj_CityObjects cj ∧
           co_type obj = Some "Building" ∧
           Merge3d.footprint Polygon unary_union (cj_vertices cj) obj = Ret (Some g).
Proof.
  unfold Merge3d.load_buildings_from_cityjson, building_ids.
  generalize (cj_vertices cj) as vertices. intros vertices.
  destruct (mapM _ (cj_CityObjects cj)) as [opts|e] eqn:Hm; cbn; [|discriminate].
  intros [= <-]. apply mapM_result_inv in Hm.
  induction Hm as [|[cid obj] opt objs opts Hbody _ [IHsub IHin]]; cbn.
  - split; [constructor|]. intros b g []%elem_of_nil.
  - case_bool_decide as Hty; cbn in Hbody.
    + destruct (Merge3d.footprint Polygon unary_union vertices obj) as [[g0|]|e] eqn:Hfp;
        cbn in Hbody; [| |discriminate]; injection Hbody as <-; cbn.
      * split; [by apply sublist_skip|].
        intros b g [[= -> ->]|Hin]%elem_of_cons.
        -- exists obj. split; [apply list_elem_of_here|]. by split.
        -- destruct (IHin b g Hin) as (obj' & Hobj' & Hrest).
           exists obj'. split; [by apply list_elem_of_further|exact Hrest].
      * split; [by apply sublist_cons|].
        intros b g Hin. destruct (IHin b g Hin) as (obj' & Hobj' & Hrest).
        exists obj'. split; [by apply list_elem_of_further|exact Hrest].
    + injection Hbody as <-. cbn. split; [exact IHsub|].
      intros b g Hin. destruct (IHin b g Hin) as (obj' & Hobj' & Hrest).
      exists obj'. split; [by apply list_elem_of_further|exact Hrest].
Qed.


End Load_facts.



(** A building none of whose geometries declares ground (a Solid, a
    CompositeSurface, a MultiSurface without a surface of type
    GroundSurface) has no footprint and is left out of the footprint frame,
    whatever its boundaries and semantic values hold: nothing of them is
    read, so nothing raises. *)
Theorem building_without_ground_is_left_out {Geom : Type}
    (Polygon : list (Q * Q) → result Geom) (unary_union : list Geom → Geom)
    (cj : Document) (pre post : list (string * CityObject))
    (cid : string) (obj : CityObject) :
  cj_CityObjects cj = (pre ++ (cid, obj) :: post)%list →
  Forall without_ground (co_geometry obj) →
  Merge3d.footprint Polygon unary_union (cj_vertices cj) obj = Ret None ∧
  Merge3d.load_buildings_from_cityjson Polygon unary_union cj
  = Merge3d.load_buildings_from_cityjson Polygon unary_union
      (with_CityObjects cj (pre ++ post)%list).
Proof.
  intros Hobjs Hall.
  assert (Hnone : Merge3d.footprint Polygon unary_union (cj_vertices cj) obj = Ret None).
  { unfold Merge3d.footprint. rewrite (mapM_result_fmap _ (λ _, [])).
    - cbn. rewrite concat_all_nil; [reflexivity|].
      apply Forall_fmap, Forall_forall. reflexivity.
    - intros geom Hgeom. apply geom_without_ground_no_polys.
      rewrite Forall_forall in Hall. exact (Hall geom Hgeom). }
  split; [exact Hnone|]. by eapply load_buildings_drops.
Qed.

Lemma building_without_ground_is_left_out_witness :
  Merge3d.footprint Examples.Polygon Examples.unary_union
    (cj_vertices Examples2.tile_doc_with_solid) Examples2.solid_building = Ret None ∧
  Merge3d.load_buildings_from_cityjson Examples.Polygon Examples.unary_union
    Examples2.tile_doc_with_solid
  = Merge3d.load_buildings_from_cityjson Examples.Polygon Examples.unary_union
      Examples.tile_doc.
Proof.
  apply (building_without_ground_is_left_out
           Examples.Polygon Examples.unary_union Examples2.tile_doc_with_solid
           [("A", Examples.ground_building 0)] [("B", Examples.ground_building 4)]
           "S" Examples2.solid_building).
  - reflexivity.
  - apply Forall_cons. split; [left; discriminate|].
    apply Forall_cons. split; [|apply Forall_nil; exact I].
    right. apply Forall_cons. split; [discriminate|apply Forall_nil; exact I].
Defined.

(** ** merge3d.py: the run over all points *)

Lemma elem_of_sjoin (gdf_osm : list Merge3d.Point) (gdf_tiles : list Merge3d.Tile)
    (tr : Merge3d.TileRow) :
  tr ∈ Merge3d.sjoin gdf_osm gdf_tiles
  ↔ ∃ p, p ∈ gdf_osm ∧
      ((∃ t, t ∈ gdf_tiles ∧ Merge3d.within p t = true ∧ tr = Merge3d.tile_row p t)
       ∨ ((∀ t, t ∈ gdf_tiles → Merge3d.within p t = false) ∧ tr = untiled_row p)).
Proof.
  unfold Merge3d.sjoin. rewrite list_elem_of_bind.
  split; intros (p & H1 & H2); exists p.
  - split; [exact H2|].
    destruct (List.filter (Merge3d.within p) gdf_tiles) as [|t0 ts] eqn:Hf.
    + apply list_elem_of_singleton in H1 as ->. right.
      split; [by apply filter_nil_iff|reflexivity].
    + apply list_elem_of_fmap in H1 as (t & -> & Ht). left.
      rewrite <- Hf in Ht. apply elem_of_List_filter in Ht as [Ht Hw]. eauto.
  - split; [|exact H1].
    destruct H2 as [(t & Ht & Hw & ->)|[Hnone ->]].
    + assert (Hin : t ∈ List.filter (Merge3d.within p) gdf_tiles)
        by (by apply elem_of_List_filter).
      destruct (List.filter (Merge3d.within p) gdf_tiles) as [|t0 ts];
        [by apply elem_of_nil in Hin|].
      apply list_elem_of_fmap. eauto.
    + apply filter_nil_iff in Hnone. rewrite Hnone. apply list_elem_of_here.
Qed.

Lemma elem_of_sjoin_point (gdf_osm : list Merge3d.Point) (gdf_tiles : list Merge3d.Tile)
    (tr : Merge3d.TileRow) :
  tr ∈ Merge3d.sjoin gdf_osm gdf_tiles →
  ∃ p, p ∈ gdf_osm ∧ Merge3d.tr_point tr = p.
Proof.
  intros (p & Hp & [(t & _ & _ & ->)|[_ ->]])%elem_of_sjoin; exists p; by split.
Qed.

Lemma mapM_result_elem {A B : Type} (f : A → result B) (l : list A) (k : list B) (b : B) :
  mapM f l = Ret k → b ∈ k → ∃ a, a ∈ l ∧ f a = Ret b.
Proof.
  intros Hm%mapM_result_inv (i & Hi)%list_elem_of_lookup.
  destruct (Forall2_lookup_r _ _ _ _ _ Hm Hi) as (a & Ha & Hfa).
  exists a. split; [by eapply list_elem_of_lookup_2|exact Hfa].
Qed.

Section Run_facts.

Context {Geom : Type}.
Variable Polygon : list (Q * Q) → result Geom.
Variable unary_union : list Geom → Geom.
Variable distance : Q * Q → Geom → Q.
Variable query_order :
  Merge3d.Point → list (string * Geom) → string * Q → string * Q → bool.
Variable label_ties :
  list Merge3d.MatchRow → Merge3d.MatchRow → Merge3d.MatchRow → bool.
Variable files : gmap string Document.

(** One turn of the tile loop adds the path of the tile to the keys of the
    cache, and nothing else. *)
Lemma link_tile_cache (cache cache' : gmap string Document) (k : string)
    (group : list Merge3d.TileRow) (chunk : list Merge3d.MatchRow) :
  Merge3d.link_tile Polygon unary_union distance query_order files cache k group
  = Ret (cache', chunk) →
  ∀ k', is_Some (cache' !! k') ↔ is_Some (cache !! k') ∨ k' = k.
Proof.
  unfold Merge3d.link_tile.
  destruct (cache !! k) as [cj|] eqn:Hc; cbn.
  - destruct (Merge3d.load_buildings_from_cityjson Polygon unary_union cj)
      as [bldg|e]; cbn; [|discriminate].
    intros [= <- <-] k'. split; [by left|]. intros [?| ->]; [done|]. by rewrite Hc.
  - destruct (files !! k) as [cj|]; cbn; [|discriminate].
    destruct (Merge3d.load_buildings_from_cityjson Polygon unary_union cj)
      as [bldg|e]; cbn; [|discriminate].
    intros [= <- <-] k'. rewrite lookup_insert_is_Some'. split; intros [?|?]; eauto.
Qed.

Lemma link_tiles_cache (groups : list (string * list Merge3d.TileRow))
    (cache cache' : gmap string Document) (chunks : list (list Merge3d.MatchRow)) :
  (∀ k v, cache !! k = Some v → files !! k = Some v) →
  Merge3d.link_tiles Polygon unary_union distance query_order files cache groups
  = Ret (cache', chunks) →
  (∀ k v, cache' !! k = Some v → files !! k = Some v) ∧
  ∀ k, is_Some (cache' !! k) ↔ is_Some (cache !! k) ∨ k ∈ groups.*1.
Proof.
  revert cache cache' chunks.
  induction groups as [|[k group] groups IH]; intros cache cache' chunks Hinv; cbn.
  - intros [= <- <-]. split; [exact Hinv|].
    intros k. split; [by left|]. intros [?|[]%elem_of_nil]. done.
  - destruct (Merge3d.link_tile Polygon unary_union distance query_order files cache k group)
      as [[cache1 chunk]|e] eqn:Htile; cbn; [|discriminate].
    destruct (Merge3d.link_tiles Polygon unary_union distance query_order files cache1 groups)
      as [[cache2 chunks']|e] eqn:Hrest; cbn; [|discriminate].
    intros [= <- <-].
    destruct (link_tile_spec Polygon unary_union distance query_order files _ _ _ _ _ Hinv Htile)
      as [Hinv1 _].
    destruct (IH _ _ _ Hinv1 Hrest) as [Hinv2 Hkeys].
    split; [exact Hinv2|].
    intros k'. rewrite Hkeys, (link_tile_cache _ _ _ _ _ Htile k'), elem_of_cons.
    tauto.
Qed.

(** The cache after the tile loop: the files of the tiles that some row of
    the tile join names. *)
Lemma link_cache (gdf_osm : list Merge3d.Point) (gdf_tiles : list Merge3d.Tile)
    (cache : gmap string Document) (matched_all : list Merge3d.MatchRow) :
  Merge3d.link Polygon unary_union distance query_order label_ties files gdf_osm gdf_tiles
  = Ret (cache, matched_all) →
  ∀ k cj, cache !! k = Some cj
          ↔ files !! k = Some cj ∧
            ∃ tr, tr ∈ Merge3d.sjoin gdf_osm gdf_tiles ∧
                  Merge3d.tr_path tr = Merge3d.CStr k.
Proof.
  intros Hlink. unfold Merge3d.link in Hlink.
  destruct (Merge3d.link_tiles Polygon unary_union distance query_order files ∅ _)
    as [[cache0 chunks]|e] eqn:Htiles; cbn in Hlink; [|discriminate].
  injection Hlink as <- <-.
  apply link_tiles_cache in Htiles as [Hsub Hkeys];
    [|intros k0 v Hk0; rewrite lookup_empty in Hk0; discriminate].
  assert (Hgroups : ∀ k, k ∈ (Merge3d.groupby_path
                                (List.filter (λ r, negb (Merge3d.isna (Merge3d.tr_path r)))
                                             (Merge3d.sjoin gdf_osm gdf_tiles))).*1
                         ↔ ∃ tr, tr ∈ Merge3d.sjoin gdf_osm gdf_tiles ∧
                                 Merge3d.tr_path tr = Merge3d.CStr k).
  { intros k. rewrite list_elem_of_fmap. split.
    - intros ([k' group] & -> & (_ & r & Hr & Hk)%elem_of_groupby_path).
      apply elem_of_List_filter in Hr as [Hr _]. eauto.
    - intros (tr & Htr & Hk). eexists (k, _). split; [reflexivity|].
      apply elem_of_groupby_path. split; [reflexivity|].
      exists tr. split; [|exact Hk].
      apply elem_of_List_filter. split; [exact Htr|]. by rewrite Hk. }
  intros k cj. split.
  - intros Hk. split; [by apply Hsub|].
    apply Hgroups. destruct (Hkeys k) as [[Hempty|Hin] _]; [by eexists| |exact Hin].
    rewrite lookup_empty in Hempty. by destruct Hempty.
  - intros [Hf Hex]. apply Hgroups in Hex.
    destruct (Hkeys k) as [_ [cj' Hcj']]; [by right|].
    rewrite Hcj'. apply Hsub in Hcj'. congruence.
Qed.

(** Every row of the tile join has a linked record. *)
Lemma link_covers (gdf_osm : list Merge3d.Point) (gdf_tiles : list Merge3d.Tile)
    (cache : gmap string Document) (matched_all : list Merge3d.MatchRow)
    (tr : Merge3d.TileRow) :
  Merge3d.link Polygon unary_union distance query_order label_ties files gdf_osm gdf_tiles
  = Ret (cache, matched_all) →
  tr ∈ Merge3d.sjoin gdf_osm gdf_tiles →
  ∃ m, m ∈ matched_all ∧ Merge3d.m_row m = tr.
Proof.
  intros Hlink Htr.
  apply elem_of_sjoin in Htr as Hsrc.
  destruct Hsrc as (p & Hp & [(t & Ht & Hw & Heq)|[Hnone Heq]]).
  - destruct (link_spec Polygon unary_union distance query_order label_ties files _ _ _ _ tr (Merge3d.path t)
                Hlink Htr) as (cj & bldg & _ & _ & Hrows); [by rewrite Heq|].
    destruct (match_group_outcome distance query_order [tr] bldg tr (list_elem_of_here _ _))
      as [(m & Hm & Hrow) _].
    exists m. by apply Hrows.
  - unfold Merge3d.link in Hlink.
    destruct (Merge3d.link_tiles Polygon unary_union distance query_order files ∅ _)
      as [[cache0 chunks]|e]; cbn in Hlink; [|discriminate].
    injection Hlink as <- <-.
    set (no_tile := List.filter (λ r, Merge3d.isna (Merge3d.tr_path r))
                      (Merge3d.sjoin gdf_osm gdf_tiles)).
    assert (Hno : tr ∈ no_tile)
      by (apply elem_of_List_filter; split; [exact Htr|by rewrite Heq]).
    exists {| Merge3d.m_row := tr; Merge3d.bldg_id := Merge3d.CNone;
              Merge3d.dist_m := Merge3d.CNone |}.
    split; [|reflexivity]. rewrite elem_of_sort_index.
    destruct no_tile as [|r0 rs] eqn:Hnt; [by apply elem_of_nil in Hno|].
    cbn [is_empty]. apply elem_of_app. right. apply elem_of_unmatched. eauto.
Qed.

(** The files written by [main], read back: one per linked record. *)
Lemma main_inv (gdf_osm : list Merge3d.Point) (gdf_tiles : list Merge3d.Tile)
    (writes : list (Merge3d.cell * Merge3d.BldData)) :
  Merge3d.main Polygon unary_union distance query_order label_ties files gdf_osm gdf_tiles = Ret writes →
  ∃ cache matched_all,
    Merge3d.link Polygon unary_union distance query_order label_ties files gdf_osm gdf_tiles
    = Ret (cache, matched_all) ∧
    Forall2 (λ row w, ∃ d, Merge3d.bld_data cache row = Ret d ∧
                           w = (Merge3d.row_osm_id row, d))
            matched_all writes.
Proof.
  unfold Merge3d.main.
  destruct (Merge3d.link Polygon unary_union distance query_order label_ties files gdf_osm gdf_tiles)
    as [[cache matched_all]|e]; cbn; [|discriminate].
  intros Hm%mapM_result_inv. exists cache, matched_all. split; [reflexivity|].
  eapply Forall2_impl; [exact Hm|]. intros row w. cbn.
  destruct (Merge3d.bld_data cache row) as [d|e]; cbn; [|discriminate].
  intros [= <-]. eauto.
Qed.

End Run_facts.

Lemma make_single_building_found (cj : Document) (bldg_id : string)
    (x : option Document) :
  is_Some (dict_get (cj_CityObjects cj) bldg_id) →
  Merge3d.make_single_building_cityjson cj bldg_id = Ret x →
  ∃ doc, x = Some doc.
Proof.
  intros [bld_obj Hget]. unfold Merge3d.make_single_building_cityjson. rewrite Hget.
  destruct (Merge3d.compact _ _) as [[new_vertices index_map]|e]; cbn; [|discriminate].
  destruct (mapM _ (co_geometry bld_obj)) as [geoms|e]; cbn; [|discriminate].
  intros [= <-]. eauto.
Qed.

Lemma Qltb_lt (a b : Q) : Merge3d.Qltb a b = true ↔ (a < b)%Q.
Proof.
  unfold Merge3d.Qltb. rewrite negb_true_iff, <- not_true_iff_false, Qle_bool_iff.
  split; [apply Qnot_le_lt|apply Qlt_not_le].
Qed.

(** The cache of tile documents.  After the tile loop the cache, from which
    the building files take the documents they embed, holds exactly the
    documents of the tiles that contain at least one point, each as it is
    in its file: the loop loads the document of no other tile, and when the
    linking ends without an exception the document of every tile that
    contains a point is in the cache. *)
Theorem cache_holds_the_tiles_with_points {Geom : Type}
    (Polygon : list (Q * Q) → result Geom) (unary_union : list Geom → Geom)
    (distance : Q * Q → Geom → Q)
    (query_order : Merge3d.Point → list (string * Geom) → string * Q → string * Q → bool)
    (label_ties : list Merge3d.MatchRow → Merge3d.MatchRow → Merge3d.MatchRow → bool)
    (files : gmap string Document)
    (gdf_osm : list Merge3d.Point) (gdf_tiles : list Merge3d.Tile)
    (cache : gmap string Document) (matched_all : list Merge3d.MatchRow) :
  Merge3d.link Polygon unary_union distance query_order label_ties files gdf_osm gdf_tiles
  = Ret (cache, matched_all) →
  (∀ k cj, cache !! k = Some cj
           ↔ files !! k = Some cj ∧
             ∃ p t, p ∈ gdf_osm ∧ t ∈ gdf_tiles ∧ Merge3d.within p t = true ∧
                    Merge3d.path t = k) ∧
  ∀ p t, p ∈ gdf_osm → t ∈ gdf_tiles → Merge3d.within p t = true →
         is_Some (cache !! Merge3d.path t).
Proof.
  intros Hlink.
  pose proof (link_cache Polygon unary_union distance query_order label_ties files _ _ _ _ Hlink) as Hcache.
  assert (Hrows : ∀ k, (∃ tr, tr ∈ Merge3d.sjoin gdf_osm gdf_tiles ∧
                              Merge3d.tr_path tr = Merge3d.CStr k)
                       ↔ ∃ p t, p ∈ gdf_osm ∧ t ∈ gdf_tiles ∧
                                Merge3d.within p t = true ∧ Merge3d.path t = k).
  { intros k. split.
    - intros (tr & (p & Hp & [(t & Ht & Hw & ->)|[_ ->]])%elem_of_sjoin & Hk);
        [|discriminate]. injection Hk as <-. eauto 10.
    - intros (p & t & Hp & Ht & Hw & <-). exists (Merge3d.tile_row p t).
      split; [by apply tile_row_in_sjoin|reflexivity]. }
  split.
  - intros k cj. rewrite Hcache, Hrows. reflexivity.
  - intros p t Hp Ht Hw.
    destruct (link_spec Polygon unary_union distance query_order label_ties files _ _ _ _
                (Merge3d.tile_row p t) (Merge3d.path t) Hlink)
      as (cj & _ & Hf & _); [by apply tile_row_in_sjoin|reflexivity|].
    exists cj. apply Hcache. split; [exact Hf|]. apply Hrows. eauto 10.
Qed.

Lemma cache_holds_the_tiles_with_points_witness :
  (∀ k cj, Examples.files !! k = Some cj
           ↔ Examples.files !! k = Some cj ∧
             ∃ p t, p ∈ [Examples.p_both] ∧ t ∈ [Examples.west; Examples.east] ∧
                    Merge3d.within p t = true ∧ Merge3d.path t = k) ∧
  ∀ p t, p ∈ [Examples.p_both] → t ∈ [Examples.west; Examples.east] →
         Merge3d.within p t = true →
         is_Some (Examples.files !! Merge3d.path t).
Proof.
  eapply (cache_holds_the_tiles_with_points
            Examples.Polygon Examples.unary_union Examples.distance Examples.query_order Examples.label_ties Examples.files).
  vm_compute. reflexivity.
Defined.

(** Every point gets a building file and every building file belongs to a
    point: the run writes, for each input point, at least one file under
    the osm id of the point, and no file under any other id. *)
Theorem every_point_gets_a_building_file {Geom : Type}
    (Polygon : list (Q * Q) → result Geom) (unary_union : list Geom → Geom)
    (distance : Q * Q → Geom → Q)
    (query_order : Merge3d.Point → list (string * Geom) → string * Q → string * Q → bool)
    (label_ties : list Merge3d.MatchRow → Merge3d.MatchRow → Merge3d.MatchRow → bool)
    (files : gmap string Document)
    (gdf_osm : list Merge3d.Point) (gdf_tiles : list Merge3d.Tile)
    (writes : list (Merge3d.cell * Merge3d.BldData)) :
  Merge3d.main Polygon unary_union distance query_order label_ties files gdf_osm gdf_tiles = Ret writes →
  (∀ p, p ∈ gdf_osm →
        ∃ d, (osm_id_of p, d) ∈ writes ∧ Merge3d.osm_id d = osm_id_of p) ∧
  (∀ id d, (id, d) ∈ writes → ∃ p, p ∈ gdf_osm ∧ id = osm_id_of p).
Proof.
  intros (cache & matched_all & Hlink & Hwrites)%main_inv. split.
  - intros p Hp.
    assert (Htr : ∃ tr, tr ∈ Merge3d.sjoin gdf_osm gdf_tiles ∧ Merge3d.tr_point tr = p).
    { destruct (List.filter (Merge3d.within p) gdf_tiles) as [|t ts] eqn:Hf.
      - exists (untiled_row p). split; [|reflexivity].
        apply elem_of_sjoin. exists p. split; [exact Hp|]. right.
        split; [by apply filter_nil_iff|reflexivity].
      - exists (Merge3d.tile_row p t). split; [|reflexivity].
        assert (Ht : t ∈ List.filter (Merge3d.within p) gdf_tiles)
          by (rewrite Hf; apply list_elem_of_here).
        apply elem_of_List_filter in Ht as [Ht Hw]. by apply tile_row_in_sjoin. }
    destruct Htr as (tr & Htr & <-).
    destruct (link_covers Polygon unary_union distance query_order label_ties files _ _ _ _ tr Hlink Htr)
      as (m & Hm & <-).
    apply list_elem_of_lookup in Hm as [i Hi].
    destruct (Forall2_lookup_l _ _ _ _ _ Hwrites Hi) as (w & Hw & d & Hd & ->).
    exists d. split; [by eapply list_elem_of_lookup_2|].
    unfold Merge3d.bld_data in Hd.
    destruct (match Merge3d.bldg_id m with Merge3d.CNone => _ | _ => _ end)
      as [single|e]; cbn in Hd; [|discriminate].
    by injection Hd as <-.
  - intros id d (i & Hi)%list_elem_of_lookup.
    destruct (Forall2_lookup_r _ _ _ _ _ Hwrites Hi) as (m & Hm & d' & _ & [= -> ->]).
    apply list_elem_of_lookup_2 in Hm.
    destruct (link_rows_origin Polygon unary_union distance query_order label_ties files _ _ _ _ m Hlink Hm)
      as [(p & Hp & Hpoint)%elem_of_sjoin_point _].
    exists p. split; [exact Hp|].
    unfold Merge3d.row_osm_id, osm_id_of. rewrite Hpoint. reflexivity.
Qed.

Lemma every_point_gets_a_building_file_witness :
  (∀ p, p ∈ Examples2.run_points →
        ∃ d, (osm_id_of p, d) ∈ Examples2.run_writes ∧ Merge3d.osm_id d = osm_id_of p) ∧
  (∀ id d, (id, d) ∈ Examples2.run_writes →
           ∃ p, p ∈ Examples2.run_points ∧ id = osm_id_of p).
Proof.
  apply (every_point_gets_a_building_file
           Examples.Polygon Examples.unary_union Examples.distance Examples.query_order Examples.label_ties Examples.files
           Examples2.run_points Examples2.run_tiles Examples2.run_writes).
  vm_compute. reflexivity.
Defined.

(** What a building file holds.  A file written by the run either names no
    building, and then has neither distance nor embedded document; or it
    names a building of type Building of a tile that contains the point,
    with the file name of that tile, a distance that is a number of at most
    [MAX_BUILDING_DISTANCE], and as embedded document the single-building
    extraction of that building from the tile's file.  A building id is
    never written without its document, nor a document without its id. *)
Theorem building_file_contents {Geom : Type}
    (Polygon : list (Q * Q) → result Geom) (unary_union : list Geom → Geom)
    (distance : Q * Q → Geom → Q)
    (query_order : Merge3d.Point → list (string * Geom) → string * Q → string * Q → bool)
    (label_ties : list Merge3d.MatchRow → Merge3d.MatchRow → Merge3d.MatchRow → bool)
    (files : gmap string Document)
    (gdf_osm : list Merge3d.Point) (gdf_tiles : list Merge3d.Tile)
    (writes : list (Merge3d.cell * Merge3d.BldData))
    (id : Merge3d.cell) (d : Merge3d.BldData) :
  Merge3d.main Polygon unary_union distance query_order label_ties files gdf_osm gdf_tiles = Ret writes →
  (id, d) ∈ writes →
  (Merge3d.isna (Merge3d.cityjson_building_id d) = true ∧
   Merge3d.distance_to_building_m d = Merge3d.CNone ∧
   Merge3d.cityjson d = None)
  ∨ ∃ p t cj b q doc,
      p ∈ gdf_osm ∧ t ∈ gdf_tiles ∧ Merge3d.within p t = true ∧
      id = osm_id_of p ∧
      Merge3d.cityjson_tile d = Merge3d.CStr (Merge3d.filename t) ∧
      files !! Merge3d.path t = Some cj ∧
      Merge3d.cityjson_building_id d = Merge3d.CStr b ∧
      b ∈ building_ids cj ∧
      Merge3d.distance_to_building_m d = Merge3d.CNum q ∧
      (q <= Merge3d.MAX_BUILDING_DISTANCE)%Q ∧
      Merge3d.make_single_building_cityjson cj b = Ret (Some doc) ∧
      Merge3d.cityjson d = Some doc.
Proof.
  intros (cache & matched_all & Hlink & Hwrites)%main_inv (i & Hi)%list_elem_of_lookup.
  destruct (Forall2_lookup_r _ _ _ _ _ Hwrites Hi) as (m & Hm & d' & Hd & [= -> <-]).
  apply list_elem_of_lookup_2 in Hm.
  destruct (link_rows_origin Polygon unary_union distance query_order label_ties files _ _ _ _ m Hlink Hm)
    as [Htr Hcase].
  unfold Merge3d.bld_data in Hd.
  destruct Hcase as [[Hb Hdist]|[k Hk]].
  - left. rewrite Hb, Hdist in Hd. cbn in Hd. injection Hd as <-. by cbn.
  - apply elem_of_sjoin in Htr as Hsrc.
    destruct Hsrc as (p & Hp & [(t & Ht & Hw & Hrow)|[_ Hrow]]);
      [|rewrite Hrow in Hk; discriminate].
    assert (k = Merge3d.path t) as -> by (rewrite Hrow in Hk; by injection Hk).
    destruct (link_spec Polygon unary_union distance query_order label_ties files _ _ _ _
                (Merge3d.m_row m) (Merge3d.path t) Hlink Htr Hk)
      as (cj & bldg & Hf & Hload & Hrows).
    assert (Hcache : cache !! Merge3d.path t = Some cj).
    { apply (link_cache Polygon unary_union distance query_order label_ties files _ _ _ _ Hlink).
      split; [exact Hf|]. eauto. }
    assert (Hmg : m ∈ Merge3d.match_group distance query_order [Merge3d.m_row m] bldg)
      by (by apply Hrows).
    destruct (match_group_outcome distance query_order [Merge3d.m_row m] bldg (Merge3d.m_row m)
                (list_elem_of_here _ _)) as [_ Hout].
    destruct (Hout m Hmg eq_refl)
      as [(b & g & Hbg & Hb & Hdist & Hacc & _)|(Hb & Hdist & _)].
    + right.
      destruct (load_buildings_inv Polygon unary_union cj bldg Hload)
        as [_ Hobjs].
      destruct (Hobjs b g Hbg) as (obj & Hobj & Hty & _).
      rewrite Hb, Hk, Hcache, Hdist in Hd. cbn in Hd.
      destruct (Merge3d.make_single_building_cityjson cj b) as [single|e] eqn:Hsingle;
        cbn in Hd; [|discriminate].
      destruct (make_single_building_found cj b single) as [doc ->];
        [by eapply dict_get_is_Some|exact Hsingle|].
      injection Hd as <-. cbn.
      exists p, t, cj, b, (distance (Merge3d.px (Merge3d.tr_point (Merge3d.m_row m)),
                                     Merge3d.py (Merge3d.tr_point (Merge3d.m_row m))) g), doc.
      split; [exact Hp|]. split; [exact Ht|]. split; [exact Hw|].
      split; [unfold Merge3d.row_osm_id, osm_id_of; by rewrite Hrow|].
      split; [by rewrite Hrow|]. split; [exact Hf|]. split; [reflexivity|].
      split.
      { unfold building_ids. apply list_elem_of_fmap. exists (b, obj).
        split; [reflexivity|]. apply elem_of_List_filter.
        split; [exact Hobj|]. by apply bool_decide_eq_true_2. }
      split; [reflexivity|]. split; [exact Hacc|]. split; [exact Hsingle|reflexivity].
    + left.
      rewrite Hk, Hcache in Hd.
      destruct (Merge3d.bldg_id m) eqn:Hbid; try discriminate Hb;
        cbn in Hd; injection Hd as <-; cbn; rewrite Hdist; by repeat split.
Qed.

Lemma building_file_contents_witness :
  (Merge3d.isna (Merge3d.cityjson_building_id Examples2.first_write.2) = true ∧
   Merge3d.distance_to_building_m Examples2.first_write.2 = Merge3d.CNone ∧
   Merge3d.cityjson Examples2.first_write.2 = None)
  ∨ ∃ p t cj b q doc,
      p ∈ Examples2.run_points ∧ t ∈ Examples2.run_tiles ∧ Merge3d.within p t = true ∧
      Examples2.first_write.1 = osm_id_of p ∧
      Merge3d.cityjson_tile Examples2.first_write.2 = Merge3d.CStr (Merge3d.filename t) ∧
      Examples.files !! Merge3d.path t = Some cj ∧
      Merge3d.cityjson_building_id Examples2.first_write.2 = Merge3d.CStr b ∧
      b ∈ building_ids cj ∧
      Merge3d.distance_to_building_m Examples2.first_write.2 = Merge3d.CNum q ∧
      (q <= Merge3d.MAX_BUILDING_DISTANCE)%Q ∧
      Merge3d.make_single_building_cityjson cj b = Ret (Some doc) ∧
      Merge3d.cityjson Examples2.first_write.2 = Some doc.
Proof.
  apply (building_file_contents
           Examples.Polygon Examples.unary_union Examples.distance Examples.query_order Examples.label_ties Examples.files
           Examples2.run_points Examples2.run_tiles Examples2.run_writes).
  - vm_compute. reflexivity.
  - apply list_elem_of_here.
Defined.

(** The file written first in the example run: the point in both tiles,
    linked in the east tile to building B at distance 10. *)
Example first_building_file :
  (Examples2.first_write.1, Merge3d.cityjson_tile Examples2.first_write.2,
   Merge3d.cityjson_building_id Examples2.first_write.2,
   Merge3d.distance_to_building_m Examples2.first_write.2,
   Merge3d.cityjson Examples2.first_write.2)
  = (Merge3d.CNum 0, Merge3d.CStr "east.json", Merge3d.CStr "B", Merge3d.CNum 10,
     Some Examples.east_doc).
Proof. vm_compute. reflexivity. Qed.

Lemma sjoin_untiled (gdf_osm : list Merge3d.Point) (gdf_tiles : list Merge3d.Tile) :
  (∀ p t, p ∈ gdf_osm → t ∈ gdf_tiles → Merge3d.within p t = false) →
  Merge3d.sjoin gdf_osm gdf_tiles = untiled_row <$> gdf_osm.
Proof.
  unfold Merge3d.sjoin. induction gdf_osm as [|p ps IH]; intros Hout; [reflexivity|].
  rewrite bind_cons, IH
    by (intros p' t Hp' Ht; by apply Hout; [apply list_elem_of_further|]).
  assert (List.filter (Merge3d.within p) gdf_tiles = []) as ->.
  { apply filter_nil_iff. intros t Ht. apply Hout; [apply list_elem_of_here|exact Ht]. }
  reflexivity.
Qed.

(** Points outside every tile.  When no point lies in any tile, the tile
    loop loads no document and the linking cannot fail; the frame of linked
    records holds every point twice, each time without tile, building id
    and distance:
    once from the copy of the tile join made when there are no chunks, and
    once from the rows without tile appended afterwards. *)
Theorem points_outside_every_tile_are_linked_twice {Geom : Type}
    (Polygon : list (Q * Q) → result Geom) (unary_union : list Geom → Geom)
    (distance : Q * Q → Geom → Q)
    (query_order : Merge3d.Point → list (string * Geom) → string * Q → string * Q → bool)
    (label_ties : list Merge3d.MatchRow → Merge3d.MatchRow → Merge3d.MatchRow → bool)
    (files : gmap string Document)
    (gdf_osm : list Merge3d.Point) (gdf_tiles : list Merge3d.Tile) :
  (∀ p t, p ∈ gdf_osm → t ∈ gdf_tiles → Merge3d.within p t = false) →
  Merge3d.link Polygon unary_union distance query_order label_ties files gdf_osm gdf_tiles
  = Ret (∅, Merge3d.sort_index label_ties
              (Merge3d.unmatched (untiled_row <$> gdf_osm)
               ++ Merge3d.unmatched (untiled_row <$> gdf_osm))%list).
Proof.
  intros Hout. unfold Merge3d.link. rewrite (sjoin_untiled _ _ Hout).
  assert (List.filter (λ r, negb (Merge3d.isna (Merge3d.tr_path r)))
                      (untiled_row <$> gdf_osm) = []) as ->.
  { apply filter_nil_iff. intros r (p & -> & _)%list_elem_of_fmap. reflexivity. }
  assert (List.filter (λ r, Merge3d.isna (Merge3d.tr_path r))
                      (untiled_row <$> gdf_osm) = untiled_row <$> gdf_osm) as ->.
  { apply filter_all_true, Forall_fmap, Forall_forall. reflexivity. }
  unfold Merge3d.groupby_path. cbn [omap list_omap list_to_set foldr].
  rewrite elements_empty. cbn.
  destruct gdf_osm as [|p ps]; reflexivity.
Qed.

Lemma points_outside_every_tile_are_linked_twice_witness :
  Merge3d.link Examples.Polygon Examples.unary_union Examples.distance Examples.query_order Examples.label_ties Examples.files
    [Examples2.p_outside] Examples2.run_tiles
  = Ret (∅, Merge3d.sort_index Examples.label_ties
              (Merge3d.unmatched (untiled_row <$> [Examples2.p_outside])
               ++ Merge3d.unmatched (untiled_row <$> [Examples2.p_outside]))%list).
Proof.
  apply (points_outside_every_tile_are_linked_twice
           Examples.Polygon Examples.unary_union Examples.distance Examples.query_order Examples.label_ties Examples.files
           [Examples2.p_outside] Examples2.run_tiles).
  intros p t ->%list_elem_of_singleton Ht.
  apply elem_of_cons in Ht as [->|Ht]; [reflexivity|].
  apply list_elem_of_singleton in Ht as ->. reflexivity.
Defined.

(** ** merge3d.py: the tile index *)

Lemma tile_of_Some (f : TileIndex.TileFile) (t : Merge3d.Tile) :
  TileIndex.tile_of f = Some t →
  ∃ xmin ymin zmin xmax ymax zmax,
    TileIndex.tf_extent f = Some [xmin; ymin; zmin; xmax; ymax; zmax] ∧
    t = {| Merge3d.filename := TileIndex.tf_name f; Merge3d.path := TileIndex.tf_path f;
           Merge3d.xmin := xmin; Merge3d.ymin := ymin;
           Merge3d.xmax := xmax; Merge3d.ymax := ymax |}.
Proof.
  unfold TileIndex.tile_of.
  destruct (TileIndex.tf_extent f) as [[|x0 [|y0 [|z0 [|x1 [|y1 [|z1 [|? ?]]]]]]]|];
    try discriminate.
  intros [= <-]. eauto 10.
Qed.

Lemma within_in_extent (p : Merge3d.Point) (name k : string)
    (xmin ymin zmin xmax ymax zmax : Q) :
  Merge3d.within p {| Merge3d.filename := name; Merge3d.path := k;
                      Merge3d.xmin := xmin; Merge3d.ymin := ymin;
                      Merge3d.xmax := xmax; Merge3d.ymax := ymax |} = true
  ↔ in_extent p [xmin; ymin; zmin; xmax; ymax; zmax].
Proof.
  unfold Merge3d.within, in_extent. cbn.
  rewrite !andb_true_iff, !Qltb_lt. tauto.
Qed.

(** The tile index and the assignment of points to tiles.  When the index
    is built it is not empty and some file has an extent of six numbers; a
    point is then joined to a tile, with the name and path of its file,
    exactly when the file has an extent of six numbers and the point lies
    strictly inside the box of its x and y bounds.  Files with a missing or
    malformed extent get no tile, the z bounds play no part, and a point on
    the border of a box is not in that tile. *)
Theorem tile_assignment_by_extent (found : list TileIndex.TileFile)
    (tiles : list Merge3d.Tile) (gdf_osm : list Merge3d.Point)
    (p : Merge3d.Point) (name k : string) :
  TileIndex.build_tile_index found = TileIndex.Index tiles →
  p ∈ gdf_osm →
  tiles ≠ [] ∧
  ({| Merge3d.tr_point := p; Merge3d.tr_filename := Merge3d.CStr name;
      Merge3d.tr_path := Merge3d.CStr k |} ∈ Merge3d.sjoin gdf_osm tiles
   ↔ ∃ f extent, f ∈ found ∧
                 TileIndex.tf_name f = name ∧ TileIndex.tf_path f = k ∧
                 TileIndex.tf_extent f = Some extent ∧
                 in_extent p extent).
Proof.
  unfold TileIndex.build_tile_index.
  destruct (omap TileIndex.tile_of found) as [|t0 ts] eqn:Hrows; cbn; [discriminate|].
  intros [= <-] Hp. split; [discriminate|]. rewrite <- Hrows.
  split.
  - intros (p' & _ & [(t & Ht & Hw & Heq)|[_ Heq]])%elem_of_sjoin; [|discriminate].
    injection Heq as <- -> ->.
    apply list_elem_of_omap in Ht as (f & Hf & Htile).
    apply tile_of_Some in Htile as (x0 & y0 & z0 & x1 & y1 & z1 & Hext & ->).
    exists f, [x0; y0; z0; x1; y1; z1]. cbn.
    split; [exact Hf|]. split; [reflexivity|]. split; [reflexivity|].
    split; [exact Hext|].
    exact (proj1 (within_in_extent p _ _ x0 y0 z0 x1 y1 z1) Hw).
  - intros (f & extent & Hf & <- & <- & Hext & Hin).
    destruct extent as [|x0 [|y0 [|z0 [|x1 [|y1 [|z1 [|? ?]]]]]]]; try (by destruct Hin).
    set (t := {| Merge3d.filename := TileIndex.tf_name f;
                 Merge3d.path := TileIndex.tf_path f;
                 Merge3d.xmin := x0; Merge3d.ymin := y0;
                 Merge3d.xmax := x1; Merge3d.ymax := y1 |}).
    change (Merge3d.tile_row p t ∈ Merge3d.sjoin gdf_osm (omap TileIndex.tile_of found)).
    apply tile_row_in_sjoin;
      [exact Hp| |exact (proj2 (within_in_extent p _ _ x0 y0 z0 x1 y1 z1) Hin)].
    apply list_elem_of_omap. exists f. split; [exact Hf|].
    unfold TileIndex.tile_of. rewrite Hext. reflexivity.
Qed.

Lemma tile_assignment_by_extent_witness :
  Examples2.run_tiles ≠ [] ∧
  ({| Merge3d.tr_point := Examples.p_both; Merge3d.tr_filename := Merge3d.CStr "east.json";
      Merge3d.tr_path := Merge3d.CStr "tiles/east.json" |}
     ∈ Merge3d.sjoin Examples2.run_points Examples2.run_tiles
   ↔ ∃ f extent, f ∈ Examples2.found ∧
                 TileIndex.tf_name f = "east.json" ∧
                 TileIndex.tf_path f = "tiles/east.json" ∧
                 TileIndex.tf_extent f = Some extent ∧
                 in_extent Examples.p_both extent).
Proof.
  apply (tile_assignment_by_extent Examples2.found Examples2.run_tiles
           Examples2.run_points Examples.p_both "east.json" "tiles/east.json").
  - reflexivity.
  - apply list_elem_of_here.
Defined.

(** ** From the linker to the mesh export *)

Lemma remap_boundaries_relabel (m : gmap Z Z) (t t' : tree) :
  Merge3d.remap_boundaries m t = Ret t' → t' = relabel (renaming m) t.
Proof.
  revert t'. induction t as [i| |l IH] using tree_ind; intros t'; cbn.
  - unfold renaming. destruct (m !! i) as [j|]; cbn; [|discriminate]. by intros [= <-].
  - by intros [= <-].
  - destruct (mapM (Merge3d.remap_boundaries m) l) as [l'|e] eqn:Hl; cbn; [|discriminate].
    intros [= <-]. f_equal. apply mapM_result_inv in Hl.
    induction Hl as [|t t' l l' Ht _ IHl]; [reflexivity|].
    apply Forall_cons in IH as [IHt IH]. cbn. f_equal; [by apply IHt|by apply IHl].
Qed.

(** The index map of a compaction, read at one key. *)
Lemma compact_lookup (full_vertices new_vertices : list vertex) (used : gset Z)
    (index_map : gmap Z Z) (g j : Z) :
  Merge3d.compact full_vertices used = Ret (new_vertices, index_map) →
  index_map !! g = Some j →
  ∃ v, py_index full_vertices g = Ret v ∧ py_index new_vertices j = Ret v.
Proof.
  intros Hc Hj.
  apply compact_inv in Hc as [(_ & _ & ->)|(_ & -> & Hrows)];
    [by rewrite lookup_empty in Hj|].
  destruct (sorted_used_spec used) as (_ & Hnd & _).
  apply (enumerate_map_lookup _ _ _ Hnd) in Hj as (i & -> & Hi).
  destruct (Forall2_lookup_l _ _ _ _ _ Hrows Hi) as (v & Hv & Hgv).
  exists v. split; [exact Hgv|]. apply py_index_nonneg; [lia|]. by rewrite Nat2Z.id.
Qed.

Lemma dict_append_relabel (f : Z → Z) (d : Mesh.ring_dict) (k : string)
    (ring : list tree) :
  Mesh.dict_append (relabel_rings f d) k (map (relabel f) ring)
  = relabel_rings f (Mesh.dict_append d k ring).
Proof.
  unfold relabel_rings. induction d as [|[k' rings] d IH]; [reflexivity|].
  cbn. destruct (String.eqb k' k); cbn.
  - by rewrite map_app.
  - by rewrite IH.
Qed.

Lemma truthy_relabel (f : Z → Z) (t : tree) :
  lists_above 1 t → truthy (relabel f t) = truthy t.
Proof. destruct t as [i| |[|x l]]; cbn; [intros []|reflexivity..]. Qed.

Lemma py_index_head {A : Type} (x : A) (l : list A) : py_index (x :: l) 0 = Ret x.
Proof. apply py_index_nonneg; [lia|reflexivity]. Qed.

Lemma collect_surface_relabel (geom geom' : Geometry) (f : Z → Z) (idx_path : list Z)
    (surface : tree) (d : Mesh.ring_dict) :
  g_semantics geom' = g_semantics geom →
  lists_above 1 surface →
  Mesh.collect_surface geom' idx_path (relabel f surface) (relabel_rings f d)
  = relabel_rings f <$> Mesh.collect_surface geom idx_path surface d.
Proof.
  intros Hsem Hlist. unfold Mesh.collect_surface.
  rewrite (truthy_relabel f surface Hlist).
  rewrite (get_sem_type_semantics geom geom' idx_path Hsem).
  destruct surface as [i| |[|outer rest]]; [destruct Hlist|reflexivity..|].
  cbn [truthy is_empty negb relabel map getitem].
  rewrite !py_index_head.
  cbn [mbind result_bind bind].
  destruct outer as [i| |ring]; cbn [relabel]; [reflexivity..|].
  rewrite length_map. case_bool_decide; [reflexivity|].
  destruct (Bld2Mesh.get_sem_type geom idx_path) as [sem_type|e]; [|reflexivity].
  cbn. by rewrite dict_append_relabel.
Qed.

Lemma enumerate_fold_relabel
    (body body' : nat → tree → Mesh.ring_dict → result Mesh.ring_dict)
    (P : tree → Prop) (f : Z → Z) (l : list tree) (i : nat) (d : Mesh.ring_dict) :
  Forall P l →
  (∀ i x d, P x → body' i (relabel f x) (relabel_rings f d)
                  = relabel_rings f <$> body i x d) →
  Mesh.enumerate_fold body' i (map (relabel f) l) (relabel_rings f d)
  = relabel_rings f <$> Mesh.enumerate_fold body i l d.
Proof.
  intros Hall Hbody. revert i d.
  induction Hall as [|x l Hx _ IH]; intros i d; cbn; [reflexivity|].
  rewrite (Hbody i x d Hx). destruct (body i x d) as [d'|e]; cbn; [apply IH|reflexivity].
Qed.

(** A loop over the members of a list value whose body commutes with the
    renaming. *)
Lemma iterate_relabel
    (body body' : nat → tree → Mesh.ring_dict → result Mesh.ring_dict)
    (n : nat) (f : Z → Z) (t : tree) (d : Mesh.ring_dict) :
  lists_above (S n) t →
  (∀ i x d, lists_above n x → body' i (relabel f x) (relabel_rings f d)
                              = relabel_rings f <$> body i x d) →
  (xs ← Mesh.iter (relabel f t); Mesh.enumerate_fold body' 0 xs (relabel_rings f d))
  = relabel_rings f <$> (xs ← Mesh.iter t; Mesh.enumerate_fold body 0 xs d).
Proof.
  intros Hlist Hbody. destruct t as [i| |l]; [destruct Hlist|reflexivity|].
  cbn [relabel Mesh.iter mbind result_bind bind].
  by apply (enumerate_fold_relabel body body' (lists_above n)).
Qed.

Lemma lists_above_1 (n : nat) (t : tree) : lists_above (S n) t → lists_above 1 t.
Proof.
  destruct t as [i| |l]; cbn; [tauto..|]. intros _. apply Forall_forall. by intros.
Qed.

Lemma collect_geometry_relabel (geom geom' : Geometry) (f : Z → Z) (d : Mesh.ring_dict) :
  g_type geom' = g_type geom →
  g_semantics geom' = g_semantics geom →
  Merge3d.boundaries_of geom' = relabel f (Merge3d.boundaries_of geom) →
  well_nested geom →
  Mesh.collect_geometry geom' (relabel_rings f d)
  = relabel_rings f <$> Mesh.collect_geometry geom d.
Proof.
  intros Hty Hsem Hb Hnest.
  assert (Hmulti : lists_above 2 (Merge3d.boundaries_of geom) →
            Mesh.collect_multisurface geom' (relabel f (Merge3d.boundaries_of geom))
              (relabel_rings f d)
            = relabel_rings f <$> Mesh.collect_multisurface geom (Merge3d.boundaries_of geom) d).
  { intros Hlist. unfold Mesh.collect_multisurface.
    apply (iterate_relabel _ _ 1); [exact Hlist|].
    intros i x d0 Hx. by apply collect_surface_relabel. }
  unfold well_nested, surface_depth in Hnest. unfold Mesh.collect_geometry.
  rewrite Hty, Hb.
  destruct (Mesh.one_of (default "" (g_type geom)) "MultiSurface" "CompositeSurface");
    [by apply Hmulti|].
  destruct (Mesh.one_of (default "" (g_type geom)) "Solid" "MultiSolid");
    [|by apply Hmulti].
  unfold Mesh.collect_solids.
  apply (iterate_relabel _ _ 3); [exact Hnest|].
  intros solid_index solid d1 Hsolid. unfold Mesh.collect_solid.
  rewrite (truthy_relabel f solid (lists_above_1 _ _ Hsolid)).
  destruct (truthy solid); cbn [negb]; [|reflexivity].
  apply (iterate_relabel _ _ 2); [exact Hsolid|].
  intros shell_index shell d2 Hshell. unfold Mesh.collect_shell.
  rewrite (truthy_relabel f shell (lists_above_1 _ _ Hshell)).
  destruct (truthy shell); cbn [negb]; [|reflexivity].
  apply (iterate_relabel _ _ 1); [exact Hshell|].
  intros i x d3 Hx. by apply collect_surface_relabel.
Qed.

Lemma collect_geometries_relabel (geoms geoms' : list Geometry) (f : Z → Z)
    (d : Mesh.ring_dict) :
  Forall2 (λ geom geom',
             g_type geom' = g_type geom ∧
             g_semantics geom' = g_semantics geom ∧
             Merge3d.boundaries_of geom' = relabel f (Merge3d.boundaries_of geom) ∧
             well_nested geom) geoms geoms' →
  Mesh.collect_geometries geoms' (relabel_rings f d)
  = relabel_rings f <$> Mesh.collect_geometries geoms d.
Proof.
  intros Hall. revert d.
  induction Hall as [|geom geom' geoms geoms' (Hty & Hsem & Hb & Hnest) _ IH];
    intros d; cbn; [reflexivity|].
  rewrite (collect_geometry_relabel geom geom' f d Hty Hsem Hb Hnest).
  destruct (Mesh.collect_geometry geom d) as [d'|e]; cbn; [apply IH|reflexivity].
Qed.

Lemma py_index_fmap {A B : Type} (f : A → B) (l : list A) (i : Z) (x : A) :
  py_index l i = Ret x → py_index (f <$> l) i = Ret (f x).
Proof.
  unfold py_index. rewrite length_fmap.
  destruct (bool_decide (0 ≤ _ < _)); [|discriminate].
  rewrite list_lookup_fmap.
  destruct (l !! _) as [y|]; cbn; [|discriminate]. by intros [= ->].
Qed.

(** The mesh export reads the written building as it reads the tile.  The
    single-building document of a building with a non-empty id is found by
    the geometry source step in its embedded block, with the vertex array
    of the document converted to floats; and when the boundaries of the
    building hold lists down to their surfaces, the polygons collected from
    the extracted building are those collected from the building in the
    tile, under the same semantic types, in the same order, with every
    vertex index renamed to an index of the new vertex array that holds
    the same vertex; the collection fails on the one exactly as it fails on
    the other. *)
Theorem mesh_export_reads_the_extracted_building
    (to_float : Q → Q) (cj doc : Document) (bldg_id : string) (bld_obj : CityObject)
    (files : gmap string Document) (tile_name : option string) (building : bool) :
  Merge3d.make_single_building_cityjson cj bldg_id = Ret (Some doc) →
  dict_get (cj_CityObjects cj) bldg_id = Some bld_obj →
  bldg_id ≠ "" →
  Forall well_nested (co_geometry bld_obj) →
  ∃ bld_obj' f,
    cj_CityObjects doc = [(bldg_id, bld_obj')] ∧
    Mesh.resolve_source to_float files
      {| Mesh.in_cityjson := Some doc; Mesh.in_building_id := Some bldg_id;
         Mesh.in_tile := tile_name; Mesh.in_building := building |}
    = Ret (Mesh.np_array to_float (cj_vertices doc), bld_obj') ∧
    (∀ geom g, geom ∈ co_geometry bld_obj → g ∈ leaves (Merge3d.boundaries_of geom) →
       ∃ v, py_index (cj_vertices cj) g = Ret v ∧
            py_index (cj_vertices doc) (f g) = Ret v ∧
            py_index (Mesh.np_array to_float (cj_vertices doc)) (f g)
            = Ret (Mesh.float_vertex to_float v)) ∧
    Mesh.collect_polygons bld_obj' = relabel_rings f <$> Mesh.collect_polygons bld_obj.
Proof.
  intros (bld_obj0 & new_vertices & index_map & geoms & Hget0 & Hc & Hgeoms & ->)
    %make_single_building_inv Hget Hid Hnest.
  rewrite Hget in Hget0. injection Hget0 as <-.
  exists (Merge3d.set_geometry bld_obj geoms), (renaming index_map).
  split; [reflexivity|]. split; [|split].
  - unfold Mesh.resolve_source, Mesh.nonempty. cbn.
    destruct (String.eqb_spec bldg_id "") as [?|_]; [contradiction|].
    cbn. rewrite String.eqb_refl. reflexivity.
  - intros geom g Hgeom Hg. cbn [cj_vertices].
    apply list_elem_of_lookup in Hgeom as [k Hk].
    destruct (Forall2_lookup_l _ _ _ _ _ Hgeoms Hk) as (geom' & _ & b' & Hb' & _).
    apply remap_boundaries_dom with (g := g) in Hb' as [j Hj]; [|exact Hg].
    unfold renaming. rewrite Hj. cbn.
    destruct (compact_lookup _ _ _ _ _ _ Hc Hj) as (v & Hv & Hv').
    exists v. split; [exact Hv|]. split; [exact Hv'|].
    by apply py_index_fmap.
  - unfold Mesh.collect_polygons. cbn [co_geometry Merge3d.set_geometry].
    apply Forall2_length in Hgeoms as Hlen.
    destruct (co_geometry bld_obj) as [|geom0 rest] eqn:Hgs.
    { destruct geoms; [reflexivity|discriminate]. }
    destruct geoms as [|geom0' rest']; [discriminate|]. cbn [is_empty].
    rewrite <- Hgs in *.
    change (@nil (string * list (list tree))) with (relabel_rings (renaming index_map) [])
      at 1.
    rewrite (collect_geometries_relabel (co_geometry bld_obj) (geom0' :: rest')
               (renaming index_map) []).
    + destruct (Mesh.collect_geometries (co_geometry bld_obj) []) as [[|kr d]|e];
        reflexivity.
    + assert (Hboth : Forall2 (λ geom geom',
                         (∃ b', Merge3d.remap_boundaries index_map
                                  (Merge3d.boundaries_of geom) = Ret b' ∧
                                geom' = Merge3d.set_boundaries geom b') ∧
                         well_nested geom)
                        (co_geometry bld_obj) (geom0' :: rest')).
      { apply Forall2_same_length_lookup. split; [by apply Forall2_length in Hgeoms|].
        intros k geom geom' Hk Hk'. split.
        - destruct (Forall2_lookup_l _ _ _ _ _ Hgeoms Hk) as (geom'' & Hk'' & Hrel).
          rewrite Hk' in Hk''. by injection Hk'' as <-.
        - rewrite Forall_forall in Hnest. apply Hnest.
          by eapply list_elem_of_lookup_2. }
      eapply Forall2_impl; [exact Hboth|].
      intros geom geom' [(b' & Hb' & ->) Hwn]. cbn.
      split; [reflexivity|]. split; [reflexivity|].
      split; [by apply remap_boundaries_relabel|exact Hwn].
Qed.

Lemma mesh_export_reads_the_extracted_building_witness :
  ∃ bld_obj' f,
    cj_CityObjects Examples.box_local_doc = [("b1", bld_obj')] ∧
    Mesh.resolve_source Examples2.exact ∅
      {| Mesh.in_cityjson := Some Examples.box_local_doc;
         Mesh.in_building_id := Some "b1";
         Mesh.in_tile := None; Mesh.in_building := false |}
    = Ret (Mesh.np_array Examples2.exact (cj_vertices Examples.box_local_doc), bld_obj') ∧
    (∀ geom g, geom ∈ co_geometry Examples.b1 →
       g ∈ leaves (Merge3d.boundaries_of geom) →
       ∃ v, py_index (cj_vertices Examples.box_doc) g = Ret v ∧
            py_index (cj_vertices Examples.box_local_doc) (f g) = Ret v ∧
            py_index (Mesh.np_array Examples2.exact (cj_vertices Examples.box_local_doc))
                     (f g)
            = Ret (Mesh.float_vertex Examples2.exact v)) ∧
    Mesh.collect_polygons bld_obj' = relabel_rings f <$> Mesh.collect_polygons Examples.b1.
Proof.
  apply (mesh_export_reads_the_extracted_building
           Examples2.exact Examples.box_doc Examples.box_local_doc "b1" Examples.b1
           ∅ None false).
  - vm_compute. reflexivity.
  - reflexivity.
  - discriminate.
  - apply Forall_cons. split; [|apply Forall_nil; exact I].
    unfold well_nested. cbn. repeat constructor.
Defined.
